(** * ts-http-impl: request parsing, routing and response serialisation

    A shallow embedding of [src/app/main.ts] (the revision with gzip
    support: [HttpRes], [RequestBuilder], [HttpServer] and the routes
    registered on [app]), followed by the properties of the written
    specification that concern it.  The three revisions that precede it
    are embedded where they differ, in [FirstServer], [EchoServer] and
    [FileServer].

    Conventions of the embedding.
    - A JavaScript string is a [string]; one [ascii] stands for one UTF-16
      code unit below 256, so the request text covered is the Latin-1
      range.  [Str.utf8] gives the bytes such a string occupies on the wire.
    - A [Buffer] is a [list byte].
    - A JavaScript [Map] is an association list in insertion order with
      the update-in-place behaviour of [Map.prototype.set]; the plain
      objects [params] and [headers], which the program only ever reads
      by key, are [gmap string string].
    - A call that can throw returns a [res]; the socket is the list of the
      chunks written to it, oldest first.
    - The regular expressions covered are those of routes made of literal
      characters, dots and parameters; for a route with other syntax
      [Regex.route_regex] answers [Throw Unmodelled], and the statements
      about routes are limited to the routes it accepts.
    - What goes out is read back the way a client reads it:
      [Wire.head_lines] and [Wire.header_values] take the head apart
      line by line, names without regard to case. *)

From Stdlib Require Import ZArith Ascii String Strings.Byte DecimalString DecimalNat.
From stdpp Require Import base option list strings gmap.

(** ** Code units *)

Module Char.

Definition code (c : ascii) : nat := nat_of_ascii c.

Definition in_range (lo hi : nat) (c : ascii) : bool :=
  (lo <=? code c) && (code c <=? hi).

Definition eqb (a b : ascii) : bool := Ascii.eqb a b.

Definition is_digit : ascii -> bool := in_range 48 57.
Definition is_upper : ascii -> bool := in_range 65 90.
Definition is_lower : ascii -> bool := in_range 97 122.

(** [\w] of a regular expression without the [u] and [i] flags. *)
Definition is_word (c : ascii) : bool :=
  is_upper c || is_lower c || is_digit c || eqb c "_"%char.

(** [[\w-]], the class the route matcher puts in place of a parameter. *)
Definition is_word_or_hyphen (c : ascii) : bool :=
  is_word c || eqb c "-"%char.

(** [\s], and also the characters [String.prototype.trim] strips: tab,
    line feed, vertical tab, form feed, carriage return, space and the
    no-break space. *)
Definition is_space (c : ascii) : bool :=
  in_range 9 13 c || (code c =? 32) || (code c =? 160).

(** [[^\s/]], the class of the characters of a parameter name. *)
Definition is_name_char (c : ascii) : bool :=
  negb (is_space c) && negb (eqb c "/"%char).

(** Line terminators, which [.] does not match. *)
Definition is_line_terminator (c : ascii) : bool :=
  (code c =? 10) || (code c =? 13).

(** SyntaxCharacter of the regular-expression grammar. *)
Definition is_syntax (c : ascii) : bool :=
  existsb (eqb c)
    ["^"; "$"; "\"; "."; "*"; "+"; "?"; "("; ")"; "["; "]"; "{"; "}"; "|"]%char.

(** [toLowerCase] on one code unit: A-Z, and the Latin-1 capitals
    U+00C0..U+00DE without the multiplication sign U+00D7. *)
Definition to_lower (c : ascii) : ascii :=
  if is_upper c || (in_range 192 222 c && negb (code c =? 215))
  then ascii_of_nat (code c + 32)
  else c.

End Char.

(** ** Strings *)

Module Str.

Definition CR : ascii := ascii_of_nat 13.
Definition LF : ascii := ascii_of_nat 10.
Definition CRLF : string := String CR (String LF EmptyString).

Fixpoint all (p : ascii -> bool) (s : string) : bool :=
  match s with
  | EmptyString => true
  | String c s' => p c && all p s'
  end.

Definition is_empty (s : string) : bool :=
  match s with EmptyString => true | _ => false end.

(** A string in a condition: the empty string is falsy. *)
Definition truthy (s : string) : bool := negb (is_empty s).

Definition push_front (c : ascii) (parts : list string) : list string :=
  match parts with
  | h :: t => String c h :: t
  | [] => [String c EmptyString]
  end.

(** The text before the first [c], and the text after it when there
    is one. *)
Fixpoint before (c : ascii) (s : string) : string :=
  match s with
  | EmptyString => EmptyString
  | String a s' =>
      if Char.eqb a c then EmptyString else String a (before c s')
  end.

Fixpoint after (c : ascii) (s : string) : option string :=
  match s with
  | EmptyString => None
  | String a s' => if Char.eqb a c then Some s' else after c s'
  end.

(** [s.split(c)] for a separator of one character. *)
Fixpoint split_char (c : ascii) (s : string) : list string :=
  match s with
  | EmptyString => [EmptyString]
  | String a s' =>
      if Char.eqb a c then EmptyString :: split_char c s'
      else push_front a (split_char c s')
  end.

(** [s.split("\r\n")]. *)
Fixpoint split_crlf (s : string) : list string :=
  match s with
  | EmptyString => [EmptyString]
  | String a s' =>
      match s' with
      | String b s'' =>
          if Char.eqb a CR && Char.eqb b LF
          then EmptyString :: split_crlf s''
          else push_front a (split_crlf s')
      | EmptyString => [String a EmptyString]
      end
  end.

(** Whether a carriage return followed by a line feed occurs in [s]. *)
Fixpoint contains_crlf (s : string) : bool :=
  match s with
  | EmptyString => false
  | String a s' =>
      match s' with
      | String b _ => (Char.eqb a CR && Char.eqb b LF) || contains_crlf s'
      | EmptyString => false
      end
  end.

(** The number of occurrences of [c] in [s]. *)
Fixpoint count (c : ascii) (s : string) : nat :=
  match s with
  | EmptyString => 0
  | String a s' => (if Char.eqb a c then 1 else 0) + count c s'
  end.

(** [s.replace(a, b)] with a one-character string pattern: only the
    first occurrence is replaced. *)
Fixpoint replace_first (a b : ascii) (s : string) : string :=
  match s with
  | EmptyString => EmptyString
  | String c s' =>
      if Char.eqb c a then String b s' else String c (replace_first a b s')
  end.

Fixpoint toLowerCase (s : string) : string :=
  match s with
  | EmptyString => EmptyString
  | String c s' => String (Char.to_lower c) (toLowerCase s')
  end.

Fixpoint trim_start (s : string) : string :=
  match s with
  | String c s' => if Char.is_space c then trim_start s' else s
  | EmptyString => EmptyString
  end.

Fixpoint trim_end (s : string) : string :=
  match s with
  | EmptyString => EmptyString
  | String c s' =>
      match trim_end s' with
      | EmptyString => if Char.is_space c then EmptyString
                       else String c EmptyString
      | t => String c t
      end
  end.

(** [s.trim()]. *)
Definition trim (s : string) : string := trim_end (trim_start s).

(** The UTF-8 encoding of a string of code units below 256, which is
    what [Buffer.byteLength], [socket.write] and [zlib.gzipSync] see. *)
Definition utf8_char (c : ascii) : list byte :=
  let n := Char.code c in
  if n <? 128 then [byte_of_ascii c]
  else [byte_of_ascii (ascii_of_nat (192 + n / 64));
        byte_of_ascii (ascii_of_nat (128 + n mod 64))].

Fixpoint utf8 (s : string) : list byte :=
  match s with
  | EmptyString => []
  | String c s' => utf8_char c ++ utf8 s'
  end.

(** [Buffer.byteLength(s)]. *)
Definition byteLength (s : string) : nat := length (utf8 s).

(** [n.toString()] for a length. *)
Definition of_nat (n : nat) : string :=
  NilZero.string_of_uint (Nat.to_uint n).

(** Whether a text is empty or starts, respectively ends, with a
    character other than white space. *)
Definition no_leading_space (s : string) : bool :=
  match s with
  | String c _ => negb (Char.is_space c)
  | EmptyString => true
  end.

Fixpoint no_trailing_space (s : string) : bool :=
  match s with
  | EmptyString => true
  | String c EmptyString => negb (Char.is_space c)
  | String _ s' => no_trailing_space s'
  end.

End Str.

(** ** Arrays *)

Module Arr.

(** The index [Array.prototype.slice] derives from a relative one. *)
Definition clamp (len : nat) (i : Z) : nat :=
  if (i <? 0)%Z then Z.to_nat (Z.max 0 (Z.of_nat len + i))
  else Nat.min (Z.to_nat i) len.

(** [a.slice(start, stop)]. *)
Definition slice {A} (start stop : Z) (a : list A) : list A :=
  let from := clamp (length a) start in
  let to := clamp (length a) stop in
  take (to - from) (drop from a).

(** [a.slice(-1)[0]]. *)
Definition last_element {A} (a : list A) : option A :=
  slice (-1) (Z.of_nat (length a)) a !! 0.

End Arr.

(** ** Results of calls that can throw *)

Inductive exn : Type :=
  | TypeError
      (** a property read on [undefined], or [undefined] iterated *)
  | SystemError
      (** a call of [fs] that fails *)
  | Unmodelled
      (** a route whose regular expression leaves the fragment of
          [RegExp] that [Regex.parse] covers *).

Inductive res (A : Type) : Type :=
  | Val (a : A)
  | Throw (e : exn).

Arguments Val {A} a.
Arguments Throw {A} e.

Definition res_bind {A B} (r : res A) (k : A -> res B) : res B :=
  match r with
  | Val a => k a
  | Throw e => Throw e
  end.

(** ** Route patterns and their regular expressions *)

Module Regex.

(** The pieces [/:[^\s/]+/g] cuts a route into: a parameter is a colon
    followed by at least one character that is neither white space nor
    a slash, and it extends as far as such characters go. *)
Inductive token : Type :=
  | TChar (c : ascii)
  | TParam (name : string).

Definition starts_with_name_char (s : string) : bool :=
  match s with
  | String c _ => Char.is_name_char c
  | EmptyString => false
  end.

Definition extend_param (c : ascii) (ts : list token) : list token :=
  match ts with
  | TParam n :: r => TParam (String c n) :: r
  | _ => TParam (String c EmptyString) :: ts
  end.

(** The scan of the global regular expression over the route, from the
    left; [inside] holds while a parameter name is being consumed. *)
Fixpoint scan (inside : bool) (s : string) : list token :=
  match s with
  | EmptyString => if inside then [TParam EmptyString] else []
  | String c s' =>
      if inside then
        if Char.is_name_char c then extend_param c (scan true s')
        else TParam EmptyString :: TChar c :: scan false s'
      else if Char.eqb c ":"%char && starts_with_name_char s'
           then scan true s'
           else TChar c :: scan false s'
  end.

Definition tokens (route : string) : list token := scan false route.

(** The replacement text ['([\\w-]+)']. *)
Definition group_source : string := "([\w-]+)".

Fixpoint render (ts : list token) : string :=
  match ts with
  | [] => EmptyString
  | TChar c :: r => String c (render r)
  | TParam _ :: r => group_source +:+ render r
  end.

(** [route.replace(/:[^\s/]+/g, '([\\w-]+)')]. *)
Definition replace_params (route : string) : string :=
  render (tokens route).

(** [route.match(/:[^\s/]+/g) || []] with [substring(1)] applied to
    each element: the parameter names without their colon. *)
Definition token_name (t : token) : option string :=
  match t with
  | TParam n => Some n
  | TChar _ => None
  end.

Definition param_names (route : string) : list string :=
  omap token_name (tokens route).

(** The fragment of the regular-expression language that is modelled:
    an ordinary character, [.], and the capturing group [([\w-]+)]. *)
Inductive atom : Type :=
  | Lit (c : ascii)
  | Dot
  | Group.

Fixpoint starts_with (p s : string) : bool :=
  match p, s with
  | EmptyString, _ => true
  | String a p', String b s' => Char.eqb a b && starts_with p' s'
  | String _ _, EmptyString => false
  end.

(** Reads the source of a regular expression; [skip] counts the
    characters of a group that are still to be passed over.  Any other
    use of a syntax character is outside the fragment. *)
Fixpoint parse (skip : nat) (src : string) : option (list atom) :=
  match src with
  | EmptyString => Some []
  | String c src' =>
      match skip with
      | S k => parse k src'
      | O =>
          if starts_with group_source src
          then cons Group <$> parse (String.length group_source - 1) src'
          else if Char.eqb c "."%char then cons Dot <$> parse 0 src'
          else if Char.is_syntax c then None
          else cons (Lit c) <$> parse 0 src'
      end
  end.

Fixpoint take (n : nat) (s : string) : string :=
  match n, s with
  | S k, String c s' => String c (take k s')
  | _, _ => EmptyString
  end.

Fixpoint drop (n : nat) (s : string) : string :=
  match n, s with
  | S k, String _ s' => drop k s'
  | _, _ => s
  end.

(** Length of the longest prefix made of characters of [[\w-]]. *)
Fixpoint run_length (s : string) : nat :=
  match s with
  | String c s' => if Char.is_word_or_hyphen c then S (run_length s') else 0
  | EmptyString => 0
  end.

(** The greedy quantifier [+]: the longest run first, then shorter
    ones, down to one character. *)
Fixpoint try_lengths (k : nat) (cont : string -> option (list string))
    (s : string) : option (list string) :=
  match k with
  | O => None
  | S k' =>
      match cont (drop k s) with
      | Some caps => Some (take k s :: caps)
      | None => try_lengths k' cont s
      end
  end.

(** A match of [^atoms$] against the whole of [s]; the result lists
    the text of the groups, [match[1]], [match[2]], ... *)
Fixpoint match_atoms (atoms : list atom) (s : string)
    : option (list string) :=
  match atoms with
  | [] => if Str.is_empty s then Some [] else None
  | Lit c :: r =>
      match s with
      | String a s' => if Char.eqb a c then match_atoms r s' else None
      | EmptyString => None
      end
  | Dot :: r =>
      match s with
      | String a s' =>
          if Char.is_line_terminator a then None else match_atoms r s'
      | EmptyString => None
      end
  | Group :: r => try_lengths (run_length s) (match_atoms r) s
  end.

(** The regular expression that spells out a text. *)
Fixpoint literal (s : string) : list atom :=
  match s with
  | EmptyString => []
  | String c s' => Lit c :: literal s'
  end.

(** The tokens of a text in which the scan finds no parameter, and the
    atom a token becomes. *)
Fixpoint text_tokens (s : string) : list token :=
  match s with
  | EmptyString => []
  | String c s' => TChar c :: text_tokens s'
  end.

Definition atom_of_token (t : token) : atom :=
  match t with
  | TChar c => Lit c
  | TParam _ => Group
  end.

(** The number of groups of a regular expression, and whether none of
    the first [k] characters of a text opens one. *)
Fixpoint count_groups (atoms : list atom) : nat :=
  match atoms with
  | [] => 0
  | Group :: r => S (count_groups r)
  | _ :: r => count_groups r
  end.

Fixpoint no_paren (k : nat) (s : string) : bool :=
  match k, s with
  | S k', String c s' => negb (Char.eqb c "("%char) && no_paren k' s'
  | _, _ => true
  end.

(** A token whose character stands for itself in a regular
    expression, and the two places where a segment of a route ends. *)
Definition token_ok (t : token) : Prop :=
  match t with
  | TChar c => Char.is_syntax c = false
  | TParam _ => True
  end.

Definition at_boundary (rest : string) : Prop :=
  rest = EmptyString \/ exists r, rest = String "/"%char r.

(** [new RegExp(`^${route.replace(...)}$`)]. *)
Definition route_regex (route : string) : res (list atom) :=
  match parse 0 (replace_params route) with
  | Some atoms => Val atoms
  | None => Throw Unmodelled
  end.

End Regex.

(** ** The process: socket, file system, command line *)

(** What [socket.write] is given: a string, sent as its UTF-8 bytes, or a
    [Buffer]. *)
Inductive chunk : Type :=
  | Text (s : string)
  | Bytes (b : list byte).

Definition chunk_bytes (c : chunk) : list byte :=
  match c with
  | Text s => Str.utf8 s
  | Bytes b => b
  end.

(** The bytes a peer receives for a sequence of writes. *)
Definition wire (cs : list chunk) : list byte := concat (chunk_bytes <$> cs).

Record Sys : Type := mkSys {
  socket : list chunk;              (** written so far, oldest first *)
  disk : gmap string (list byte);   (** the files [readFileSync] can read *)
  writable : string -> bool;        (** where [writeFileSync] succeeds *)
  served : string                   (** [process.argv.slice(-1)] as text *)
}.

(** Computations that write to the socket, touch the disk and may throw;
    what was done before a throw stays done. *)
Definition M (A : Type) : Type := Sys -> res A * Sys.

Definition ret {A} (a : A) : M A := fun s => (Val a, s).

Definition throw {A} (e : exn) : M A := fun s => (Throw e, s).

Definition bind {A B} (m : M A) (k : A -> M B) : M B :=
  fun s =>
    match m s with
    | (Val a, s') => k a s'
    | (Throw e, s') => (Throw e, s')
    end.

Definition lift {A} (r : res A) : M A := fun s => (r, s).

(** [try { m } catch { h }]. *)
Definition try_catch {A} (m : M A) (h : M A) : M A :=
  fun s =>
    match m s with
    | (Val a, s') => (Val a, s')
    | (Throw _, s') => h s'
    end.

Declare Scope m_scope.
Delimit Scope m_scope with M.
Notation "'let*' x := m 'in' k" := (bind m (fun x => k))
  (at level 10, x name, m at level 100, k at level 200) : m_scope.
Notation "m >> k" := (bind m (fun _ => k))
  (at level 100, k at level 200, right associativity) : m_scope.

(** The process after the chunks [cs] went out on the socket. *)
Definition wrote (s : Sys) (cs : list chunk) : Sys :=
  mkSys (socket s ++ cs) (disk s) (writable s) (served s).

(** The process after [text] was stored at [path]. *)
Definition stored (s : Sys) (path text : string) : Sys :=
  mkSys (socket s) (<[path := Str.utf8 text]> (disk s))
        (writable s) (served s).

(** [socket.write(c)]. *)
Definition socket_write (c : chunk) : M unit :=
  fun s => (Val tt, wrote s [c]).

(** [fs.readFileSync(path)]. *)
Definition readFileSync (path : string) : M (list byte) :=
  fun s =>
    match disk s !! path with
    | Some b => (Val b, s)
    | None => (Throw SystemError, s)
    end.

(** [fs.writeFileSync(path, text)]. *)
Definition writeFileSync (path : string) (text : string) : M unit :=
  fun s =>
    if writable s path
    then (Val tt, mkSys (socket s) (<[path := Str.utf8 text]> (disk s))
                        (writable s) (served s))
    else (Throw SystemError, s).

(** [process.argv.slice(-1)], as the template literal renders it. *)
Definition argv_last : M string := fun s => (Val (served s), s).

(** ** [Map] in insertion order *)

Module JsMap.

Definition t (V : Type) : Type := list (string * V).

Fixpoint set {V} (k : string) (v : V) (m : t V) : t V :=
  match m with
  | [] => [(k, v)]
  | (k', v') :: r =>
      if String.eqb k k' then (k, v) :: r else (k', v') :: set k v r
  end.

Fixpoint get {V} (k : string) (m : t V) : option V :=
  match m with
  | [] => None
  | (k', v) :: r => if String.eqb k k' then Some v else get k r
  end.

Definition keys {V} (m : t V) : list string := fst <$> m.

End JsMap.

(** ** zlib *)

(** The two calls of Node's [zlib] module that matter here; [None] is a
    call that throws. *)
Class Zlib : Type := {
  gzipSync : list byte -> option (list byte);
  gunzipSync : list byte -> option (list byte)
}.

(** What is assumed of them: [gunzipSync] undoes [gzipSync], and a gzip
    member starts with the two identification bytes of RFC 1952. *)
Class ZlibLaws (Z : Zlib) : Prop := {
  gunzip_gzip : forall b z, gzipSync b = Some z -> gunzipSync z = Some b;
  gzip_magic : forall b z,
    gzipSync b = Some z -> exists rest, z = x1f :: x8b :: rest
}.

(** A codec to run the server with: it keeps the input as it is behind
    the two identification bytes. *)
Definition framing_gzip (b : list byte) : option (list byte) :=
  Some (x1f :: x8b :: b).

Definition framing_gunzip (z : list byte) : option (list byte) :=
  match z with
  | x1f :: x8b :: b => Some b
  | _ => None
  end.

Definition framing : Zlib :=
  {| gzipSync := framing_gzip; gunzipSync := framing_gunzip |}.

(** A codec that always throws, to run the branch that catches. *)
Definition refusing : Zlib :=
  {| gzipSync := fun _ => None; gunzipSync := fun _ => None |}.

(** ** [RequestBuilder] *)

Record HttpReq : Type := mkReq {
  method : string;
  endpoint : option string;         (** [None] is [undefined] *)
  params : gmap string string;
  headers : gmap string string;
  body : string
}.

Module RequestBuilder.

(** One step of the [reduce] over the header lines: the key is
    [v.split(':')[0].replace('-', '_').toLowerCase()], the value
    [v.split(':')[1].trim()], which throws when the line has no colon. *)
Definition header_entry (v : string) : res (string * string) :=
  let parts := Str.split_char ":"%char v in
  let key :=
    Str.toLowerCase
      (Str.replace_first "-"%char "_"%char (default EmptyString (parts !! 0))) in
  match parts !! 1 with
  | Some value => Val (key, Str.trim value)
  | None => Throw TypeError
  end.

(** [lines.reduce((a, v) => ({ ...a, [key]: value }), {})]. *)
Fixpoint reduce_headers (lines : list string) (a : gmap string string)
    : res (gmap string string) :=
  match lines with
  | [] => Val a
  | v :: r =>
      res_bind (header_entry v) (fun kv => reduce_headers r (<[kv.1 := kv.2]> a))
  end.

(** [specialCharSplit.slice(1, specialCharSplit.length - 2)]. *)
Definition header_lines (specialCharSplit : list string) : list string :=
  Arr.slice 1 (Z.of_nat (length specialCharSplit) - 2) specialCharSplit.

(** [this.params[name] = value] on an object created by [{}]: the key
    [__proto__] reaches the inherited setter, which ignores a string. *)
Definition set_param (ps : gmap string string) (name value : string)
    : gmap string string :=
  if String.eqb name "__proto__" then ps else <[name := value]> ps.

(** [paramNames.forEach((paramName, idx) => ...)], which pairs the
    [idx]-th name with [match[idx + 1]]; a match has at least as many
    groups as the route has names. *)
Fixpoint assign_params (names groups : list string)
    (ps : gmap string string) : gmap string string :=
  match names, groups with
  | n :: names', g :: groups' => assign_params names' groups' (set_param ps n g)
  | _, _ => ps
  end.

(** The [for (let [route] of registeredRoutes)] loop.  It yields the
    first route whose regular expression matches, with the groups of
    the match, or [None] when the loop runs to its end.  A route is
    compiled before [this.endpoint.match] is called on it, and that
    call throws when the endpoint is [undefined]. *)
Fixpoint find_route (routes : list string) (endpoint : option string)
    : res (option (string * list string)) :=
  match routes with
  | [] => Val None
  | route :: rest =>
      res_bind (Regex.route_regex route) (fun routeRegex =>
        match endpoint with
        | None => Throw TypeError
        | Some e =>
            match Regex.match_atoms routeRegex e with
            | Some groups => Val (Some (route, groups))
            | None => find_route rest endpoint
            end
        end)
  end.

(** [new RequestBuilder(req, registeredRoutes).build()];
    [registeredRoutes] is [None] when the caller passes [undefined],
    which the loop then fails to iterate. *)
Definition build {V} (req : string)
    (registeredRoutes : option (JsMap.t V)) : res HttpReq :=
  let reqBody := Str.split_char " "%char req in
  let method := default EmptyString (reqBody !! 0) in
  let endpoint := reqBody !! 1 in
  let specialCharSplit := Str.split_crlf req in
  res_bind (reduce_headers (header_lines specialCharSplit) ∅) (fun headers =>
    let body := default EmptyString (Arr.last_element specialCharSplit) in
    match registeredRoutes with
    | None => Throw TypeError
    | Some routes =>
        res_bind (find_route (JsMap.keys routes) endpoint) (fun found =>
          match found with
          | Some (route, groups) =>
              Val (mkReq method (Some route)
                     (assign_params (Regex.param_names route) groups ∅)
                     headers body)
          | None => Val (mkReq method endpoint ∅ headers body)
          end)
    end).

End RequestBuilder.

(** ** [HttpRes] *)

Inductive StatusCode : Type := S200 | S201 | S404.

Definition code_text (c : StatusCode) : string :=
  match c with
  | S200 => "200"
  | S201 => "201"
  | S404 => "404"
  end.

Definition ReasonPhrases (c : StatusCode) : string :=
  match c with
  | S200 => "OK"
  | S201 => "Created"
  | S404 => "Not Found"
  end.

(** [ResType]; an object is kept as the text [JSON.stringify] gives for
    it. *)
Inductive ResType : Type :=
  | Object (json : string)
  | Plain (s : string)
  | Buffer (b : list byte).

(** The local [body] of [send]: a string or a [Buffer]. *)
Inductive Body : Type :=
  | BString (s : string)
  | BBuffer (b : list byte).

Definition body_bytes (b : Body) : list byte :=
  match b with
  | BString s => Str.utf8 s
  | BBuffer b => b
  end.

Definition body_chunk (b : Body) : chunk :=
  match b with
  | BString s => Text s
  | BBuffer b => Bytes b
  end.

(** [if (body)]: a [Buffer] is an object, hence truthy at any length. *)
Definition body_truthy (b : Body) : bool :=
  match b with
  | BString s => Str.truthy s
  | BBuffer _ => true
  end.

Record HttpRes : Type := mkRes {
  statusCode : StatusCode;
  res_headers : JsMap.t string;
  encode : bool
}.

Definition AcceptableEncoding : list string := ["gzip"].

Section Server.

Context `{Zlib}.

Local Open Scope m_scope.

(** [new HttpRes(socket, encode)]. *)
Definition new_HttpRes (encode : bool) : HttpRes := mkRes S404 [] encode.

(** [res.status(code)], which returns [this]. *)
Definition status (c : StatusCode) (r : HttpRes) : HttpRes :=
  mkRes c (res_headers r) (encode r).

(** [res.header(k, v)]. *)
Definition header (k v : string) (r : HttpRes) : HttpRes :=
  mkRes (statusCode r) (JsMap.set k v (res_headers r)) (encode r).

(** The first part of [send]: the headers and the body the type of
    [data] decides. *)
Definition typed_body (data : option ResType) (r : HttpRes)
    : HttpRes * Body :=
  match data with
  | Some (Object jsonData) =>
      (header "Content-Length" (Str.of_nat (Str.byteLength jsonData))
         (header "Content-Type" "application/json" r),
       BString jsonData)
  | Some (Plain data) =>
      (header "Content-Length" (Str.of_nat (Str.byteLength data))
         (header "Content-Type" "text/plain" r),
       BString data)
  | Some (Buffer data) =>
      (header "Content-Length" (Str.of_nat (length data))
         (header "Content-Type" "application/octet-stream" r),
       BBuffer data)
  | None => (r, BString EmptyString)
  end.

(** The second part: [if (this.encode) { try { ... } catch { ... } }].
    When [gzipSync] throws, the body and the headers stay as they
    were. *)
Definition encoded_body (rb : HttpRes * Body) : HttpRes * Body :=
  let '(r, body) := rb in
  if encode r then
    match gzipSync (body_bytes body) with
    | Some z =>
        (header "Content-Length" (Str.of_nat (length z))
           (header "Content-Encoding" "gzip" r),
         BBuffer z)
    | None => (r, body)
    end
  else (r, body).

Definition status_line (c : StatusCode) : string :=
  "HTTP/1.1 " +:+ code_text c +:+ " " +:+ ReasonPhrases c +:+ Str.CRLF.

(** [Array.from(this.headers).map(([a, b]) => `${a}: ${b}\r\n`).join("")]. *)
Fixpoint header_block (hs : JsMap.t string) : string :=
  match hs with
  | [] => EmptyString
  | (a, b) :: r => a +:+ ": " +:+ b +:+ Str.CRLF +:+ header_block r
  end.

(** [res.send(data)]; the result is the object as [send] leaves it. *)
Definition send (data : option ResType) (r : HttpRes) : M HttpRes :=
  let '(r', body) := encoded_body (typed_body data r) in
  let response :=
    status_line (statusCode r') +:+ header_block (res_headers r') +:+ Str.CRLF in
  socket_write (Text response) >>
  (if body_truthy body then socket_write (body_chunk body) else ret tt) >>
  ret r'.

(** The body [send] takes from its argument, before any encoding. *)
Definition data_body (data : option ResType) : Body :=
  match data with
  | Some (Object jsonData) => BString jsonData
  | Some (Plain data) => BString data
  | Some (Buffer data) => BBuffer data
  | None => BString EmptyString
  end.

(** The text of the first write of [send], and the writes that follow
    it: one, when the body is truthy. *)
Definition head_text (r : HttpRes) : string :=
  status_line (statusCode r) +:+ header_block (res_headers r) +:+ Str.CRLF.

Definition body_writes (b : Body) : list chunk :=
  if body_truthy b then [body_chunk b] else [].

(** ** [HttpServer] *)

Definition HttpEndpoint : Type := HttpReq -> HttpRes -> M unit.

(** [this.endpoints]: the route table of each method. *)
Definition Endpoints : Type := JsMap.t (JsMap.t HttpEndpoint).

(** The constructor up to [net.createServer]. *)
Definition new_HttpServer : Endpoints :=
  JsMap.set "POST" [] (JsMap.set "GET" [] []).

(** [this.endpoints.get(m)?.set(url, callback)]. *)
Definition register (m url : string) (callback : HttpEndpoint)
    (endpoints : Endpoints) : Endpoints :=
  match JsMap.get m endpoints with
  | Some table => JsMap.set m (JsMap.set url callback table) endpoints
  | None => endpoints
  end.

Definition get := register "GET".
Definition post := register "POST".

(** The decision taken from [req.headers.accept_encoding]. *)
Definition encoding_decision (headers : gmap string string) : bool :=
  match headers !! "accept_encoding" with
  | Some accept_encoding =>
      if Str.truthy accept_encoding then
        let items := Str.split_char ","%char accept_encoding in
        if 1 <? length items then
          let formats := Str.trim <$> items in
          let encodings :=
            filter (fun i => i ∈ formats) AcceptableEncoding in
          bool_decide (0 < length encodings)
        else bool_decide (accept_encoding ∈ AcceptableEncoding)
      else false
  | None => false
  end.

Definition not_found_frame : string :=
  "HTTP/1.1 404 Not Found" +:+ Str.CRLF +:+ Str.CRLF.

(** [socket.on('data', (data) => ...)], [data] being [data.toString()]. *)
Definition on_data (endpoints : Endpoints) (data : string) : M unit :=
  let methodEndpoints :=
    JsMap.get (default EmptyString (Str.split_char " "%char data !! 0))
              endpoints in
  let* req := lift (RequestBuilder.build data methodEndpoints) in
  let callback :=
    match methodEndpoints, endpoint req with
    | Some table, Some e => JsMap.get e table
    | _, _ => None
    end in
  match callback with
  | Some callback =>
      callback req (new_HttpRes (encoding_decision (headers req)))
  | None => socket_write (Text not_found_frame)
  end.

(** ** The routes of [app] *)

Definition get_root : HttpEndpoint := fun req res =>
  send None (status S200 res) >> ret tt.

Definition get_echo : HttpEndpoint := fun req res =>
  send (Plain <$> params req !! "str") (status S200 res) >> ret tt.

Definition get_user_agent : HttpEndpoint := fun req res =>
  match headers req !! "user_agent" with
  | Some user_agent =>
      if Str.truthy user_agent
      then send (Some (Plain user_agent)) (status S200 res) >> ret tt
      else send (Some (Plain "No user-agent header found."))
                (status S404 res) >> ret tt
  | None =>
      send (Some (Plain "No user-agent header found."))
           (status S404 res) >> ret tt
  end.

Definition file_not_found (res : HttpRes) : M unit :=
  send (Some (Plain "File not found")) (status S404 res) >> ret tt.

Definition get_file : HttpEndpoint := fun req res =>
  let* path := argv_last in
  match params req !! "filename" with
  | Some filename =>
      if Str.truthy filename then
        let fileLocation := path +:+ filename in
        try_catch
          (let* file := readFileSync fileLocation in
           send (Some (Buffer file)) (status S200 res) >> ret tt)
          (file_not_found res)
      else file_not_found res
  | None => file_not_found res
  end.

Definition post_file : HttpEndpoint := fun req res =>
  let* path := argv_last in
  match params req !! "filename" with
  | Some filename =>
      if Str.truthy filename && Str.truthy (body req) then
        let fileLocation := path +:+ filename in
        try_catch
          (writeFileSync fileLocation (body req) >>
           send None (status S201 res) >> ret tt)
          (send (Some (Plain "Something went terrible wrong"))
                (status S404 res) >> ret tt)
      else ret tt
  | None => ret tt
  end.

Definition app : Endpoints :=
  post "/files/:filename" post_file
    (get "/files/:filename" get_file
       (get "/user-agent" get_user_agent
          (get "/echo/:str" get_echo
             (get "/" get_root new_HttpServer)))).

End Server.

(** ** Servers *)

(** The route tables a program can reach: those of a new server, and
    those after a call of [get] or [post]. *)
Inductive built : Endpoints -> Prop :=
  | built_new : built new_HttpServer
  | built_get url callback endpoints :
      built endpoints -> built (get url callback endpoints)
  | built_post url callback endpoints :
      built endpoints -> built (post url callback endpoints).

(** ** Outcomes of a data event *)

(** The outcome [out] of a computation started in [s]: it returned after
    one response went out, a head and the body writes that follow it. *)
Definition answered (s : Sys) (out : res unit * Sys) : Prop :=
  exists r body,
    out = (Val tt, wrote s (Text (head_text r) :: body_writes body)).

(** ** Sequences of calls on a response *)

(** What a handler may call on its [HttpRes] before [send]. *)
Inductive call : Type :=
  | CallStatus (c : StatusCode)
  | CallHeader (k v : string).

Definition run_call (r : HttpRes) (c : call) : HttpRes :=
  match c with
  | CallStatus c => status c r
  | CallHeader k v => header k v r
  end.

Definition run_calls (cs : list call) (r : HttpRes) : HttpRes :=
  foldl run_call r cs.

(** The argument of the last [status] call of a sequence; 404 without
    one. *)
Fixpoint last_status (cs : list call) (fallback : StatusCode) : StatusCode :=
  match cs with
  | [] => fallback
  | CallStatus c :: r => last_status r c
  | CallHeader _ _ :: r => last_status r fallback
  end.

(** ** The specification's wording, for comparison *)

Module Spec.

Fixpoint join (sep : ascii) (parts : list string) : string :=
  match parts with
  | [] => EmptyString
  | [p] => p
  | p :: r => p +:+ String sep (join sep r)
  end.

(** A captured value: one or more characters from the set of word
    characters and the hyphen. *)
Definition is_value (x : string) : bool :=
  Str.truthy x && Str.all Char.is_word_or_hyphen x.

(** Section 9 of the specification: the template and the path are
    split into segments and compared segment by segment, a segment
    that starts with a colon capturing the segment of the path, any
    other demanding equality; the counts of segments must agree. *)
Fixpoint match_segments (ps xs : list string)
    : option (list (string * string)) :=
  match ps, xs with
  | [], [] => Some []
  | p :: ps', x :: xs' =>
      match p with
      | String c name =>
          if Char.eqb c ":"%char then
            if is_value x
            then cons (name, x) <$> match_segments ps' xs'
            else None
          else if String.eqb p x then match_segments ps' xs' else None
      | EmptyString =>
          if String.eqb p x then match_segments ps' xs' else None
      end
  | _, _ => None
  end.

Definition match_pattern (pattern path : string)
    : option (list (string * string)) :=
  match_segments (Str.split_char "/"%char pattern)
                 (Str.split_char "/"%char path).

(** The first pattern, in registration order, that a path matches
    segment by segment. *)
Fixpoint first_match (patterns : list string) (path : string)
    : option (string * list (string * string)) :=
  match patterns with
  | [] => None
  | p :: r =>
      match match_pattern p path with
      | Some binds => Some (p, binds)
      | None => first_match r path
      end
  end.

(** The patterns on which the two notions of a parameter agree: a
    segment is either a colon followed by a name of one or more
    characters other than white space, or free of colons and of
    the syntax characters of regular expressions. *)
Definition plain_char (c : ascii) : bool :=
  negb (Char.is_syntax c) && negb (Char.eqb c ":"%char).

Definition wf_segment (p : string) : bool :=
  match p with
  | String c name =>
      if Char.eqb c ":"%char
      then Str.truthy name && Str.all Char.is_name_char name
      else Str.all plain_char p
  | EmptyString => true
  end.

Definition well_formed (pattern : string) : bool :=
  forallb wf_segment (Str.split_char "/"%char pattern).

(** The tokens of a pattern read segment by segment, and the names of
    its parameter segments. *)
Definition seg_tokens (p : string) : list Regex.token :=
  match p with
  | String c name =>
      if Char.eqb c ":"%char then [Regex.TParam name]
      else Regex.text_tokens p
  | EmptyString => []
  end.

Fixpoint segs_tokens (ps : list string) : list Regex.token :=
  match ps with
  | [] => []
  | [p] => seg_tokens p
  | p :: r => seg_tokens p ++ Regex.TChar "/"%char :: segs_tokens r
  end.

Definition seg_name (p : string) : option string :=
  match p with
  | String c name => if Char.eqb c ":"%char then Some name else None
  | EmptyString => None
  end.

Definition param_segments (ps : list string) : list string :=
  omap seg_name ps.

(** Section 4.2, step 2, as worded: the header lines are all lines but
    the method line and the final one; a line is split on its first
    colon, the name lower-cased with its hyphens turned into
    underscores, the value relieved of one leading space. *)
Definition header_lines (lines : list string) : list string :=
  Arr.slice 1 (Z.of_nat (length lines) - 1) lines.

Fixpoint replace_all (a b : ascii) (s : string) : string :=
  match s with
  | EmptyString => EmptyString
  | String c s' =>
      String (if Char.eqb c a then b else c) (replace_all a b s')
  end.

Definition drop_one_space (s : string) : string :=
  match s with
  | String c s' => if Char.eqb c " "%char then s' else s
  | EmptyString => EmptyString
  end.

Definition header_key (name : string) : string :=
  Str.toLowerCase (replace_all "-"%char "_"%char name).

Definition header_entry (line : string) : string * string :=
  (header_key (Str.before ":"%char line),
   drop_one_space (default EmptyString (Str.after ":"%char line))).

Definition headers_of (lines : list string) : gmap string string :=
  foldl (fun a line => <[(header_entry line).1 := (header_entry line).2]> a)
        ∅ (header_lines lines).

End Spec.

(** ** Requests as they arrive *)

Module Wire.

(** The text of a request: the request line, the header lines, the
    blank line and the body. *)
Definition request (request_line : string) (header_lines : list string)
    (body : string) : string :=
  request_line +:+ Str.CRLF
    +:+ foldr (fun h rest => h +:+ Str.CRLF +:+ rest)
              (Str.CRLF +:+ body) header_lines.

(** A header line, from a name and what follows the colon. *)
Definition header_line (h : string * string) : string :=
  h.1 +:+ String ":"%char h.2.

(** The headers of a request for [/user-agent]. *)
Definition agent_headers : list (string * string) :=
  [("Host", " localhost"); ("User-Agent", " test-agent")].

(** A request line, from the method, the path and the version. *)
Definition request_line (m path version : string) : string :=
  m +:+ String " "%char (path +:+ String " "%char version).

(** Header lines the builder reads as they were meant: no line break, one
    colon, at most one hyphen in the name; and the headers it stores for
    them, a later line replacing an earlier one of the same key. *)
Definition well_formed_headers (hs : list (string * string)) : Prop :=
  Forall (fun h => Str.contains_crlf (header_line h) = false) hs
  /\ Forall (fun h => Str.count ":"%char h.1 = 0
                      /\ Str.count ":"%char h.2 = 0
                      /\ Str.count "-"%char h.1 <= 1) hs.

Definition stored_headers (hs : list (string * string))
    : gmap string string :=
  foldl (fun a h => <[Spec.header_key h.1 := Str.trim h.2]> a) ∅ hs.

(** A process that serves [/tmp/], with one file, where every write
    succeeds. *)
Definition sys0 : Sys :=
  mkSys [] {[ "/tmp/notes" := [x68; x69] ]} (fun _ => true) "/tmp/".

(** The head of a response as a client reads it: the lines after the
    status line, up to the first empty one. *)
Fixpoint until_blank (lines : list string) : list string :=
  match lines with
  | [] => []
  | l :: rest => if Str.is_empty l then [] else l :: until_blank rest
  end.

Definition head_lines (head : string) : list string :=
  until_blank (drop 1 (Str.split_crlf head)).

(** The name a header line carries: the text before its first colon, in
    lower case, names of headers being read without regard to case. *)
Definition line_name (line : string) : string :=
  Str.toLowerCase (Str.before ":"%char line).

(** The values a head carries for the header [name], in the order of
    its lines: of each line of that name the text after the first colon,
    without the space the writer puts there. *)
Definition header_values (name head : string) : list string :=
  omap (fun line =>
          if String.eqb (line_name line) (Str.toLowerCase name)
          then Some (Spec.drop_one_space
                       (default EmptyString (Str.after ":"%char line)))
          else None)
       (head_lines head).

(** The names [send] sets by itself. *)
Definition reserved : list string :=
  ["Content-Type"; "Content-Length"; "Content-Encoding"].

(** Headers as a handler sets them in the ordinary way: names that
    differ also when case is ignored, no colon in a name, no line break
    in a header, and none of the names [send] sets under another
    spelling. *)
Definition orderly (hs : JsMap.t string) : Prop :=
  NoDup (Str.toLowerCase <$> JsMap.keys hs)
  /\ Forall (fun h => Str.count ":"%char h.1 = 0
                      /\ Str.contains_crlf (h.1 +:+ ": " +:+ h.2) = false) hs
  /\ Forall (fun h => Forall (fun n => Str.toLowerCase h.1 = Str.toLowerCase n
                                       -> h.1 = n) reserved) hs.

End Wire.

(** ** The earlier revisions *)

(** The sources keep three revisions of the server that precede the one
    above.  What follows embeds the parts of them that differ from it. *)

(** *** The first revision: exact routes, no parameters *)

Module FirstServer.

Inductive StatusCode : Type := S200 | S404.

Definition code_text (c : StatusCode) : string :=
  match c with
  | S200 => "200"
  | S404 => "404"
  end.

Definition ReasonPhrases (c : StatusCode) : string :=
  match c with
  | S200 => "OK"
  | S404 => "Not Found"
  end.

Record HttpReq : Type := mkReq {
  method : string;
  endpoint : option string          (** [None] is [undefined] *)
}.

Record HttpRes : Type := mkRes {
  statusCode : StatusCode;
  headers : JsMap.t string
}.

(** [new HttpRes(socket)]. *)
Definition new_HttpRes : HttpRes := mkRes S404 [].

Definition status (c : StatusCode) (r : HttpRes) : HttpRes :=
  mkRes c (headers r).

Definition header (k v : string) (r : HttpRes) : HttpRes :=
  mkRes (statusCode r) (JsMap.set k v (headers r)).

Definition status_line (c : StatusCode) : string :=
  "HTTP/1.1 " +:+ code_text c +:+ " " +:+ ReasonPhrases c +:+ Str.CRLF.

(** [res.send()]: one write of the status line, the headers and a blank
    line. *)
Definition send (r : HttpRes) : M unit :=
  let headers := header_block (headers r) in
  socket_write (Text (status_line (statusCode r) +:+ headers +:+ Str.CRLF)).

Definition HttpEndpoint : Type := HttpReq -> HttpRes -> M unit.

Definition Endpoints : Type := JsMap.t (JsMap.t HttpEndpoint).

(** [new RequestBuilder(req).build()]. *)
Definition build (req : string) : HttpReq :=
  let headers := Str.split_char " "%char req in
  mkReq (default EmptyString (headers !! 0)) (headers !! 1).

Definition new_HttpServer : Endpoints :=
  JsMap.set "POST" [] (JsMap.set "GET" [] []).

Definition register (m url : string) (callback : HttpEndpoint)
    (endpoints : Endpoints) : Endpoints :=
  match JsMap.get m endpoints with
  | Some table => JsMap.set m (JsMap.set url callback table) endpoints
  | None => endpoints
  end.

Definition get := register "GET".
Definition post := register "POST".

(** [socket.on('data', ...)]: the handler is looked up by
    [this.endpoints.get(req.method)?.get(req.endpoint)]. *)
Definition on_data (endpoints : Endpoints) (data : string) : M unit :=
  let req := build data in
  let callback :=
    match JsMap.get (method req) endpoints, endpoint req with
    | Some table, Some e => JsMap.get e table
    | _, _ => None
    end in
  match callback with
  | Some callback => callback req new_HttpRes
  | None => socket_write (Text not_found_frame)
  end.

Definition get_root : HttpEndpoint := fun req res =>
  send (status S200 res).

Definition app : Endpoints := get "/" get_root new_HttpServer.

End FirstServer.

(** *** The second revision: parameters and a body in one write *)

Module EchoServer.

Local Open Scope m_scope.

(** [HttpRes] but for [send], the status codes and the route tables are
    those of the first revision. *)
Definition StatusCode : Type := FirstServer.StatusCode.
Definition HttpRes : Type := FirstServer.HttpRes.

Record HttpReq : Type := mkReq {
  method : string;
  endpoint : option string;
  params : gmap string string
}.

(** [ResType]; an object is kept as the text [JSON.stringify] gives for
    it. *)
Inductive ResType : Type :=
  | Object (json : string)
  | Plain (s : string).

(** [res.send(data)]: the lengths are [jsonData.length] and
    [data.length], counts of code units, and the body goes out in the
    write of the head.  The result is the object as [send] leaves it. *)
Definition send (data : option ResType) (r : HttpRes) : M HttpRes :=
  let r' :=
    match data with
    | Some (Object jsonData) =>
        FirstServer.header "Content-Length" (Str.of_nat (String.length jsonData))
          (FirstServer.header "Content-Type" "application/json" r)
    | Some (Plain data) =>
        FirstServer.header "Content-Length" (Str.of_nat (String.length data))
          (FirstServer.header "Content-Type" "text/plain" r)
    | None => r
    end in
  let headers := header_block (FirstServer.headers r') in
  let body :=
    match data with
    | Some (Object jsonData) => jsonData
    | Some (Plain data) => data
    | None => EmptyString
    end in
  socket_write
    (Text (FirstServer.status_line (FirstServer.statusCode r')
             +:+ headers +:+ Str.CRLF +:+ body)) >>
  ret r'.

Definition HttpEndpoint : Type := HttpReq -> HttpRes -> M unit.

Definition Endpoints : Type := JsMap.t (JsMap.t HttpEndpoint).

(** [new RequestBuilder(req, registeredRoutes).build()]: the loop over
    the routes is the one of the final revision. *)
Definition build {V} (req : string)
    (registeredRoutes : option (JsMap.t V)) : res HttpReq :=
  let headers := Str.split_char " "%char req in
  let method := default EmptyString (headers !! 0) in
  let endpoint := headers !! 1 in
  match registeredRoutes with
  | None => Throw TypeError
  | Some routes =>
      res_bind (RequestBuilder.find_route (JsMap.keys routes) endpoint)
        (fun found =>
           match found with
           | Some (route, groups) =>
               Val (mkReq method (Some route)
                      (RequestBuilder.assign_params
                         (Regex.param_names route) groups ∅))
           | None => Val (mkReq method endpoint ∅)
           end)
  end.

Definition new_HttpServer : Endpoints :=
  JsMap.set "POST" [] (JsMap.set "GET" [] []).

Definition register (m url : string) (callback : HttpEndpoint)
    (endpoints : Endpoints) : Endpoints :=
  match JsMap.get m endpoints with
  | Some table => JsMap.set m (JsMap.set url callback table) endpoints
  | None => endpoints
  end.

Definition get := register "GET".
Definition post := register "POST".

Definition on_data (endpoints : Endpoints) (data : string) : M unit :=
  let methodEndpoints :=
    JsMap.get (default EmptyString (Str.split_char " "%char data !! 0))
              endpoints in
  let* req := lift (build data methodEndpoints) in
  let callback :=
    match methodEndpoints, endpoint req with
    | Some table, Some e => JsMap.get e table
    | _, _ => None
    end in
  match callback with
  | Some callback => callback req FirstServer.new_HttpRes
  | None => socket_write (Text not_found_frame)
  end.

Definition get_root : HttpEndpoint := fun req res =>
  send None (FirstServer.status FirstServer.S200 res) >> ret tt.

Definition get_echo : HttpEndpoint := fun req res =>
  send (Plain <$> params req !! "str")
       (FirstServer.status FirstServer.S200 res) >> ret tt.

Definition app : Endpoints :=
  get "/echo/:str" get_echo (get "/" get_root new_HttpServer).

End EchoServer.

(** *** The third revision: headers, read up to the last line *)

Module FileServer.

(** One step of the [reduce]: the key is
    [v.split(':')[0].replace('-', '_').toLowerCase()], the value
    [v.split(' ')[1]], which is [undefined] for a line without a
    space. *)
Definition header_entry (v : string) : string * option string :=
  (Str.toLowerCase
     (Str.replace_first "-"%char "_"%char
        (default EmptyString (Str.split_char ":"%char v !! 0))),
   Str.split_char " "%char v !! 1).

(** [specialCharSplit.slice(1, specialCharSplit.length)]. *)
Definition header_lines (specialCharSplit : list string) : list string :=
  Arr.slice 1 (Z.of_nat (length specialCharSplit)) specialCharSplit.

(** [lines.reduce((a, v) => ({ ...a, [key]: value }), {})]. *)
Definition reduce_headers (lines : list string)
    (a : gmap string (option string)) : gmap string (option string) :=
  foldl (fun a v => <[(header_entry v).1 := (header_entry v).2]> a) a lines.

(** [this.headers] after the constructor read [req]. *)
Definition headers_of (req : string) : gmap string (option string) :=
  reduce_headers (header_lines (Str.split_crlf req)) ∅.

(** The headers this revision stores for header lines whose names hold
    no colon and no space. *)
Definition stored_headers (hs : list (string * string))
    : gmap string (option string) :=
  foldl (fun a h =>
           <[Str.toLowerCase (Str.replace_first "-"%char "_"%char h.1)
               := Str.split_char " "%char h.2 !! 1]> a) ∅ hs.

End FileServer.

(** * Properties *)

(** ** The socket *)

Lemma wrote_nil (s : Sys) : wrote s [] = s.
Proof. destruct s; unfold wrote; simpl. by rewrite app_nil_r. Qed.

Lemma wrote_wrote (s : Sys) (a b : list chunk) :
  wrote (wrote s a) b = wrote s (a ++ b).
Proof. unfold wrote; simpl. by rewrite app_assoc. Qed.

Lemma socket_wrote (s : Sys) (cs : list chunk) :
  socket (wrote s cs) = socket s ++ cs.
Proof. done. Qed.

(** ** [HttpRes] *)

Section ResponseWriter.

Context `{Zlib}.

Lemma JsMap_get_set_eq {V} (k : string) (v : V) (m : JsMap.t V) :
  JsMap.get k (JsMap.set k v m) = Some v.
Proof.
  induction m as [|[k' v'] m IH]; simpl.
  - by rewrite String.eqb_refl.
  - destruct (String.eqb k k') eqn:E; simpl; by rewrite ?String.eqb_refl, ?E.
Qed.

Lemma JsMap_get_set_ne {V} (k j : string) (v : V) (m : JsMap.t V) :
  k ≠ j -> JsMap.get j (JsMap.set k v m) = JsMap.get j m.
Proof.
  intros Hne. induction m as [|[k' v'] m IH]; simpl.
  - destruct (String.eqb j k) eqn:E; [|done].
    apply String.eqb_eq in E. congruence.
  - destruct (String.eqb k k') eqn:E; simpl.
    + apply String.eqb_eq in E. subst k'.
      destruct (String.eqb j k) eqn:E'; [|done].
      apply String.eqb_eq in E'. congruence.
    + by rewrite IH.
Qed.

(** What [send] does, in one equation. *)
Lemma send_writes (data : option ResType) (r : HttpRes) (s : Sys) :
  send data r s =
    (Val (encoded_body (typed_body data r)).1,
     wrote s (Text (head_text (encoded_body (typed_body data r)).1)
                :: body_writes (encoded_body (typed_body data r)).2)).
Proof.
  unfold send, body_writes, head_text.
  destruct (encoded_body (typed_body data r)) as [r' body]; simpl.
  unfold bind, socket_write, ret.
  destruct (body_truthy body); simpl; by rewrite ?wrote_wrote.
Qed.

Lemma typed_body_status data r : statusCode (typed_body data r).1 = statusCode r.
Proof. by destruct data as [[]|]. Qed.

Lemma typed_body_encode data r : encode (typed_body data r).1 = encode r.
Proof. by destruct data as [[]|]. Qed.

Lemma encoded_body_status rb : statusCode (encoded_body rb).1 = statusCode rb.1.
Proof.
  destruct rb as [r b]; simpl. destruct (encode r); [|done].
  by destruct (gzipSync _).
Qed.

Lemma run_calls_status cs r :
  statusCode (run_calls cs r) = last_status cs (statusCode r).
Proof.
  revert r. induction cs as [|[c|k v] cs IH]; intros r; simpl; [done|..];
    unfold run_calls in *; simpl; by rewrite IH.
Qed.

Lemma run_calls_encode cs r : encode (run_calls cs r) = encode r.
Proof.
  revert r. induction cs as [|[c|k v] cs IH]; intros r; simpl; [done|..];
    unfold run_calls in *; simpl; by rewrite IH.
Qed.

(** C6. The status line [send] writes carries the code given to the
    last [status] call made on the response before it, and 404 when
    [status] was never called; the calls to [header] in between and
    the data sent do not matter. *)
Theorem send_status_is_last_status
    (cs : list call) (enc : bool) (data : option ResType) (s : Sys) :
  exists r' body,
    send data (run_calls cs (new_HttpRes enc)) s
      = (Val r',
         wrote s (Text (status_line (last_status cs S404)
                          +:+ header_block (res_headers r') +:+ Str.CRLF)
                    :: body)).
Proof.
  eexists _, _. rewrite send_writes. unfold head_text.
  by rewrite encoded_body_status, typed_body_status, run_calls_status.
Qed.

Lemma typed_body_body data r : (typed_body data r).2 = data_body data.
Proof. by destruct data as [[]|]. Qed.

Lemma header_keeps_other k v j r :
  k ≠ j ->
  JsMap.get j (res_headers (header k v r)) = JsMap.get j (res_headers r).
Proof. intros. by apply JsMap_get_set_ne. Qed.

(** The decision, for the two header values the properties name and
    for a request without the header. *)
Lemma encoding_decision_gzip (hs : gmap string string) :
  hs !! "accept_encoding" = Some "gzip" -> encoding_decision hs = true.
Proof. intros E. unfold encoding_decision. by rewrite E. Qed.

Lemma encoding_decision_identity (hs : gmap string string) :
  hs !! "accept_encoding" = Some "identity" -> encoding_decision hs = false.
Proof. intros E. unfold encoding_decision. by rewrite E. Qed.

Lemma encoding_decision_absent (hs : gmap string string) :
  hs !! "accept_encoding" = None -> encoding_decision hs = false.
Proof. intros E. unfold encoding_decision. by rewrite E. Qed.

(** [send] on a response that compresses, when [gzipSync] returns. *)
Lemma send_compressed data r s z :
  encode r = true ->
  gzipSync (body_bytes (data_body data)) = Some z ->
  exists r',
    send data r s = (Val r', wrote s [Text (head_text r'); Bytes z])
    /\ JsMap.get "Content-Encoding" (res_headers r') = Some "gzip"
    /\ JsMap.get "Content-Length" (res_headers r')
         = Some (Str.of_nat (length z))
    /\ (res_headers r = [] -> data = None ->
          res_headers r' = [("Content-Encoding", "gzip");
                            ("Content-Length", Str.of_nat (length z))]).
Proof.
  intros Henc Hz. rewrite send_writes.
  pose proof (typed_body_body data r) as Hb.
  pose proof (typed_body_encode data r) as He.
  destruct (typed_body data r) as [r1 b1] eqn:Ht; simpl in *; subst b1.
  rewrite He, Henc, Hz. simpl. eexists. split; [done|].
  split; [|split].
  - rewrite header_keeps_other by done. apply JsMap_get_set_eq.
  - apply JsMap_get_set_eq.
  - intros Hnil ->. simpl in Ht. injection Ht as <-.
    unfold header; simpl. by rewrite Hnil.
Qed.

(** [send] on a response that does not compress. *)
Lemma send_uncompressed data r s :
  encode r = false ->
  exists r',
    send data r s
      = (Val r', wrote s (Text (head_text r') :: body_writes (data_body data)))
    /\ JsMap.get "Content-Encoding" (res_headers r')
         = JsMap.get "Content-Encoding" (res_headers r).
Proof.
  intros Henc. rewrite send_writes.
  pose proof (typed_body_body data r) as Hb.
  pose proof (typed_body_encode data r) as He.
  destruct (typed_body data r) as [r1 b1] eqn:Ht; simpl in *; subst b1.
  rewrite He, Henc. simpl. eexists. split; [done|].
  destruct data as [[]|]; simpl in Ht; injection Ht as <-; [..|done];
    by rewrite !header_keeps_other.
Qed.

End ResponseWriter.

(** ** The data handler and the routes of [app] *)

Section Dispatch.

Context `{Zlib}.

Lemma build_method {V} data (table : option (JsMap.t V)) req :
  RequestBuilder.build data table = Val req ->
  method req = default EmptyString (Str.split_char " "%char data !! 0).
Proof.
  unfold RequestBuilder.build. intros Hb.
  destruct (RequestBuilder.reduce_headers _ _); [|done]. simpl in Hb.
  destruct table as [routes|]; [|done].
  destruct (RequestBuilder.find_route _ _) as [[[route groups]|]|];
    simpl in Hb; by simplify_eq.
Qed.

(** The handler is looked up in the table of the request's method,
    under the endpoint the builder left. *)
Lemma on_data_dispatch endpoints data req table e callback s :
  JsMap.get (default EmptyString (Str.split_char " "%char data !! 0))
            endpoints = Some table ->
  RequestBuilder.build data (Some table) = Val req ->
  endpoint req = Some e ->
  JsMap.get e table = Some callback ->
  on_data endpoints data s
    = callback req (new_HttpRes (encoding_decision (headers req))) s.
Proof.
  intros Ht Hb He Hc. unfold on_data. rewrite Ht.
  unfold bind, lift. rewrite Hb, He, Hc. done.
Qed.

(** When the builder returns and the lookup finds nothing, the bare
    frame is all that is written. *)
Lemma on_data_unmatched endpoints data req table s :
  JsMap.get (default EmptyString (Str.split_char " "%char data !! 0))
            endpoints = Some table ->
  RequestBuilder.build data (Some table) = Val req ->
  (forall e, endpoint req = Some e -> JsMap.get e table = None) ->
  on_data endpoints data s = (Val tt, wrote s [Text not_found_frame]).
Proof.
  intros Ht Hb Hnone. unfold on_data. rewrite Ht.
  unfold bind, lift. rewrite Hb.
  destruct (endpoint req) as [e|]; [|done]. by rewrite (Hnone e).
Qed.

(** C10. A POST request that resolves to [/files/:filename] with an
    empty body gets no answer: the handler returns without a call to
    [send], nothing is written to the socket and the disk is left as
    it was. *)
Theorem post_file_empty_body_is_silent
    (data : string) (req : HttpReq) (s : Sys) :
  RequestBuilder.build data (JsMap.get "POST" app) = Val req ->
  method req = "POST" ->
  endpoint req = Some "/files/:filename" ->
  body req = EmptyString ->
  on_data app data s = (Val tt, s).
Proof.
  intros Hb Hm He Hbody.
  pose proof (build_method _ _ _ Hb) as Hfirst. rewrite Hm in Hfirst.
  rewrite (on_data_dispatch app data req
             [("/files/:filename", post_file)] "/files/:filename" post_file);
    try done.
  - unfold post_file, bind, argv_last. rewrite Hbody.
    destruct (params req !! "filename") as [filename|]; [|done].
    by rewrite andb_false_r.
  - by rewrite <- Hfirst.
Qed.

(** C5. The answer to a request whose method has no route table: the
    builder throws while it iterates the table that is not there, and
    nothing is written. *)
Theorem unknown_method_throws (s : Sys) :
  on_data app
    (Wire.request "DELETE /unregistered/path HTTP/1.1"
       ["Host: localhost:4221"] EmptyString) s
  = (Throw TypeError, s).
Proof. by vm_compute. Qed.

Lemma JsMap_get_absent {V} (k : string) (m : JsMap.t V) :
  k ∉ JsMap.keys m -> JsMap.get k m = None.
Proof.
  induction m as [|[k' v] m IH]; [done|]. cbn.
  intros [Hk Hm]%not_elem_of_cons.
  apply String.eqb_neq in Hk. rewrite Hk. by apply IH.
Qed.

Lemma reduce_headers_throws lines a e :
  RequestBuilder.reduce_headers lines a = Throw e -> e = TypeError.
Proof.
  revert a. induction lines as [|v lines IH]; intros a; [done|].
  cbn [RequestBuilder.reduce_headers]. unfold RequestBuilder.header_entry.
  destruct (Str.split_char ":" v !! 1); cbn [res_bind].
  - apply IH.
  - by intros [= <-].
Qed.

(** A request whose method is neither GET nor POST is never answered. *)
Lemma unknown_method_never_answered (data : string) (s : Sys) :
  default EmptyString (Str.split_char " " data !! 0) ∉ ["GET"; "POST"] ->
  on_data app data s = (Throw TypeError, s).
Proof.
  intros Hm. unfold on_data.
  rewrite JsMap_get_absent by done.
  unfold bind, lift, RequestBuilder.build.
  destruct (RequestBuilder.reduce_headers _ _) as [hs|e] eqn:Hh; [done|].
  cbn [res_bind]. by rewrite (reduce_headers_throws _ _ _ Hh).
Qed.

(** The same path under GET, for comparison. *)
Lemma get_unregistered_path (s : Sys) :
  on_data app
    (Wire.request "GET /unregistered/path HTTP/1.1"
       ["Host: localhost:4221"] EmptyString) s
  = (Val tt, wrote s [Text not_found_frame]).
Proof. by vm_compute. Qed.

End Dispatch.

(** ** Routes without parameters *)

Section ExactRoutes.

Lemma char_eqb_eq (a b : ascii) : Char.eqb a b = true <-> a = b.
Proof. apply Ascii.eqb_eq. Qed.

Lemma char_eqb_refl (a : ascii) : Char.eqb a a = true.
Proof. apply Ascii.eqb_refl. Qed.

Lemma char_eqb_neq (a b : ascii) : Char.eqb a b = false <-> a ≠ b.
Proof. apply Ascii.eqb_neq. Qed.

Lemma scan_inside_starts_with_param (s : string) :
  exists n r, Regex.scan true s = Regex.TParam n :: r.
Proof.
  induction s as [|c s IH]; simpl; [by eexists _, _|].
  destruct (Char.is_name_char c); [|by eexists _, _].
  destruct IH as (n & r & ->). simpl. by eexists _, _.
Qed.

(** A route in which the scan finds no parameter is left as it is by
    the replacement. *)
Lemma replace_params_without_params (route : string) :
  Regex.param_names route = [] -> Regex.replace_params route = route.
Proof.
  unfold Regex.param_names, Regex.replace_params, Regex.tokens.
  induction route as [|c s IH]; simpl; [done|].
  destruct (Char.eqb c ":" && Regex.starts_with_name_char s).
  - destruct (scan_inside_starts_with_param s) as (n & r & ->). done.
  - simpl. intros Hn. by rewrite IH.
Qed.

Lemma group_source_needs_paren (c : ascii) (s : string) :
  c ≠ "("%char -> Regex.starts_with Regex.group_source (String c s) = false.
Proof.
  intros Hc. unfold Regex.group_source. cbn [Regex.starts_with].
  apply andb_false_iff. left. apply char_eqb_neq. congruence.
Qed.

Lemma parse_literal (s : string) :
  Str.all (fun c => negb (Char.is_syntax c)) s = true ->
  Regex.parse 0 s = Some (Regex.literal s).
Proof.
  induction s as [|c s IH]; [done|]. cbn [Str.all Regex.parse].
  intros [Hc Hs]%andb_true_iff. apply negb_true_iff in Hc.
  assert (Char.eqb c "." = false) as Hdot.
  { apply char_eqb_neq. intros ->. done. }
  rewrite group_source_needs_paren by (intros ->; done).
  rewrite Hdot, Hc. simpl. by rewrite IH.
Qed.

Lemma match_literal (p s : string) :
  Regex.match_atoms (Regex.literal p) s
    = if String.eqb s p then Some [] else None.
Proof.
  revert s. induction p as [|c p IH]; intros [|a s]; simpl; try done.
  rewrite IH. unfold Char.eqb. by destruct (Ascii.eqb a c).
Qed.

(** C7, as amended. A route without parameters and without syntax
    characters of regular expressions is matched by a path if and only
    if the path is the route itself. *)
Theorem paramless_route_is_exact_match (route : string) :
  Regex.param_names route = [] ->
  Str.all (fun c => negb (Char.is_syntax c)) route = true ->
  exists atoms,
    Regex.route_regex route = Val atoms
    /\ forall path, is_Some (Regex.match_atoms atoms path) <-> path = route.
Proof.
  intros Hn Hs. exists (Regex.literal route). split.
  - unfold Regex.route_regex.
    by rewrite (replace_params_without_params _ Hn), (parse_literal _ Hs).
  - intros path. rewrite match_literal.
    destruct (String.eqb path route) eqn:E.
    + apply String.eqb_eq in E. split; [done|]. by eexists.
    + apply String.eqb_neq in E. split; [|done]. by intros [? ?].
Qed.

(** C7, as stated, fails on a route with a dot: the dot is read as the
    wildcard of the regular expression, so [/axb] is matched by the
    route [/a.b] without being equal to it, and the handler of
    [/a.b] is the one dispatched to. *)
Lemma dot_route_matches_other_path :
  Regex.param_names "/a.b" = []
  /\ Regex.route_regex "/a.b"
     = Val [Regex.Lit "/"; Regex.Lit "a"; Regex.Dot; Regex.Lit "b"]
  /\ Regex.match_atoms
       [Regex.Lit "/"; Regex.Lit "a"; Regex.Dot; Regex.Lit "b"] "/axb"
     = Some []
  /\ RequestBuilder.find_route ["/a.b"] (Some "/axb")
     = Val (Some ("/a.b", []))
  /\ "/axb" ≠ "/a.b".
Proof. repeat split; by vm_compute. Qed.

End ExactRoutes.

(** ** Header lines *)

Section Headers.

Lemma split_char_plain (c : ascii) (x : string) :
  Str.count c x = 0 -> Str.split_char c x = [x].
Proof.
  induction x as [|a x IH]; simpl; [done|].
  destruct (Char.eqb a c); [done|]. intros Hx. by rewrite IH.
Qed.

Lemma split_char_app (c : ascii) (x rest : string) :
  Str.count c x = 0 ->
  Str.split_char c (x +:+ String c rest) = x :: Str.split_char c rest.
Proof.
  induction x as [|a x IH]; simpl.
  - by rewrite char_eqb_refl.
  - destruct (Char.eqb a c); [done|]. intros Hx. by rewrite IH.
Qed.

Lemma split_crlf_plain (x : string) :
  Str.contains_crlf x = false -> Str.split_crlf x = [x].
Proof.
  induction x as [|a x IH]; [done|]. cbn [Str.contains_crlf Str.split_crlf].
  destruct x as [|b x]; [done|].
  intros [-> Hx]%orb_false_iff. by rewrite IH.
Qed.

Lemma split_crlf_cons (a : ascii) (s : string) :
  Str.split_crlf (String a s)
    = match s with
      | String b s' =>
          if Char.eqb a Str.CR && Char.eqb b Str.LF
          then EmptyString :: Str.split_crlf s'
          else Str.push_front a (Str.split_crlf s)
      | EmptyString => [String a EmptyString]
      end.
Proof. by destruct s. Qed.

Lemma split_crlf_app (x rest : string) :
  Str.contains_crlf x = false ->
  Str.split_crlf (x +:+ Str.CRLF +:+ rest) = x :: Str.split_crlf rest.
Proof.
  induction x as [|a x IH]; [done|].
  intros Hx.
  assert (exists b t, x +:+ Str.CRLF +:+ rest = String b t
                      /\ Char.eqb a Str.CR && Char.eqb b Str.LF = false
                      /\ Str.contains_crlf x = false) as (b & t & Ht & Hab & Hx').
  { destruct x as [|b x].
    - eexists _, _. split; [done|]. split; [|done]. apply andb_false_r.
    - cbn [Str.contains_crlf] in Hx. apply orb_false_iff in Hx as [Hab Hx].
      eexists _, _. split; [done|]. done. }
  change (String a x +:+ Str.CRLF +:+ rest)
    with (String a (x +:+ Str.CRLF +:+ rest)).
  rewrite split_crlf_cons. rewrite Ht at 1. rewrite Hab.
  by rewrite IH.
Qed.

(** A split yields at least one piece, so the first token of a request
    and its last line are never [undefined]. *)
Lemma split_crlf_not_nil (s : string) : Str.split_crlf s ≠ [].
Proof.
  destruct s as [|a s]; [done|]. rewrite split_crlf_cons.
  destruct s as [|b s]; [done|].
  destruct (Char.eqb a Str.CR && Char.eqb b Str.LF); [done|].
  by destruct (Str.split_crlf (String b s)).
Qed.

Lemma last_element_is_some {A} (a : list A) :
  a ≠ [] -> is_Some (Arr.last_element a).
Proof.
  intros Ha. unfold Arr.last_element, Arr.slice, Arr.clamp.
  destruct (Z.ltb_spec (-1) 0) as [_|?]; [|lia].
  destruct (Z.ltb_spec (Z.of_nat (length a)) 0) as [?|_]; [lia|].
  rewrite Nat2Z.id, Nat.min_id.
  assert (0 < length a) by (destruct a; [done|simpl; lia]).
  apply lookup_lt_is_Some. rewrite length_take, length_drop. lia.
Qed.

(** The lines of a request laid out as [Wire.request] does. *)
Lemma split_crlf_request (first body : string) (hs : list string) :
  Str.contains_crlf first = false ->
  Forall (fun h => Str.contains_crlf h = false) hs ->
  Str.contains_crlf body = false ->
  Str.split_crlf (Wire.request first hs body)
    = first :: hs ++ [EmptyString; body].
Proof.
  intros Hf Hhs Hb. unfold Wire.request.
  rewrite split_crlf_app by done. f_equal.
  induction Hhs as [|h hs Hh Hhs IH]; cbn [foldr].
  - change (Str.CRLF +:+ body) with (EmptyString +:+ Str.CRLF +:+ body).
    rewrite split_crlf_app by done. by rewrite split_crlf_plain.
  - rewrite split_crlf_app by done. by rewrite IH.
Qed.

(** The builder takes as header lines all lines but the first and the
    last two. *)
Lemma header_lines_of_request (first body : string) (hs : list string) :
  RequestBuilder.header_lines (first :: hs ++ [EmptyString; body]) = hs.
Proof.
  unfold RequestBuilder.header_lines, Arr.slice, Arr.clamp.
  cbn [length]. rewrite length_app. cbn [length].
  destruct (Z.ltb_spec (Z.of_nat (S (length hs + 2)) - 2) 0) as [?|_]; [lia|].
  destruct (Z.ltb_spec 1 0) as [?|_]; [lia|].
  replace (Z.to_nat (Z.of_nat (S (length hs + 2)) - 2)) with (S (length hs))
    by lia.
  replace (Z.to_nat 1 `min` S (length hs + 2)) with 1 by lia.
  replace (S (length hs) `min` S (length hs + 2) - 1) with (length hs) by lia.
  cbn [drop]. by rewrite drop_0, take_app_length.
Qed.

Lemma replace_all_absent (a b : ascii) (s : string) :
  Str.count a s = 0 -> Spec.replace_all a b s = s.
Proof.
  induction s as [|c s IH]; simpl; [done|].
  destruct (Char.eqb c a); [done|]. intros Hs. by rewrite IH.
Qed.

(** With at most one occurrence, replacing the first is replacing
    all. *)
Lemma replace_first_is_all (a b : ascii) (s : string) :
  Str.count a s <= 1 -> Str.replace_first a b s = Spec.replace_all a b s.
Proof.
  induction s as [|c s IH]; simpl; [done|].
  destruct (Char.eqb c a); simpl; intros Hs.
  - rewrite replace_all_absent; [done|lia].
  - by rewrite IH.
Qed.

Lemma header_entry_of_line (name value : string) :
  Str.count ":" name = 0 ->
  Str.count ":" value = 0 ->
  Str.count "-" name <= 1 ->
  RequestBuilder.header_entry (name +:+ String ":" value)
    = Val (Spec.header_key name, Str.trim value).
Proof.
  intros Hn Hv Hh. unfold RequestBuilder.header_entry.
  rewrite split_char_app, split_char_plain by done. simpl.
  by rewrite replace_first_is_all.
Qed.

Lemma reduce_headers_of_lines (hs : list (string * string))
    (a : gmap string string) :
  Forall (fun h => Str.count ":" h.1 = 0 /\ Str.count ":" h.2 = 0
                   /\ Str.count "-" h.1 <= 1) hs ->
  RequestBuilder.reduce_headers (Wire.header_line <$> hs) a
    = Val (foldl (fun a h => <[Spec.header_key h.1 := Str.trim h.2]> a) a hs).
Proof.
  intros Hhs. revert a.
  induction Hhs as [|[n v] hs (Hn & Hv & Hh) Hhs IH]; intros a; [done|].
  cbn [fmap list_fmap RequestBuilder.reduce_headers foldl].
  unfold Wire.header_line at 1. cbn [fst snd].
  rewrite header_entry_of_line by done. cbn [res_bind fst snd].
  apply IH.
Qed.

Lemma build_headers {V} data (table : option (JsMap.t V)) req :
  RequestBuilder.build data table = Val req ->
  RequestBuilder.reduce_headers
    (RequestBuilder.header_lines (Str.split_crlf data)) ∅ = Val (headers req)
  /\ body req = default EmptyString (Arr.last_element (Str.split_crlf data)).
Proof.
  unfold RequestBuilder.build. intros Hb.
  destruct (RequestBuilder.reduce_headers _ _) as [hs|]; [|done].
  simpl in Hb. destruct table as [routes|]; [|done].
  destruct (RequestBuilder.find_route _ _) as [[[route groups]|]|];
    simpl in Hb; by simplify_eq.
Qed.

(** C3, as stated, fails on the [Host] line of a request sent to a
    port: the builder keeps the text between the first and the second
    colon, [localhost], where the text after the first colon is
    [localhost:4221]; and it does not take the blank line before the
    body for a header line. *)
Lemma host_header_loses_its_port :
  res_bind
    (RequestBuilder.reduce_headers
       (RequestBuilder.header_lines
          (Str.split_crlf
             (Wire.request "GET / HTTP/1.1" ["Host: localhost:4221"]
                EmptyString))) ∅)
    (fun hs => Val (hs !! "host"))
  = Val (Some "localhost")
  /\ Spec.header_entry "Host: localhost:4221" = ("host", "localhost:4221")
  /\ RequestBuilder.header_lines
       (Str.split_crlf
          (Wire.request "GET / HTTP/1.1" ["Host: localhost:4221"]
             EmptyString))
     = ["Host: localhost:4221"]
  /\ Spec.header_lines
       (Str.split_crlf
          (Wire.request "GET / HTTP/1.1" ["Host: localhost:4221"]
             EmptyString))
     = ["Host: localhost:4221"; EmptyString].
Proof. repeat split; by vm_compute. Qed.

End Headers.

(** ** Routes with parameters *)

Section Routing.

Lemma append_cons (c : ascii) (s t : string) :
  String c s +:+ t = String c (s +:+ t).
Proof. done. Qed.

Lemma append_nil_r (s : string) : s +:+ EmptyString = s.
Proof. induction s as [|c s IH]; [done|]. by rewrite append_cons, IH. Qed.

(** *** Splitting and joining *)

Lemma split_char_unfold (c : ascii) (s : string) :
  Str.split_char c s
    = Str.before c s
        :: match Str.after c s with
           | Some t => Str.split_char c t
           | None => []
           end.
Proof.
  induction s as [|a s IH]; simpl; [done|].
  destruct (Char.eqb a c); [done|]. by rewrite IH.
Qed.

Lemma before_after (c : ascii) (s : string) :
  s = Str.before c s
        +:+ match Str.after c s with
            | Some t => String c t
            | None => EmptyString
            end.
Proof.
  induction s as [|a s IH]; simpl; [done|].
  destruct (Char.eqb a c) eqn:E.
  - apply char_eqb_eq in E. by subst.
  - rewrite append_cons. by rewrite <- IH.
Qed.

Lemma before_count (c : ascii) (s : string) :
  Str.count c (Str.before c s) = 0.
Proof.
  induction s as [|a s IH]; simpl; [done|].
  destruct (Char.eqb a c) eqn:E; simpl; [done|]. by rewrite E.
Qed.

Lemma after_none (c : ascii) (s : string) :
  Str.after c s = None <-> Str.count c s = 0.
Proof.
  induction s as [|a s IH]; simpl; [done|].
  destruct (Char.eqb a c); [|done]. split; [done|lia].
Qed.

Lemma before_absent (c : ascii) (s : string) :
  Str.count c s = 0 -> Str.before c s = s.
Proof.
  induction s as [|a s IH]; simpl; [done|].
  destruct (Char.eqb a c); [done|]. intros Hs. by rewrite IH.
Qed.

Lemma split_char_slash_free (c : ascii) (s : string) :
  Forall (fun p => Str.count c p = 0) (Str.split_char c s).
Proof.
  induction s as [|a s IH]; simpl; [by repeat constructor|].
  destruct (Char.eqb a c) eqn:E; [by constructor|].
  destruct (Str.split_char c s) as [|h t]; simpl.
  - repeat constructor. simpl. by rewrite E.
  - inversion IH; subst. constructor; [|done]. simpl. by rewrite E.
Qed.

Lemma join_split (c : ascii) (s : string) :
  Spec.join c (Str.split_char c s) = s.
Proof.
  induction s as [|a s IH]; simpl; [done|].
  destruct (Char.eqb a c) eqn:E.
  - apply char_eqb_eq in E. subst a.
    destruct (Str.split_char c s) as [|h t] eqn:Hs; simpl in *; by subst.
  - destruct (Str.split_char c s) as [|h t] eqn:Hs; simpl in *; [by subst|].
    destruct t; simpl in *; by subst.
Qed.

Lemma split_char_not_nil (c : ascii) (s : string) : Str.split_char c s ≠ [].
Proof. by rewrite split_char_unfold. Qed.


(** *** The regular expression of a well-formed pattern *)

Lemma name_char_not_slash (c : ascii) :
  Char.is_name_char c = true -> Char.eqb c "/" = false.
Proof.
  unfold Char.is_name_char. intros [_ Hc]%andb_true_iff.
  by apply negb_true_iff in Hc.
Qed.

Lemma scan_slash (s : string) :
  Regex.scan false (String "/" s) = Regex.TChar "/" :: Regex.scan false s.
Proof. done. Qed.

Lemma scan_name (name rest : string) :
  Str.all Char.is_name_char name = true ->
  Regex.at_boundary rest ->
  Regex.scan true (name +:+ rest)
    = Regex.TParam name :: Regex.scan false rest.
Proof.
  intros Hn Hrest. induction name as [|c name IH].
  - destruct Hrest as [->|[r ->]]; done.
  - cbn [Str.all] in Hn. apply andb_true_iff in Hn as [Hc Hn].
    rewrite append_cons. cbn [Regex.scan]. rewrite Hc, IH by done. done.
Qed.

Lemma scan_text (p rest : string) :
  Str.all Spec.plain_char p = true ->
  Regex.scan false (p +:+ rest)
    = Regex.text_tokens p ++ Regex.scan false rest.
Proof.
  induction p as [|c p IH]; [done|].
  cbn [Str.all]. intros [Hc Hp]%andb_true_iff.
  rewrite append_cons. cbn [Regex.scan Regex.text_tokens].
  unfold Spec.plain_char in Hc. apply andb_true_iff in Hc as [_ Hc].
  apply negb_true_iff in Hc. rewrite Hc. cbn [andb]. by rewrite IH.
Qed.

Lemma scan_segment (p rest : string) :
  Spec.wf_segment p = true ->
  Regex.at_boundary rest ->
  Regex.scan false (p +:+ rest) = Spec.seg_tokens p ++ Regex.scan false rest.
Proof.
  intros Hp Hrest. destruct p as [|c name]; [done|].
  unfold Spec.wf_segment in Hp. unfold Spec.seg_tokens.
  destruct (Char.eqb c ":") eqn:Hc; [|by apply scan_text].
  apply andb_true_iff in Hp as [Hne Hn].
  rewrite append_cons. cbn [Regex.scan]. rewrite Hc.
  destruct name as [|a name]; [done|].
  rewrite append_cons. cbn [Regex.starts_with_name_char andb].
  cbn [Str.all] in Hn. pose proof Hn as Hn'.
  apply andb_true_iff in Hn' as [-> _].
  rewrite <- append_cons. by rewrite scan_name.
Qed.

Lemma tokens_of_join (segs : list string) :
  Forall (fun p => Spec.wf_segment p = true) segs ->
  Regex.tokens (Spec.join "/" segs) = Spec.segs_tokens segs.
Proof.
  unfold Regex.tokens. induction 1 as [|p segs Hp Hsegs IH]; [done|].
  destruct segs as [|q segs].
  - cbn [Spec.join Spec.segs_tokens].
    rewrite <- (append_nil_r p) at 1.
    rewrite scan_segment; [|done|by left]. apply app_nil_r.
  - change (Spec.join "/" (p :: q :: segs))
      with (p +:+ String "/" (Spec.join "/" (q :: segs))).
    rewrite scan_segment; [|done|right; by eexists].
    by rewrite scan_slash, IH.
Qed.

Lemma parse_plain_char (c : ascii) (src : string) :
  Char.is_syntax c = false ->
  Regex.parse 0 (String c src) = cons (Regex.Lit c) <$> Regex.parse 0 src.
Proof.
  intros Hc. cbn [Regex.parse].
  rewrite group_source_needs_paren by (intros ->; done).
  replace (Char.eqb c ".") with false
    by (symmetry; apply char_eqb_neq; intros ->; done).
  by rewrite Hc.
Qed.

Lemma parse_group (src : string) :
  Regex.parse 0 (Regex.group_source +:+ src)
    = cons Regex.Group <$> Regex.parse 0 src.
Proof. done. Qed.

Lemma parse_render (ts : list Regex.token) :
  Forall Regex.token_ok ts ->
  Regex.parse 0 (Regex.render ts) = Some (Regex.atom_of_token <$> ts).
Proof.
  induction 1 as [|[c|n] ts Ht Hts IH]; [done|..].
  - change (Regex.render (Regex.TChar c :: ts))
      with (String c (Regex.render ts)).
    rewrite parse_plain_char by done. by rewrite IH.
  - change (Regex.render (Regex.TParam n :: ts))
      with (Regex.group_source +:+ Regex.render ts).
    rewrite parse_group. by rewrite IH.
Qed.

Lemma text_tokens_ok (p : string) :
  Str.all Spec.plain_char p = true -> Forall Regex.token_ok (Regex.text_tokens p).
Proof.
  induction p as [|c p IH]; [by constructor|].
  cbn [Str.all]. intros [Hc Hp]%andb_true_iff. constructor; [|by apply IH].
  unfold Spec.plain_char in Hc. apply andb_true_iff in Hc as [Hc _].
  by apply negb_true_iff in Hc.
Qed.

Lemma seg_tokens_ok (p : string) :
  Spec.wf_segment p = true -> Forall Regex.token_ok (Spec.seg_tokens p).
Proof.
  destruct p as [|c name]; [by constructor|].
  unfold Spec.wf_segment, Spec.seg_tokens.
  destruct (Char.eqb c ":"); [by repeat constructor|apply text_tokens_ok].
Qed.

Lemma segs_tokens_ok (segs : list string) :
  Forall (fun p => Spec.wf_segment p = true) segs ->
  Forall Regex.token_ok (Spec.segs_tokens segs).
Proof.
  induction 1 as [|p segs Hp Hsegs IH]; [by constructor|].
  destruct segs as [|q segs]; [by apply seg_tokens_ok|].
  cbn [Spec.segs_tokens]. apply Forall_app. split; [by apply seg_tokens_ok|].
  by constructor.
Qed.

Lemma well_formed_segments (route : string) :
  Spec.well_formed route = true ->
  Forall (fun p => Spec.wf_segment p = true) (Str.split_char "/" route).
Proof.
  unfold Spec.well_formed. rewrite forallb_forall, Forall_forall.
  intros Hwf p Hp. apply Hwf. by apply list_elem_of_In.
Qed.

(** The regular expression the builder compiles for a well-formed
    pattern, read off its segments. *)
Lemma route_regex_well_formed (route : string) :
  Spec.well_formed route = true ->
  Regex.route_regex route
    = Val (Regex.atom_of_token
             <$> Spec.segs_tokens (Str.split_char "/" route)).
Proof.
  intros Hwf%well_formed_segments.
  unfold Regex.route_regex, Regex.replace_params.
  rewrite <- (join_split "/" route) at 1.
  rewrite tokens_of_join by done.
  by rewrite parse_render by (by apply segs_tokens_ok).
Qed.

Lemma text_tokens_no_param (p : string) :
  omap Regex.token_name (Regex.text_tokens p) = [].
Proof. induction p as [|c p IH]; [done|]. apply IH. Qed.

Lemma seg_tokens_names (p : string) :
  omap Regex.token_name (Spec.seg_tokens p) = option_list (Spec.seg_name p).
Proof.
  destruct p as [|c name]; [done|]. unfold Spec.seg_tokens, Spec.seg_name.
  destruct (Char.eqb c ":"); [done|]. apply text_tokens_no_param.
Qed.

Lemma segs_tokens_names (segs : list string) :
  omap Regex.token_name (Spec.segs_tokens segs) = Spec.param_segments segs.
Proof.
  unfold Spec.param_segments.
  induction segs as [|p segs IH]; [done|].
  transitivity (option_list (Spec.seg_name p) ++ omap Spec.seg_name segs);
    [|unfold omap; simpl; by destruct (Spec.seg_name p)].
  rewrite <- IH, <- seg_tokens_names.
  destruct segs as [|q segs].
  - cbn [Spec.segs_tokens]. by rewrite app_nil_r.
  - cbn [Spec.segs_tokens]. by rewrite omap_app.
Qed.

Lemma param_names_well_formed (route : string) :
  Spec.well_formed route = true ->
  Regex.param_names route = Spec.param_segments (Str.split_char "/" route).
Proof.
  intros Hwf%well_formed_segments. unfold Regex.param_names.
  rewrite <- (join_split "/" route) at 1.
  rewrite tokens_of_join by done. apply segs_tokens_names.
Qed.

(** *** The greedy group at a boundary *)

Lemma woh_not_slash (c : ascii) :
  Char.is_word_or_hyphen c = true -> Char.eqb c "/" = false.
Proof. intros Hc. apply char_eqb_neq. intros ->. done. Qed.

Lemma try_lengths_none (n : nat) cont (s : string) :
  (forall k, 0 < k <= n -> cont (Regex.drop k s) = None) ->
  Regex.try_lengths n cont s = None.
Proof.
  induction n as [|n IH]; intros Hk; [done|].
  cbn [Regex.try_lengths]. rewrite Hk by lia. apply IH.
  intros k ?. apply Hk. lia.
Qed.

Lemma try_lengths_top (n : nat) cont (s : string) :
  (forall k, 0 < k < n -> cont (Regex.drop k s) = None) ->
  Regex.try_lengths n cont s
    = match n with
      | O => None
      | S _ => cons (Regex.take n s) <$> cont (Regex.drop n s)
      end.
Proof.
  destruct n as [|n]; intros Hk; [done|].
  cbn [Regex.try_lengths]. destruct (cont _); [done|].
  apply try_lengths_none. intros k ?. apply Hk. lia.
Qed.

Lemma run_inside (s : string) (k : nat) :
  k < Regex.run_length s ->
  exists c t, Regex.drop k s = String c t
              /\ Char.is_word_or_hyphen c = true.
Proof.
  revert k. induction s as [|a s IH]; intros k; simpl; [lia|].
  destruct (Char.is_word_or_hyphen a) eqn:Ha; [|lia].
  destruct k as [|k]; [by eexists _, _|].
  intros Hk. apply IH. lia.
Qed.

(** Before a slash or the end, the group takes the whole run of
    characters of its class or fails. *)
Lemma match_group_at_boundary (rest : list Regex.atom) (s : string) :
  rest = [] \/ (exists rest', rest = Regex.Lit "/" :: rest') ->
  Regex.match_atoms (Regex.Group :: rest) s
    = match Regex.run_length s with
      | O => None
      | S _ =>
          cons (Regex.take (Regex.run_length s) s)
            <$> Regex.match_atoms rest (Regex.drop (Regex.run_length s) s)
      end.
Proof.
  intros Hrest. cbn [Regex.match_atoms]. apply try_lengths_top.
  intros k [_ Hk]. destruct (run_inside s k Hk) as (c & t & -> & Hc).
  destruct Hrest as [->|[rest' ->]]; [done|].
  cbn [Regex.match_atoms]. by rewrite woh_not_slash.
Qed.

Lemma run_boundary (s t : string) :
  Regex.drop (Regex.run_length s) s = String "/" t <->
  Str.all Char.is_word_or_hyphen (Str.before "/" s) = true
  /\ Str.after "/" s = Some t.
Proof.
  induction s as [|a s IH]; [by split; [|intros []]|].
  cbn [Regex.run_length Str.before Str.after].
  destruct (Char.is_word_or_hyphen a) eqn:Ha.
  - rewrite woh_not_slash by done. cbn [Regex.drop Str.all].
    by rewrite Ha, IH.
  - cbn [Regex.drop]. destruct (Char.eqb a "/") eqn:Hs.
    + apply char_eqb_eq in Hs. subst a. cbn [Str.all].
      split; [by intros [= ->]|by intros [_ [= ->]]].
    + cbn [Str.all]. rewrite Ha. cbn [andb].
      split; [|by intros []]. intros [= -> _].
      by rewrite char_eqb_refl in Hs.
Qed.

Lemma run_take_before (s t : string) :
  Regex.drop (Regex.run_length s) s = String "/" t ->
  Regex.take (Regex.run_length s) s = Str.before "/" s.
Proof.
  induction s as [|a s IH]; [done|].
  cbn [Regex.run_length Str.before].
  destruct (Char.is_word_or_hyphen a) eqn:Ha.
  - rewrite woh_not_slash by done. cbn [Regex.drop Regex.take].
    intros Hd. by rewrite IH.
  - cbn [Regex.drop Regex.take]. intros [= -> _]. done.
Qed.

Lemma run_all (s : string) :
  Regex.drop (Regex.run_length s) s = EmptyString <->
  Str.all Char.is_word_or_hyphen s = true.
Proof.
  induction s as [|a s IH]; [done|].
  cbn [Regex.run_length Str.all].
  destruct (Char.is_word_or_hyphen a); [apply IH|done].
Qed.

Lemma run_take_all (s : string) :
  Str.all Char.is_word_or_hyphen s = true ->
  Regex.take (Regex.run_length s) s = s.
Proof.
  induction s as [|a s IH]; [done|].
  cbn [Regex.run_length Str.all]. intros [-> Hs]%andb_true_iff.
  cbn [Regex.take]. by rewrite IH.
Qed.

Lemma run_zero (s : string) :
  Regex.run_length s = 0 ->
  Str.truthy (Regex.take (Regex.run_length s) s) = false.
Proof. intros ->. by destruct s. Qed.

Lemma run_positive (s : string) (n : nat) :
  Regex.run_length s = S n ->
  Str.truthy (Regex.take (Regex.run_length s) s) = true.
Proof.
  destruct s as [|a s]; [done|]. cbn [Regex.run_length].
  by destruct (Char.is_word_or_hyphen a).
Qed.

(** *** One segment at a time *)

Lemma match_param_segment (rest : list Regex.atom) (s : string) :
  Regex.match_atoms (Regex.Group :: Regex.Lit "/" :: rest) s
    = match Str.after "/" s with
      | Some t =>
          if Spec.is_value (Str.before "/" s)
          then cons (Str.before "/" s) <$> Regex.match_atoms rest t
          else None
      | None => None
      end.
Proof.
  rewrite match_group_at_boundary by (right; by eexists).
  destruct (Regex.drop (Regex.run_length s) s) as [|c t] eqn:Hd.
  - transitivity (@None (list string)); [by destruct (Regex.run_length s)|].
    destruct (Str.after "/" s) as [t|] eqn:Ha; [|done].
    destruct (Spec.is_value _) eqn:Hv; [|done].
    apply andb_true_iff in Hv as [_ Hv].
    pose proof (proj2 (run_boundary s t) (conj Hv Ha)) as Hd'. congruence.
  - destruct (Char.eqb c "/") eqn:Hc.
    + apply char_eqb_eq in Hc. subst c.
      rewrite (run_take_before _ _ Hd) in *.
      apply run_boundary in Hd as Hb. destruct Hb as [Hv ->].
      unfold Spec.is_value. rewrite Hv, andb_true_r.
      rewrite <- (run_take_before _ _ Hd).
      destruct (Regex.run_length s) eqn:Hn.
      * by rewrite <- Hn, run_zero.
      * rewrite <- Hn, (run_positive _ _ Hn).
        cbn [Regex.match_atoms]. by rewrite char_eqb_refl.
    + transitivity (@None (list string)).
      { cbn [Regex.match_atoms]. rewrite Hc.
        by destruct (Regex.run_length s). }
      destruct (Str.after "/" s) as [t'|] eqn:Ha; [|done].
      destruct (Spec.is_value _) eqn:Hv; [|done].
      apply andb_true_iff in Hv as [_ Hv].
      pose proof (proj2 (run_boundary s t') (conj Hv Ha)) as Hd'.
      rewrite Hd in Hd'. injection Hd' as -> _.
      by rewrite char_eqb_refl in Hc.
Qed.

Lemma match_param_last (s : string) :
  Regex.match_atoms [Regex.Group] s
    = if Spec.is_value s then Some [s] else None.
Proof.
  rewrite match_group_at_boundary by (by left). unfold Spec.is_value.
  destruct (Str.all Char.is_word_or_hyphen s) eqn:Hv.
  - rewrite (proj2 (run_all s) Hv). rewrite andb_true_r.
    destruct (Regex.run_length s) eqn:Hn.
    + pose proof (run_zero s Hn) as Ht.
      rewrite run_take_all in Ht by done. by rewrite Ht.
    + pose proof (run_positive s _ Hn) as Ht. rewrite <- Hn.
      rewrite run_take_all in * by done. by rewrite Ht.
  - rewrite andb_false_r. destruct (Regex.run_length s) eqn:Hn; [done|].
    rewrite <- Hn.
    destruct (Regex.drop (Regex.run_length s) s) eqn:Hd; [|done].
    apply run_all in Hd. congruence.
Qed.

Lemma text_atoms (p : string) :
  Regex.atom_of_token <$> Regex.text_tokens p = Regex.literal p.
Proof. induction p as [|c p IH]; [done|]. cbn. by f_equal. Qed.

Lemma match_text_segment (p : string) (rest : list Regex.atom) (s : string) :
  Str.count "/" p = 0 ->
  Regex.match_atoms (Regex.literal p ++ Regex.Lit "/" :: rest) s
    = match Str.after "/" s with
      | Some t =>
          if String.eqb p (Str.before "/" s)
          then Regex.match_atoms rest t
          else None
      | None => None
      end.
Proof.
  revert s. induction p as [|c p IH]; intros s Hp.
  - cbn [Regex.literal Datatypes.app Regex.match_atoms].
    destruct s as [|a s]; [done|]. cbn [Str.after Str.before].
    destruct (Char.eqb a "/"); [done|]. by destruct (Str.after "/" s).
  - cbn [Str.count] in Hp.
    destruct (Char.eqb c "/") eqn:Hc; [done|]. cbn [Nat.add] in Hp.
    cbn [Regex.literal Datatypes.app Regex.match_atoms].
    destruct s as [|a s]; [done|]. cbn [Str.after Str.before].
    destruct (Char.eqb a c) eqn:Hac.
    + apply char_eqb_eq in Hac. subst a. rewrite Hc, IH by done.
      cbn [String.eqb]. by rewrite Ascii.eqb_refl.
    + destruct (Char.eqb a "/") eqn:Has; [done|].
      destruct (Str.after "/" s); [|done].
      cbn [String.eqb]. unfold Char.eqb in Hac.
      rewrite Ascii.eqb_sym in Hac. by rewrite Hac.
Qed.

(** *** The whole pattern *)

Lemma segment_cases (p : string) :
  (Spec.seg_name p = None
   /\ Spec.seg_tokens p = Regex.text_tokens p
   /\ forall ps x xs,
        Spec.match_segments (p :: ps) (x :: xs)
          = if String.eqb p x then Spec.match_segments ps xs else None)
  \/ (exists name,
        Spec.seg_name p = Some name
        /\ Spec.seg_tokens p = [Regex.TParam name]
        /\ forall ps x xs,
             Spec.match_segments (p :: ps) (x :: xs)
               = if Spec.is_value x
                 then cons (name, x) <$> Spec.match_segments ps xs
                 else None).
Proof.
  destruct p as [|c name]; [by left|].
  unfold Spec.seg_name, Spec.seg_tokens. cbn [Spec.match_segments].
  destruct (Char.eqb c ":"); [right; by eexists|by left].
Qed.

Lemma value_has_no_slash (x : string) :
  Str.all Char.is_word_or_hyphen x = true -> Str.count "/" x = 0.
Proof.
  induction x as [|c x IH]; [done|]. cbn [Str.all Str.count].
  intros [Hc Hx]%andb_true_iff. by rewrite woh_not_slash, IH.
Qed.

Lemma match_segments_nil_tail (s : string) :
  Spec.match_segments []
    match Str.after "/" s with
    | Some t => Str.split_char "/" t
    | None => []
    end
  = match Str.after "/" s with Some _ => None | None => Some [] end.
Proof.
  destruct (Str.after "/" s) as [t|]; [|done].
  by rewrite split_char_unfold.
Qed.

Lemma match_segments_refined (segs : list string) (s : string) :
  segs ≠ [] ->
  Forall (fun p => Spec.wf_segment p = true) segs ->
  Forall (fun p => Str.count "/" p = 0) segs ->
  Regex.match_atoms (Regex.atom_of_token <$> Spec.segs_tokens segs) s
    = (fun binds => binds.*2)
        <$> Spec.match_segments segs (Str.split_char "/" s).
Proof.
  intros Hne Hwf. revert s Hne.
  induction Hwf as [|p segs Hp Hwf IH]; intros s Hne Hsf; [done|].
  inversion Hsf as [|? ? Hpsf Hsf']; subst.
  rewrite split_char_unfold.
  destruct (segment_cases p) as [(_ & Htok & Hm)|(name & _ & Htok & Hm)];
    rewrite Hm; clear Hm;
    (destruct segs as [|q segs];
     [cbn [Spec.segs_tokens]; rewrite Htok
     |change (Spec.segs_tokens (p :: q :: segs))
        with (Spec.seg_tokens p ++ Regex.TChar "/"
                :: Spec.segs_tokens (q :: segs));
      rewrite Htok, fmap_app, fmap_cons; cbn [Regex.atom_of_token]]).
  - rewrite text_atoms, match_literal, match_segments_nil_tail.
    destruct (Str.after "/" s) as [t|] eqn:Ha.
    + assert (s ≠ p) as Hsp.
      { intros ->. apply after_none in Hpsf. congruence. }
      apply String.eqb_neq in Hsp. rewrite Hsp.
      by destruct (String.eqb p _).
    + apply after_none in Ha. rewrite before_absent by done.
      rewrite String.eqb_sym. by destruct (String.eqb p s).
  - rewrite text_atoms, match_text_segment by done.
    destruct (Str.after "/" s) as [t|] eqn:Ha.
    + destruct (String.eqb p _); [|done]. by apply IH.
    + by destruct (String.eqb p _).
  - cbn [fmap list_fmap Regex.atom_of_token].
    rewrite match_param_last, match_segments_nil_tail.
    destruct (Str.after "/" s) as [t|] eqn:Ha.
    + assert (Spec.is_value s = false) as ->.
      { apply andb_false_iff. right.
        destruct (Str.all Char.is_word_or_hyphen s) eqn:Hv; [|done].
        apply value_has_no_slash, after_none in Hv. congruence. }
      by destruct (Spec.is_value _).
    + apply after_none in Ha. rewrite before_absent by done.
      by destruct (Spec.is_value s).
  - cbn [fmap list_fmap Regex.atom_of_token Datatypes.app].
    rewrite match_param_segment.
    destruct (Str.after "/" s) as [t|] eqn:Ha.
    + destruct (Spec.is_value _); [|done]. rewrite IH by done.
      by destruct (Spec.match_segments _ _).
    + by destruct (Spec.is_value _).
Qed.

(** On a well-formed pattern the regular expression decides the
    segment-wise match and yields the same values. *)
Lemma match_refined (route path : string) :
  Spec.well_formed route = true ->
  exists atoms,
    Regex.route_regex route = Val atoms
    /\ Regex.match_atoms atoms path
       = (fun binds => binds.*2) <$> Spec.match_pattern route path.
Proof.
  intros Hwf. eexists. split; [by apply route_regex_well_formed|].
  apply match_segments_refined.
  - apply split_char_not_nil.
  - by apply well_formed_segments.
  - apply split_char_slash_free.
Qed.

Lemma find_route_refined (routes : list string) (path : string) :
  Forall (fun R => Spec.well_formed R = true) routes ->
  RequestBuilder.find_route routes (Some path)
    = Val ((fun m => (m.1, m.2.*2)) <$> Spec.first_match routes path).
Proof.
  induction 1 as [|R routes HR Hroutes IH]; [done|].
  cbn [RequestBuilder.find_route Spec.first_match].
  destruct (match_refined R path HR) as (atoms & -> & Hm).
  cbn [res_bind]. rewrite Hm.
  by destruct (Spec.match_pattern R path).
Qed.

Lemma first_match_found (routes : list string) (path Q : string) found :
  Spec.first_match routes path = Some (Q, found) ->
  exists pre post,
    routes = pre ++ Q :: post
    /\ Forall (fun R => Spec.match_pattern R path = None) pre
    /\ Spec.match_pattern Q path = Some found.
Proof.
  induction routes as [|R routes IH]; [done|]. cbn [Spec.first_match].
  destruct (Spec.match_pattern R path) as [b|] eqn:HR.
  - intros [= -> ->]. by exists [], routes.
  - intros (pre & post & -> & Hpre & HQ)%IH.
    exists (R :: pre), post. by repeat constructor.
Qed.

Lemma first_match_exists (routes : list string) (path P : string) binds :
  P ∈ routes ->
  Spec.match_pattern P path = Some binds ->
  is_Some (Spec.first_match routes path).
Proof.
  induction 1 as [P routes|P R routes HP IH]; cbn [Spec.first_match];
    intros Hm.
  - by rewrite Hm.
  - destruct (Spec.match_pattern R path); [done|by apply IH].
Qed.

Lemma match_segments_names (segs xs : list string) found :
  Spec.match_segments segs xs = Some found ->
  found.*1 = Spec.param_segments segs.
Proof.
  unfold Spec.param_segments. revert xs found.
  induction segs as [|p segs IH]; intros [|x xs] found; try done.
  - by intros [= <-].
  - destruct (segment_cases p) as [(Hn & _ & ->)|(name & Hn & _ & ->)];
      cbn [omap list_omap]; rewrite Hn.
    + destruct (String.eqb p x); [|done]. apply IH.
    + destruct (Spec.is_value x); [|done].
      destruct (Spec.match_segments segs xs) as [b|] eqn:Hb; [|done].
      intros [= <-]. cbn. f_equal. by eapply IH.
Qed.

Lemma match_segments_values (segs xs : list string) found :
  Spec.match_segments segs xs = Some found ->
  Forall (fun v => Spec.is_value v = true /\ Str.count "/" v = 0) found.*2.
Proof.
  revert xs found.
  induction segs as [|p segs IH]; intros [|x xs] found; try done.
  - by intros [= <-].
  - destruct (segment_cases p) as [(_ & _ & ->)|(name & _ & _ & ->)].
    + destruct (String.eqb p x); [|done]. apply IH.
    + destruct (Spec.is_value x) eqn:Hx; [|done].
      destruct (Spec.match_segments segs xs) as [b|] eqn:Hb; [|done].
      intros [= <-]. cbn. constructor; [|by eapply IH].
      split; [done|]. apply value_has_no_slash.
      by apply andb_true_iff in Hx as [_ ?].
Qed.

(** *** The [params] object *)

Lemma try_lengths_some (k : nat) cont (s : string) gs :
  Regex.try_lengths k cont s = Some gs ->
  exists x caps j, gs = x :: caps /\ cont (Regex.drop j s) = Some caps.
Proof.
  induction k as [|k IH]; [done|]. cbn [Regex.try_lengths].
  destruct (cont (Regex.drop (S k) s)) as [caps|] eqn:Hc; [|done].
  intros [= <-]. by eexists _, _, _.
Qed.

Lemma match_atoms_groups (atoms : list Regex.atom) (s : string) gs :
  Regex.match_atoms atoms s = Some gs -> length gs = Regex.count_groups atoms.
Proof.
  revert s gs. induction atoms as [|[c| |] atoms IH]; intros s gs;
    cbn [Regex.match_atoms Regex.count_groups].
  - destruct (Str.is_empty s); [|done]. by intros [= <-].
  - destruct s as [|a s]; [done|]. destruct (Char.eqb a c); [|done]. apply IH.
  - destruct s as [|a s]; [done|].
    destruct (Char.is_line_terminator a); [done|]. apply IH.
  - intros (x & caps & j & -> & Hc)%try_lengths_some. cbn. f_equal. by eapply IH.
Qed.

Lemma group_source_tail_no_paren (c : ascii) (s : string) :
  Regex.starts_with Regex.group_source (String c s) = true ->
  Regex.no_paren 7 s = true.
Proof.
  unfold Regex.group_source. cbn [Regex.starts_with].
  intros [_ Hs]%andb_true_iff.
  do 7 (destruct s as [|? s]; [done|];
        cbn [Regex.starts_with] in Hs;
        apply andb_true_iff in Hs as [Hc%char_eqb_eq Hs]; subst).
  done.
Qed.

Lemma parse_covers_params (ts : list Regex.token) (k : nat) atoms :
  Regex.no_paren k (Regex.render ts) = true ->
  Regex.parse k (Regex.render ts) = Some atoms ->
  length (omap Regex.token_name ts) <= Regex.count_groups atoms.
Proof.
  revert k atoms. induction ts as [|[c|n] ts IH]; intros k atoms Hk Hp.
  - cbn. lia.
  - change (Regex.render (Regex.TChar c :: ts))
      with (String c (Regex.render ts)) in *.
    change (omap Regex.token_name (Regex.TChar c :: ts))
      with (omap Regex.token_name ts).
    destruct k as [|k].
    + cbn [Regex.parse] in Hp.
      destruct (Regex.starts_with _ _) eqn:Hg.
      * apply group_source_tail_no_paren in Hg.
        destruct (Regex.parse _ (Regex.render ts)) as [atoms'|] eqn:Hp';
          simpl in Hp; [|done].
        injection Hp as <-. cbn [Regex.count_groups].
        pose proof (IH _ _ Hg Hp'). lia.
      * destruct (Char.eqb c ".").
        { destruct (Regex.parse 0 (Regex.render ts)) as [atoms'|] eqn:Hp';
            simpl in Hp; [|done].
          injection Hp as <-. cbn [Regex.count_groups]. by apply (IH 0). }
        destruct (Char.is_syntax c); [done|].
        destruct (Regex.parse 0 (Regex.render ts)) as [atoms'|] eqn:Hp';
          simpl in Hp; [|done].
        injection Hp as <-. cbn [Regex.count_groups]. by apply (IH 0).
    + cbn [Regex.no_paren] in Hk. apply andb_true_iff in Hk as [_ Hk].
      by apply (IH k).
  - change (Regex.render (Regex.TParam n :: ts))
      with (Regex.group_source +:+ Regex.render ts) in *.
    destruct k as [|k]; [|done].
    rewrite parse_group in Hp.
    destruct (Regex.parse 0 (Regex.render ts)) as [atoms'|] eqn:Hp';
      simpl in Hp; [|done].
    injection Hp as <-.
    change (omap Regex.token_name (Regex.TParam n :: ts))
      with (n :: omap Regex.token_name ts).
    cbn [length Regex.count_groups]. pose proof (IH 0 _ eq_refl Hp'). lia.
Qed.

(** A match has a group for every parameter name, so [match[idx + 1]] is
    never [undefined]. *)
Lemma groups_cover_param_names (route e : string) atoms groups :
  Regex.route_regex route = Val atoms ->
  Regex.match_atoms atoms e = Some groups ->
  length (Regex.param_names route) <= length groups.
Proof.
  unfold Regex.route_regex, Regex.replace_params, Regex.param_names.
  destruct (Regex.parse 0 _) as [atoms'|] eqn:Hp; [|done].
  intros [= <-] Hm. rewrite (match_atoms_groups _ _ _ Hm).
  by eapply (parse_covers_params _ 0).
Qed.

Lemma assign_params_other (names groups : list string)
    (ps : gmap string string) (n : string) :
  n ∉ names ->
  RequestBuilder.assign_params names groups ps !! n = ps !! n.
Proof.
  revert groups ps. induction names as [|m names IH]; intros [|g groups] ps;
    try done.
  intros [Hm Hn]%not_elem_of_cons. cbn [RequestBuilder.assign_params].
  rewrite IH by done. unfold RequestBuilder.set_param.
  destruct (String.eqb m "__proto__"); [done|]. by rewrite lookup_insert_ne.
Qed.

Lemma assign_params_lookup (found : list (string * string))
    (ps : gmap string string) (n v : string) :
  NoDup found.*1 ->
  (n, v) ∈ found ->
  n ≠ "__proto__" ->
  RequestBuilder.assign_params found.*1 found.*2 ps !! n = Some v.
Proof.
  revert ps. induction found as [|[m g] found IH]; intros ps Hnd Hin Hn.
  - by apply elem_of_nil in Hin.
  - cbn [fmap list_fmap fst snd RequestBuilder.assign_params].
    apply NoDup_cons in Hnd as [Hm Hnd].
    apply elem_of_cons in Hin as [[= -> ->]|Hin].
    + change (list_fmap _ _ fst found) with (found.*1).
      rewrite assign_params_other by done.
      unfold RequestBuilder.set_param.
      apply String.eqb_neq in Hn. rewrite Hn. apply lookup_insert_eq.
    + by apply IH.
Qed.

(** C2, as amended. In a table of well-formed patterns, a path that
    matches one of them segment by segment is resolved to the first
    pattern of the table that it matches so; the groups returned are
    the segments of the path at the parameter segments of that
    pattern, in order, each a non-empty text of word characters and
    hyphens, hence without a slash; and [params] holds each of them
    under the name of its segment. *)
Theorem find_route_on_well_formed_patterns
    (routes : list string) (P path : string)
    (binds : list (string * string)) :
  Forall (fun R => Spec.well_formed R = true) routes ->
  P ∈ routes ->
  Spec.match_pattern P path = Some binds ->
  exists Q found pre post,
    RequestBuilder.find_route routes (Some path) = Val (Some (Q, found.*2))
    /\ routes = pre ++ Q :: post
    /\ Forall (fun R => Spec.match_pattern R path = None) pre
    /\ Spec.match_pattern Q path = Some found
    /\ Regex.param_names Q = found.*1
    /\ Forall (fun v => Spec.is_value v = true /\ Str.count "/" v = 0)
              found.*2
    /\ (NoDup found.*1 ->
        forall n v, (n, v) ∈ found -> n ≠ "__proto__" ->
          RequestBuilder.assign_params (Regex.param_names Q) found.*2 ∅ !! n
            = Some v).
Proof.
  intros Hwf HP Hm.
  destruct (first_match_exists routes path P binds HP Hm) as [[Q found] Hf].
  destruct (first_match_found _ _ _ _ Hf) as (pre & post & Hr & Hpre & HQ).
  assert (Spec.well_formed Q = true) as HwQ.
  { rewrite Forall_forall in Hwf. apply Hwf. subst routes.
    apply elem_of_app. right. by left. }
  assert (Regex.param_names Q = found.*1) as Hnames.
  { rewrite param_names_well_formed by done. symmetry.
    by eapply match_segments_names. }
  exists Q, found, pre, post. repeat split; try done.
  - by rewrite find_route_refined, Hf.
  - by eapply match_segments_values.
  - intros Hnd n v Hin Hn. rewrite Hnames. by apply assign_params_lookup.
Qed.

(** C2, as stated, fails on patterns outside that class.  A capturing
    group written in the pattern is one more group of the regular
    expression: [/x/7] is then matched by [/([\w-]+)/:id] with [id]
    bound to [x], the text of the first group, and the path that
    spells the pattern's own literal segment is not matched.  A colon
    inside a segment starts a parameter for the builder: the path
    [/x:y/7], which has the segments of [/x:y/:id], is not matched. *)
Lemma literal_group_shifts_the_captures :
  Regex.param_names "/([\w-]+)/:id" = ["id"]
  /\ RequestBuilder.find_route ["/([\w-]+)/:id"] (Some "/x/7")
     = Val (Some ("/([\w-]+)/:id", ["x"; "7"]))
  /\ RequestBuilder.assign_params ["id"] ["x"; "7"] ∅ !! "id" = Some "x"
  /\ Spec.match_pattern "/([\w-]+)/:id" "/x/7" = None
  /\ Spec.match_pattern "/([\w-]+)/:id" "/([\w-]+)/7" = Some [("id", "7")]
  /\ RequestBuilder.find_route ["/([\w-]+)/:id"] (Some "/([\w-]+)/7")
     = Val None
  /\ Spec.match_pattern "/x:y/:id" "/x:y/7" = Some [("id", "7")]
  /\ RequestBuilder.find_route ["/x:y/:id"] (Some "/x:y/7") = Val None.
Proof. repeat split; by vm_compute. Qed.

End Routing.

(** ** The file routes *)

Section Files.

Context `{Zlib}.

Lemma match_lit_same (c : ascii) rest (s : string) :
  Regex.match_atoms (Regex.Lit c :: rest) (String c s)
    = Regex.match_atoms rest s.
Proof. cbn [Regex.match_atoms]. by rewrite char_eqb_refl. Qed.

Lemma match_lit_other (c a : ascii) rest (s : string) :
  a ≠ c -> Regex.match_atoms (Regex.Lit c :: rest) (String a s) = None.
Proof.
  intros Hac. cbn [Regex.match_atoms].
  by rewrite (proj2 (char_eqb_neq a c) Hac).
Qed.

(** Under [/files/], the routes of GET match a path exactly when what
    follows is a non-empty text of word characters and hyphens: a name
    with an extension never reaches the file handler. *)
Lemma get_file_route_needs_value (name : string) :
  RequestBuilder.find_route
    ["/"; "/echo/:str"; "/user-agent"; "/files/:filename"]
    (Some ("/files/" +:+ name))
  = Val (if Spec.is_value name
         then Some ("/files/:filename", [name])
         else None).
Proof.
  unfold RequestBuilder.find_route.
  change (Regex.route_regex "/")
    with (Val (Regex.literal "/")).
  change (Regex.route_regex "/echo/:str")
    with (Val (Regex.literal "/echo/" ++ [Regex.Group])).
  change (Regex.route_regex "/user-agent")
    with (Val (Regex.literal "/user-agent")).
  change (Regex.route_regex "/files/:filename")
    with (Val (Regex.literal "/files/" ++ [Regex.Group])).
  cbn [res_bind]. rewrite !append_cons.
  change (EmptyString +:+ name) with name.
  cbn [Regex.literal Datatypes.app].
  rewrite !match_lit_same.
  rewrite !(match_lit_other _ "f") by done.
  rewrite match_param_last.
  replace (Regex.match_atoms [] _) with (@None (list string)) by done.
  by destruct (Spec.is_value name).
Qed.

(** C1. The answer to [GET /files/missing.txt]: no route matches, the
    file handler does not run, and the bare frame is written, whatever
    the disk holds. *)
Theorem get_file_with_extension_is_unrouted (s : Sys) :
  RequestBuilder.find_route
    ["/"; "/echo/:str"; "/user-agent"; "/files/:filename"]
    (Some "/files/missing.txt") = Val None
  /\ on_data app
       (Wire.request "GET /files/missing.txt HTTP/1.1"
          ["Host: localhost:4221"] EmptyString) s
     = (Val tt, wrote s [Text not_found_frame])
  /\ wire [Text not_found_frame]
     ≠ wire [Text ("HTTP/1.1 404 Not Found" +:+ Str.CRLF
                     +:+ "Content-Type: text/plain" +:+ Str.CRLF
                     +:+ "Content-Length: 14" +:+ Str.CRLF +:+ Str.CRLF);
             Text "File not found"].
Proof. split; [|split]; by vm_compute. Qed.

End Files.

(** ** The scenarios of the specification *)

Section Scenarios.

Lemma scenario_root :
  on_data (app (H := framing))
    (Wire.request "GET / HTTP/1.1" ["Host: localhost:4221"] EmptyString)
    Wire.sys0
  = (Val tt,
     wrote Wire.sys0 [Text ("HTTP/1.1 200 OK" +:+ Str.CRLF +:+ Str.CRLF)]).
Proof. by vm_compute. Qed.

Lemma scenario_echo :
  on_data (app (H := framing))
    (Wire.request "GET /echo/hello HTTP/1.1" ["Host: localhost:4221"]
       EmptyString)
    Wire.sys0
  = (Val tt,
     wrote Wire.sys0
       [Text ("HTTP/1.1 200 OK" +:+ Str.CRLF
                +:+ "Content-Type: text/plain" +:+ Str.CRLF
                +:+ "Content-Length: 5" +:+ Str.CRLF +:+ Str.CRLF);
        Text "hello"]).
Proof. by vm_compute. Qed.

Lemma scenario_echo_gzip :
  on_data (app (H := framing))
    (Wire.request "GET /echo/hello HTTP/1.1"
       ["Host: localhost:4221"; "Accept-Encoding: gzip"] EmptyString)
    Wire.sys0
  = (Val tt,
     wrote Wire.sys0
       [Text ("HTTP/1.1 200 OK" +:+ Str.CRLF
                +:+ "Content-Type: text/plain" +:+ Str.CRLF
                +:+ "Content-Length: 7" +:+ Str.CRLF
                +:+ "Content-Encoding: gzip" +:+ Str.CRLF +:+ Str.CRLF);
        Bytes (x1f :: x8b :: Str.utf8 "hello")]).
Proof. by vm_compute. Qed.

Lemma scenario_user_agent :
  on_data (app (H := framing))
    (Wire.request "GET /user-agent HTTP/1.1"
       ["Host: localhost:4221"; "User-Agent: test-agent"] EmptyString)
    Wire.sys0
  = (Val tt,
     wrote Wire.sys0
       [Text ("HTTP/1.1 200 OK" +:+ Str.CRLF
                +:+ "Content-Type: text/plain" +:+ Str.CRLF
                +:+ "Content-Length: 10" +:+ Str.CRLF +:+ Str.CRLF);
        Text "test-agent"]).
Proof. by vm_compute. Qed.

Lemma scenario_get_file :
  on_data (app (H := framing))
    (Wire.request "GET /files/notes HTTP/1.1" ["Host: localhost:4221"]
       EmptyString)
    Wire.sys0
  = (Val tt,
     wrote Wire.sys0
       [Text ("HTTP/1.1 200 OK" +:+ Str.CRLF
                +:+ "Content-Type: application/octet-stream" +:+ Str.CRLF
                +:+ "Content-Length: 2" +:+ Str.CRLF +:+ Str.CRLF);
        Bytes [x68; x69]]).
Proof. by vm_compute. Qed.

Lemma scenario_get_missing_file :
  on_data (app (H := framing))
    (Wire.request "GET /files/missing HTTP/1.1" ["Host: localhost:4221"]
       EmptyString)
    Wire.sys0
  = (Val tt,
     wrote Wire.sys0
       [Text ("HTTP/1.1 404 Not Found" +:+ Str.CRLF
                +:+ "Content-Type: text/plain" +:+ Str.CRLF
                +:+ "Content-Length: 14" +:+ Str.CRLF +:+ Str.CRLF);
        Text "File not found"]).
Proof. by vm_compute. Qed.

Lemma scenario_post_file :
  let s := (on_data (app (H := framing))
              (Wire.request "POST /files/new HTTP/1.1"
                 ["Host: localhost:4221"] "hello world")
              Wire.sys0).2 in
  socket s = [Text ("HTTP/1.1 201 Created" +:+ Str.CRLF +:+ Str.CRLF)]
  /\ disk s !! "/tmp/new" = Some (Str.utf8 "hello world").
Proof. by vm_compute. Qed.

(** The same request for a name with an extension is not routed, and
    nothing is stored. *)
Lemma scenario_post_file_with_extension :
  let s := (on_data (app (H := framing))
              (Wire.request "POST /files/new.txt HTTP/1.1"
                 ["Host: localhost:4221"] "hello world")
              Wire.sys0).2 in
  socket s = [Text not_found_frame] /\ disk s !! "/tmp/new.txt" = None.
Proof. by vm_compute. Qed.

(** A GET request with a header line that has no colon: the builder
    throws before any route is tried. *)
Lemma scenario_header_without_colon :
  on_data (app (H := framing))
    (Wire.request "GET /unregistered/path HTTP/1.1" ["Host"] EmptyString)
    Wire.sys0
  = (Throw TypeError, Wire.sys0).
Proof. by vm_compute. Qed.

End Scenarios.

(** ** The statements at work *)

Section Instances.

Lemma framing_laws : ZlibLaws framing.
Proof.
  split; intros b z [= <-]; [done|by eexists].
Qed.

Lemma post_file_empty_body_is_silent_witness :
  on_data (app (H := framing))
    (Wire.request "POST /files/new HTTP/1.1" ["Host: localhost:4221"]
       EmptyString) Wire.sys0
  = (Val tt, Wire.sys0).
Proof.
  eapply (@post_file_empty_body_is_silent framing).
  - vm_compute. reflexivity.
  - vm_compute. reflexivity.
  - vm_compute. reflexivity.
  - vm_compute. reflexivity.
Defined.

Lemma paramless_route_is_exact_match_witness :
  exists atoms,
    Regex.route_regex "/user-agent" = Val atoms
    /\ forall path,
        is_Some (Regex.match_atoms atoms path) <-> path = "/user-agent".
Proof.
  apply paramless_route_is_exact_match; vm_compute; reflexivity.
Defined.

Lemma find_route_on_well_formed_patterns_witness :
  exists Q found pre post,
    RequestBuilder.find_route
      ["/"; "/echo/:str"; "/user-agent"; "/files/:filename"]
      (Some "/files/notes")
    = Val (Some (Q, found.*2))
    /\ ["/"; "/echo/:str"; "/user-agent"; "/files/:filename"]
       = pre ++ Q :: post
    /\ Forall (fun R => Spec.match_pattern R "/files/notes" = None) pre
    /\ Spec.match_pattern Q "/files/notes" = Some found
    /\ Regex.param_names Q = found.*1
    /\ Forall (fun v => Spec.is_value v = true /\ Str.count "/" v = 0)
              found.*2
    /\ (NoDup found.*1 ->
        forall n v, (n, v) ∈ found -> n ≠ "__proto__" ->
          RequestBuilder.assign_params (Regex.param_names Q) found.*2 ∅ !! n
            = Some v).
Proof.
  apply (find_route_on_well_formed_patterns
           ["/"; "/echo/:str"; "/user-agent"; "/files/:filename"]
           "/files/:filename" "/files/notes" [("filename", "notes")]).
  - repeat constructor.
  - repeat constructor.
  - vm_compute. reflexivity.
Defined.

End Instances.

(** ** What a response always satisfies *)

Section ResponseInvariants.

Context `{Zlib}.

Lemma JsMap_keys_set {V} (k : string) (v : V) (m : JsMap.t V) :
  JsMap.keys (JsMap.set k v m)
    = if bool_decide (k ∈ JsMap.keys m) then JsMap.keys m
      else JsMap.keys m ++ [k].
Proof.
  induction m as [|[k' v'] m IH]; [done|]. cbn [JsMap.set].
  destruct (String.eqb k k') eqn:E.
  - apply String.eqb_eq in E. subst k'. cbn.
    rewrite bool_decide_eq_true_2; [done|by left].
  - apply String.eqb_neq in E. cbn. unfold JsMap.keys in IH. rewrite IH.
    destruct (bool_decide (k ∈ m.*1)) eqn:Hk.
    + apply bool_decide_eq_true in Hk.
      rewrite bool_decide_eq_true_2; [done|by right].
    + apply bool_decide_eq_false in Hk.
      rewrite bool_decide_eq_false_2; [done|].
      by intros [?|?]%elem_of_cons.
Qed.

Lemma JsMap_set_NoDup {V} (k : string) (v : V) (m : JsMap.t V) :
  NoDup (JsMap.keys m) -> NoDup (JsMap.keys (JsMap.set k v m)).
Proof.
  intros Hm. rewrite JsMap_keys_set. case_bool_decide as Hk; [done|].
  apply NoDup_app. split; [done|]. split; [|apply NoDup_singleton].
  intros x Hx ->%list_elem_of_singleton. done.
Qed.

(** X1. [res.header(k, v)] is an upsert: afterwards [k] reads as [v],
    every other header reads as before, a header that was present keeps
    its place in the order of output, and a new one goes last. *)
Theorem header_upserts (k v : string) (r : HttpRes) :
  JsMap.get k (res_headers (header k v r)) = Some v
  /\ (forall j, j ≠ k ->
        JsMap.get j (res_headers (header k v r)) = JsMap.get j (res_headers r))
  /\ JsMap.keys (res_headers (header k v r))
     = (if bool_decide (k ∈ JsMap.keys (res_headers r))
        then JsMap.keys (res_headers r)
        else JsMap.keys (res_headers r) ++ [k])
  /\ statusCode (header k v r) = statusCode r
  /\ encode (header k v r) = encode r.
Proof.
  repeat split.
  - apply JsMap_get_set_eq.
  - intros j Hj. by apply JsMap_get_set_ne.
  - apply JsMap_keys_set.
Qed.

Lemma header_NoDup k v r :
  NoDup (JsMap.keys (res_headers r)) ->
  NoDup (JsMap.keys (res_headers (header k v r))).
Proof. apply JsMap_set_NoDup. Qed.

Lemma run_calls_NoDup cs r :
  NoDup (JsMap.keys (res_headers r)) ->
  NoDup (JsMap.keys (res_headers (run_calls cs r))).
Proof.
  revert r. unfold run_calls.
  induction cs as [|[c|k v] cs IH]; intros r Hr; [done|..]; cbn [foldl].
  - by apply IH.
  - by apply IH, header_NoDup.
Qed.

Lemma typed_body_NoDup data r :
  NoDup (JsMap.keys (res_headers r)) ->
  NoDup (JsMap.keys (res_headers (typed_body data r).1)).
Proof.
  intros Hr. destruct data as [[]|]; [..|done]; cbn [typed_body fst];
    by do 2 apply header_NoDup.
Qed.

Lemma encoded_body_NoDup rb :
  NoDup (JsMap.keys (res_headers rb.1)) ->
  NoDup (JsMap.keys (res_headers (encoded_body rb).1)).
Proof.
  destruct rb as [r b]. cbn [fst encoded_body]. intros Hr.
  destruct (encode r); [|done]. destruct (gzipSync _); [|done].
  by do 2 apply header_NoDup.
Qed.

(** The header map never holds a name twice, whatever calls to [status]
    and [header] came before [send]. *)
Lemma sent_keys_NoDup
    (cs : list call) (enc : bool) (data : option ResType) (s : Sys) :
  exists r' body,
    send data (run_calls cs (new_HttpRes enc)) s
      = (Val r', wrote s (Text (head_text r') :: body))
    /\ NoDup (JsMap.keys (res_headers r')).
Proof.
  eexists _, _. rewrite send_writes. split; [done|].
  apply encoded_body_NoDup, typed_body_NoDup, run_calls_NoDup. constructor.
Qed.

Lemma utf8_empty : Str.utf8 EmptyString = [].
Proof. done. Qed.

Lemma wire_body_writes (b : Body) : wire (body_writes b) = body_bytes b.
Proof.
  unfold body_writes. destruct b as [[|c s]|b]; cbn; by rewrite ?app_nil_r.
Qed.

(** The [Content-Length] of the header map counts the bytes of the body
    that follows the head. *)
Lemma content_length_in_map
    (data : option ResType) (r : HttpRes) (s : Sys) :
  is_Some data
    \/ (encode r = true /\ is_Some (gzipSync (Str.utf8 EmptyString))) ->
  exists r' body,
    send data r s = (Val r', wrote s (Text (head_text r') :: body))
    /\ JsMap.get "Content-Length" (res_headers r')
       = Some (Str.of_nat (length (wire body))).
Proof.
  intros Hd. eexists _, _. rewrite send_writes. split; [done|].
  rewrite wire_body_writes.
  pose proof (typed_body_body data r) as Hb.
  pose proof (typed_body_encode data r) as He.
  assert (encode r = false \/ gzipSync (body_bytes (data_body data)) = None ->
          is_Some data) as Hdata.
  { intros Hoff. destruct Hd as [?|[Hon [z Hz]]]; [done|].
    destruct data; [done|]. destruct Hoff; simpl in *; congruence. }
  destruct (typed_body data r) as [r1 b1] eqn:Ht. cbn [fst snd] in *.
  subst b1. cbn [encoded_body]. rewrite He.
  assert (is_Some data ->
          JsMap.get "Content-Length" (res_headers r1)
          = Some (Str.of_nat (length (body_bytes (data_body data))))) as Hplain.
  { intros [d ->]. destruct d; cbn in Ht; injection Ht as <-;
      apply JsMap_get_set_eq. }
  destruct (encode r) eqn:Henc.
  - destruct (gzipSync (body_bytes (data_body data))) as [z|] eqn:Hz;
      cbn [fst snd body_bytes].
    + apply JsMap_get_set_eq.
    + apply Hplain, Hdata. by right.
  - cbn [fst snd]. apply Hplain, Hdata. by left.
Qed.

End ResponseInvariants.

(** ** What the parser keeps of a header *)

Section HeaderValues.

(** A text that is empty or starts with a character other than white
    space. *)
Lemma trim_start_fixed (s : string) :
  Str.no_leading_space s = true -> Str.trim_start s = s.
Proof. destruct s as [|c s]; [done|]. cbn. by intros ->%negb_true_iff. Qed.

Lemma trim_start_no_leading_space (s : string) :
  Str.no_leading_space (Str.trim_start s) = true.
Proof.
  induction s as [|c s IH]; [done|]. cbn [Str.trim_start].
  destruct (Char.is_space c) eqn:Hc; [done|]. cbn. by rewrite Hc.
Qed.

Lemma trim_end_no_leading_space (s : string) :
  Str.no_leading_space s = true ->
  Str.no_leading_space (Str.trim_end s) = true.
Proof.
  destruct s as [|c s]; [done|]. cbn [Str.no_leading_space Str.trim_end].
  intros Hc. apply negb_true_iff in Hc.
  destruct (Str.trim_end s); rewrite ?Hc; cbn; by rewrite Hc.
Qed.

Lemma trim_end_idempotent (s : string) :
  Str.trim_end (Str.trim_end s) = Str.trim_end s.
Proof.
  induction s as [|c s IH]; [done|]. cbn [Str.trim_end].
  destruct (Str.trim_end s) as [|a t] eqn:Ht.
  - destruct (Char.is_space c) eqn:Hc; [done|]. cbn. by rewrite Hc.
  - cbn [Str.trim_end]. cbn [Str.trim_end] in IH.
    destruct (Str.trim_end t) eqn:Ht'.
    + destruct (Char.is_space a); [done|]. by rewrite IH.
    + by rewrite IH.
Qed.

Lemma trim_idempotent (s : string) : Str.trim (Str.trim s) = Str.trim s.
Proof.
  unfold Str.trim.
  rewrite (trim_start_fixed (Str.trim_end _)).
  - apply trim_end_idempotent.
  - apply trim_end_no_leading_space, trim_start_no_leading_space.
Qed.

Lemma trim_end_no_trailing_space (s : string) :
  Str.no_trailing_space (Str.trim_end s) = true.
Proof.
  induction s as [|c s IH]; [done|]. cbn [Str.trim_end].
  destruct (Str.trim_end s) as [|a t] eqn:Ht.
  - destruct (Char.is_space c) eqn:Hc; [done|]. cbn. by rewrite Hc.
  - done.
Qed.

Lemma header_entry_value_trim (line key value : string) :
  RequestBuilder.header_entry line = Val (key, value) ->
  Str.trim value = value.
Proof.
  unfold RequestBuilder.header_entry.
  destruct (Str.split_char ":" line !! 1) as [x|]; [|done].
  intros [= _ <-]. apply trim_idempotent.
Qed.

(** X4. The value the parser stores for a header has no white space at
    either end, and trimming it again changes nothing. *)
Theorem stored_header_value_is_trimmed (line key value : string) :
  RequestBuilder.header_entry line = Val (key, value) ->
  Str.no_leading_space value = true
  /\ Str.no_trailing_space value = true
  /\ Str.trim value = value.
Proof.
  unfold RequestBuilder.header_entry.
  destruct (Str.split_char ":" line !! 1) as [x|]; [|done].
  intros [= _ <-]. split; [|split].
  - apply trim_end_no_leading_space, trim_start_no_leading_space.
  - apply trim_end_no_trailing_space.
  - apply trim_idempotent.
Qed.

Lemma reduce_headers_values (P : string -> Prop) lines
    (a hs : gmap string string) :
  (forall line k v, RequestBuilder.header_entry line = Val (k, v) -> P v) ->
  RequestBuilder.reduce_headers lines a = Val hs ->
  (forall k v, a !! k = Some v -> P v) ->
  forall k v, hs !! k = Some v -> P v.
Proof.
  intros HP. revert a. induction lines as [|line lines IH]; intros a.
  - by intros [= <-].
  - cbn [RequestBuilder.reduce_headers].
    destruct (RequestBuilder.header_entry line) as [[k0 v0]|] eqn:He; [|done].
    cbn [res_bind fst snd]. intros Hr Ha. apply (IH _ Hr).
    intros k v. destruct (decide (k0 = k)) as [->|Hne].
    + rewrite lookup_insert_eq. intros [= <-]. by eapply HP.
    + rewrite lookup_insert_ne by done. apply Ha.
Qed.

Lemma gzip_filter_length (formats : list string) :
  bool_decide (0 < length (filter (fun i => i ∈ formats) AcceptableEncoding))
    = bool_decide ("gzip" ∈ formats).
Proof.
  unfold AcceptableEncoding. rewrite filter_cons, filter_nil.
  destruct (decide ("gzip" ∈ formats)) as [Hin|Hout].
  - rewrite (bool_decide_eq_true_2 _ Hin). apply bool_decide_eq_true_2.
    cbn. lia.
  - rewrite (bool_decide_eq_false_2 _ Hout). apply bool_decide_eq_false_2.
    cbn. lia.
Qed.

Lemma encoding_decision_of_trimmed (hs : gmap string string) (v : string) :
  hs !! "accept_encoding" = Some v ->
  Str.trim v = v ->
  encoding_decision hs
    = bool_decide ("gzip" ∈ Str.trim <$> Str.split_char "," v).
Proof.
  intros Hv Ht. unfold encoding_decision. rewrite Hv.
  destruct v as [|c v']; [done|]. cbn [Str.truthy Str.is_empty negb].
  remember (String c v') as v eqn:Ev.
  destruct (1 <? length (Str.split_char "," v)) eqn:Hlen.
  - apply gzip_filter_length.
  - apply Nat.ltb_ge in Hlen. rewrite split_char_unfold in Hlen |- *.
    destruct (Str.after "," v) as [t|] eqn:Ha.
    + rewrite split_char_unfold in Hlen. cbn in Hlen. lia.
    + apply after_none in Ha. rewrite before_absent by done.
      cbn [fmap list_fmap]. rewrite Ht. unfold AcceptableEncoding.
      apply bool_decide_ext. rewrite !list_elem_of_singleton. naive_solver.
Qed.

(** X5. For a request the builder accepts, the response is compressed
    exactly when [gzip] is one of the comma-separated entries of its
    [Accept-Encoding] header, white space around an entry aside; without
    the header it is not. *)
Theorem compression_follows_accept_encoding {V}
    (data : string) (table : option (JsMap.t V)) (req : HttpReq) :
  RequestBuilder.build data table = Val req ->
  encoding_decision (headers req)
    = match headers req !! "accept_encoding" with
      | Some v => bool_decide ("gzip" ∈ Str.trim <$> Str.split_char "," v)
      | None => false
      end.
Proof.
  intros [Hh _]%build_headers.
  destruct (headers req !! "accept_encoding") as [v|] eqn:Hv;
    [|by apply encoding_decision_absent].
  apply encoding_decision_of_trimmed; [done|].
  eapply (reduce_headers_values (fun v => Str.trim v = v)); [|done| |done].
  - intros line k x Hx. by eapply header_entry_value_trim.
  - intros k x. by rewrite lookup_empty.
Qed.

(** *** Lines without a colon *)

Lemma header_entry_returns (line : string) :
  (exists kv, RequestBuilder.header_entry line = Val kv)
  <-> Str.count ":" line ≠ 0.
Proof.
  unfold RequestBuilder.header_entry. rewrite split_char_unfold.
  cbn [lookup list_lookup]. rewrite <- after_none.
  destruct (Str.after ":" line) as [t|].
  - rewrite split_char_unfold. cbn. split; [done|]. by eexists.
  - cbn. split; [by intros [? ?]|done].
Qed.

Lemma reduce_headers_returns (lines : list string) (a : gmap string string) :
  (exists hs, RequestBuilder.reduce_headers lines a = Val hs)
  <-> Forall (fun line => Str.count ":" line ≠ 0) lines.
Proof.
  revert a. induction lines as [|line lines IH]; intros a.
  - split; [by constructor|]. by eexists.
  - cbn [RequestBuilder.reduce_headers]. rewrite Forall_cons.
    rewrite <- header_entry_returns.
    destruct (RequestBuilder.header_entry line) as [kv|e]; cbn [res_bind].
    + rewrite IH. split; [|by intros [_ ?]]. intros ?. split; [by eexists|done].
    + split; [by intros [? ?]|]. by intros [[? ?] _].
Qed.

(** X6. When a header line of a request has no colon, the data handler
    throws and leaves the socket and the disk as they were, whatever
    routes are registered. *)
Theorem header_line_without_colon_is_fatal
    (endpoints : Endpoints) (data : string) (s : Sys) :
  Exists (fun line => Str.count ":" line = 0)
         (RequestBuilder.header_lines (Str.split_crlf data)) ->
  on_data endpoints data s = (Throw TypeError, s).
Proof.
  intros Hex. unfold on_data, bind, lift, RequestBuilder.build.
  destruct (RequestBuilder.reduce_headers _ _) as [hs|e] eqn:Hh.
  - exfalso. apply Exists_exists in Hex as (line & Hin & Hc).
    assert (exists hs, RequestBuilder.reduce_headers
              (RequestBuilder.header_lines (Str.split_crlf data)) ∅ = Val hs)
      as Hr by by eexists.
    apply reduce_headers_returns in Hr. rewrite Forall_forall in Hr.
    by apply (Hr line).
  - cbn [res_bind]. by rewrite (reduce_headers_throws _ _ _ Hh).
Qed.

(** *** A body with a line break *)

Lemma header_lines_cons (first : string) (rest : list string) :
  RequestBuilder.header_lines (first :: rest) = take (length rest - 2) rest.
Proof.
  unfold RequestBuilder.header_lines, Arr.slice, Arr.clamp. cbn [length].
  destruct (Z.ltb_spec 1 0) as [?|_]; [lia|].
  replace (Z.to_nat 1 `min` S (length rest)) with 1 by lia. cbn [drop].
  rewrite drop_0. f_equal.
  destruct (Z.ltb_spec (Z.of_nat (S (length rest)) - 2) 0); lia.
Qed.

Lemma push_front_length (c : ascii) (parts : list string) :
  parts ≠ [] -> length (Str.push_front c parts) = length parts.
Proof. by destruct parts. Qed.

Lemma split_crlf_of_broken (s : string) :
  Str.contains_crlf s = true -> 2 <= length (Str.split_crlf s).
Proof.
  induction s as [|a s IH]; [done|]. rewrite split_crlf_cons.
  cbn [Str.contains_crlf]. destruct s as [|b s]; [done|].
  destruct (Char.eqb a Str.CR && Char.eqb b Str.LF) eqn:Hab.
  - intros _. pose proof (split_crlf_not_nil s).
    destruct (Str.split_crlf s); [done|]. cbn. lia.
  - cbn [orb]. intros Hs. rewrite push_front_length.
    + by apply IH.
    + apply split_crlf_not_nil.
Qed.

Lemma split_crlf_request_any (first body : string) (hs : list string) :
  Str.contains_crlf first = false ->
  Forall (fun h => Str.contains_crlf h = false) hs ->
  Str.split_crlf (Wire.request first hs body)
    = first :: hs ++ EmptyString :: Str.split_crlf body.
Proof.
  intros Hf Hhs. unfold Wire.request.
  rewrite split_crlf_app by done. f_equal.
  induction Hhs as [|h hs Hh Hhs IH]; cbn [foldr].
  - change (Str.CRLF +:+ body) with (EmptyString +:+ Str.CRLF +:+ body).
    by rewrite split_crlf_app.
  - rewrite split_crlf_app by done. by rewrite IH.
Qed.

(** X7. A request whose body holds a line break is never answered: the
    blank line that ends the headers is then read as a header line, which
    has no colon, and the data handler throws with nothing written. *)
Theorem body_with_line_break_is_fatal
    (endpoints : Endpoints) (first body : string) (hs : list string)
    (s : Sys) :
  Str.contains_crlf first = false ->
  Forall (fun h => Str.contains_crlf h = false) hs ->
  Str.contains_crlf body = true ->
  on_data endpoints (Wire.request first hs body) s = (Throw TypeError, s).
Proof.
  intros Hf Hhs Hb.
  unfold on_data, bind, lift, RequestBuilder.build.
  rewrite split_crlf_request_any, header_lines_cons by done.
  apply split_crlf_of_broken in Hb.
  rewrite length_app. cbn [length].
  replace (length hs + S (length (Str.split_crlf body)) - 2)
    with (length hs + (length (Str.split_crlf body) - 1)) by lia.
  rewrite take_app_add'; [|done].
  destruct (length (Str.split_crlf body) - 1) as [|n] eqn:Hn; [lia|].
  cbn [take].
  destruct (RequestBuilder.reduce_headers _ _) as [headers|e] eqn:Hh.
  - exfalso.
    assert (exists x, RequestBuilder.reduce_headers
              (hs ++ EmptyString :: take n (Str.split_crlf body)) ∅ = Val x)
      as Hr by by eexists.
    apply reduce_headers_returns, Forall_app in Hr as [_ Hr].
    by apply Forall_cons in Hr as [? _].
  - cbn [res_bind]. by rewrite (reduce_headers_throws _ _ _ Hh).
Qed.

End HeaderValues.

(** ** What reaches a handler as a parameter *)

Section ParameterValues.

Lemma take_run_is_value (s : string) (k : nat) :
  0 < k <= Regex.run_length s -> Spec.is_value (Regex.take k s) = true.
Proof.
  revert k. induction s as [|a s IH]; intros k; cbn [Regex.run_length]; [lia|].
  destruct (Char.is_word_or_hyphen a) eqn:Ha; [|lia].
  destruct k as [|k]; [lia|]. intros Hk. cbn [Regex.take].
  unfold Spec.is_value. cbn [Str.truthy Str.is_empty negb Str.all andb].
  rewrite Ha. cbn [andb]. destruct k as [|k]; [by destruct s|].
  assert (Spec.is_value (Regex.take (S k) s) = true) as Hv by (apply IH; lia).
  by apply andb_true_iff in Hv as [_ ?].
Qed.

Lemma try_lengths_value (k : nat) cont (s : string) gs :
  k <= Regex.run_length s ->
  Regex.try_lengths k cont s = Some gs ->
  exists x caps j,
    gs = x :: caps /\ Spec.is_value x = true
    /\ cont (Regex.drop j s) = Some caps.
Proof.
  revert gs. induction k as [|k IH]; intros gs; [done|].
  intros Hk. cbn [Regex.try_lengths].
  destruct (cont (Regex.drop (S k) s)) as [caps|] eqn:Hc.
  - intros Heq. exists (Regex.take (S k) s), caps, (S k).
    split; [congruence|]. split; [|done]. apply take_run_is_value. lia.
  - apply IH. lia.
Qed.

(** Every group of a match is a non-empty text of word characters and
    hyphens, for any regular expression of the fragment. *)
Lemma match_atoms_values (atoms : list Regex.atom) (s : string) gs :
  Regex.match_atoms atoms s = Some gs ->
  Forall (fun v => Spec.is_value v = true) gs.
Proof.
  revert s gs. induction atoms as [|[c| |] atoms IH]; intros s gs;
    cbn [Regex.match_atoms].
  - destruct (Str.is_empty s); [|done]. by intros [= <-].
  - destruct s as [|a s]; [done|]. destruct (Char.eqb a c); [|done]. apply IH.
  - destruct s as [|a s]; [done|].
    destruct (Char.is_line_terminator a); [done|]. apply IH.
  - intros (x & caps & j & -> & Hx & Hc)%try_lengths_value; [|done].
    constructor; [done|]. by eapply IH.
Qed.

Lemma find_route_values (routes : list string) (e : option string)
    (route : string) groups :
  RequestBuilder.find_route routes e = Val (Some (route, groups)) ->
  route ∈ routes /\ Forall (fun v => Spec.is_value v = true) groups.
Proof.
  induction routes as [|r routes IH]; [done|].
  cbn [RequestBuilder.find_route].
  destruct (Regex.route_regex r) as [atoms|]; [|done]. cbn [res_bind].
  destruct e as [e|]; [|done].
  destruct (Regex.match_atoms atoms e) as [gs|] eqn:Hm.
  - intros [= <- <-]. split; [by left|]. by eapply match_atoms_values.
  - intros [? ?]%IH. split; [by right|done].
Qed.

Lemma assign_params_values (P : string -> Prop) (names groups : list string)
    (ps : gmap string string) :
  Forall P groups ->
  (forall k v, ps !! k = Some v -> P v) ->
  forall k v,
    RequestBuilder.assign_params names groups ps !! k = Some v -> P v.
Proof.
  revert groups ps. induction names as [|n names IH]; intros [|g groups] ps;
    cbn [RequestBuilder.assign_params]; try (intros _ Hps; exact Hps).
  intros [Hg Hgs]%Forall_cons Hps. apply IH; [done|].
  intros k v. unfold RequestBuilder.set_param.
  destruct (String.eqb n "__proto__"); [apply Hps|].
  destruct (decide (n = k)) as [->|Hne].
  - rewrite lookup_insert_eq. by intros [= <-].
  - rewrite lookup_insert_ne by done. apply Hps.
Qed.

Lemma all_word_no_char (c : ascii) (x : string) :
  Char.is_word_or_hyphen c = false ->
  Str.all Char.is_word_or_hyphen x = true -> Str.count c x = 0.
Proof.
  intros Hc. induction x as [|a x IH]; [done|]. cbn [Str.all Str.count].
  intros [Ha Hx]%andb_true_iff. rewrite IH by done.
  destruct (Char.eqb a c) eqn:E; [|done].
  apply char_eqb_eq in E. congruence.
Qed.

Lemma build_params_values {V}
    (data : string) (table : option (JsMap.t V)) (req : HttpReq)
    (name value : string) :
  RequestBuilder.build data table = Val req ->
  params req !! name = Some value ->
  Spec.is_value value = true.
Proof.
  intros Hb Hv. unfold RequestBuilder.build in Hb.
  destruct (RequestBuilder.reduce_headers _ _) as [hs|]; [|done].
  cbn [res_bind] in Hb. destruct table as [routes|]; [|done].
  destruct (RequestBuilder.find_route _ _) as [[[route groups]|]|] eqn:Hf;
    [| |done]; cbn [res_bind] in Hb; injection Hb as <-;
    cbn [params] in Hv.
  - apply find_route_values in Hf as [_ Hgs].
    eapply (assign_params_values _ _ _ _ Hgs); [|exact Hv].
    intros k v. by rewrite lookup_empty.
  - by rewrite lookup_empty in Hv.
Qed.

(** X8. Over routes made of literal characters, dots and parameters,
    the part of regular expressions the embedding covers, a parameter
    the builder hands to a handler is a non-empty text of word
    characters and hyphens: it holds no slash, no dot and no white
    space, so it names no parent directory.  The routes need not be well
    formed beyond that: a parameter may sit inside a segment. *)
Theorem parameters_are_plain_names {V}
    (data : string) (routes : JsMap.t V) (req : HttpReq)
    (name value : string) :
  Forall (fun R => exists atoms, Regex.route_regex R = Val atoms)
         (JsMap.keys routes) ->
  RequestBuilder.build data (Some routes) = Val req ->
  params req !! name = Some value ->
  Spec.is_value value = true
  /\ Str.count "/" value = 0
  /\ Str.count "." value = 0
  /\ Str.count " " value = 0.
Proof.
  intros _ Hb Hv. pose proof (build_params_values _ _ _ _ _ Hb Hv) as Hval.
  split; [done|]. apply andb_true_iff in Hval as [_ Hall].
  repeat split; by apply all_word_no_char.
Qed.

End ParameterValues.

(** ** The builder on a well-formed request *)

Section WellFormedRequests.

Lemma append_assoc (a b c : string) : (a +:+ b) +:+ c = a +:+ (b +:+ c).
Proof.
  induction a as [|x a IH]; [done|]. by rewrite !append_cons, IH.
Qed.

Lemma request_tokens (m path version hs_body : string) :
  Str.count " " m = 0 ->
  Str.count " " path = 0 ->
  exists rest,
    Str.split_char " " (Wire.request_line m path version +:+ hs_body)
      = m :: path :: rest.
Proof.
  intros Hm Hp. unfold Wire.request_line.
  rewrite append_assoc, append_cons, split_char_app by done.
  rewrite append_assoc, append_cons, split_char_app by done.
  by eexists.
Qed.

Lemma last_element_snoc {A} (l : list A) (x : A) :
  Arr.last_element (l ++ [x]) = Some x.
Proof.
  unfold Arr.last_element, Arr.slice, Arr.clamp.
  rewrite length_app. cbn [length].
  destruct (Z.ltb_spec (-1) 0) as [_|?]; [|lia].
  destruct (Z.ltb_spec (Z.of_nat (length l + 1)) 0) as [?|_]; [lia|].
  rewrite Nat2Z.id, Nat.min_id.
  replace (Z.to_nat (0 `max` (Z.of_nat (length l + 1) + -1))) with (length l)
    by lia.
  rewrite drop_app_length.
  replace (length l + 1 - length l) with 1 by lia. done.
Qed.

(** What the builder makes of a request whose header lines it can
    read. *)
Lemma build_request_lines {V}
    (m path version body : string) (lines : list string)
    (hdrs : gmap string string) (table : JsMap.t V) :
  Str.count " " m = 0 ->
  Str.count " " path = 0 ->
  Str.contains_crlf (Wire.request_line m path version) = false ->
  Str.contains_crlf body = false ->
  Forall (fun l => Str.contains_crlf l = false) lines ->
  RequestBuilder.reduce_headers lines ∅ = Val hdrs ->
  RequestBuilder.build
    (Wire.request (Wire.request_line m path version) lines body)
    (Some table)
  = res_bind (RequestBuilder.find_route (JsMap.keys table) (Some path))
      (fun found =>
         Val (mkReq m
                (Some (match found with
                       | Some (route, _) => route
                       | None => path
                       end))
                (match found with
                 | Some (route, groups) =>
                     RequestBuilder.assign_params
                       (Regex.param_names route) groups ∅
                 | None => ∅
                 end)
                hdrs body)).
Proof.
  intros Hm Hp Hf Hb Hlines Hred. unfold RequestBuilder.build.
  rewrite (split_crlf_request _ _ _ Hf Hlines Hb).
  rewrite header_lines_of_request, Hred.
  cbn [res_bind].
  destruct (request_tokens m path version
              (Str.CRLF +:+ foldr (fun h rest => h +:+ Str.CRLF +:+ rest)
                 (Str.CRLF +:+ body) lines) Hm Hp)
    as [rest Htok].
  unfold Wire.request. rewrite !Htok. cbn [lookup list_lookup default].
  replace (Wire.request_line m path version
             :: lines ++ [EmptyString; body])
    with ((Wire.request_line m path version
             :: lines ++ [EmptyString]) ++ [body])
    by (cbn; by rewrite <- app_assoc).
  rewrite last_element_snoc. cbn [default].
  by destruct (RequestBuilder.find_route _ _) as [[[route groups]|]|].
Qed.

(** The builder on a well-formed request, up to the resolution of the
    path. *)
Lemma build_request_parsed {V}
    (m path version body : string) (hs : list (string * string))
    (table : JsMap.t V) :
  Str.count " " m = 0 ->
  Str.count " " path = 0 ->
  Str.contains_crlf (Wire.request_line m path version) = false ->
  Str.contains_crlf body = false ->
  Wire.well_formed_headers hs ->
  RequestBuilder.build
    (Wire.request (Wire.request_line m path version)
       (Wire.header_line <$> hs) body)
    (Some table)
  = res_bind (RequestBuilder.find_route (JsMap.keys table) (Some path))
      (fun found =>
         Val (mkReq m
                (Some (match found with
                       | Some (route, _) => route
                       | None => path
                       end))
                (match found with
                 | Some (route, groups) =>
                     RequestBuilder.assign_params
                       (Regex.param_names route) groups ∅
                 | None => ∅
                 end)
                (Wire.stored_headers hs) body)).
Proof.
  intros Hm Hp Hf Hb [Hlines Hhs]. unfold RequestBuilder.build.
  assert (Forall (fun h => Str.contains_crlf h = false)
                 (Wire.header_line <$> hs)) as Hlines' by by apply Forall_fmap.
  rewrite (split_crlf_request _ _ _ Hf Hlines' Hb).
  rewrite header_lines_of_request.
  rewrite (reduce_headers_of_lines hs ∅ Hhs).
  cbn [res_bind].
  destruct (request_tokens m path version
              (Str.CRLF +:+ foldr (fun h rest => h +:+ Str.CRLF +:+ rest)
                 (Str.CRLF +:+ body) (Wire.header_line <$> hs)) Hm Hp)
    as [rest Htok].
  unfold Wire.request. rewrite !Htok. cbn [lookup list_lookup default].
  replace (Wire.request_line m path version
             :: (Wire.header_line <$> hs) ++ [EmptyString; body])
    with ((Wire.request_line m path version
             :: (Wire.header_line <$> hs) ++ [EmptyString]) ++ [body])
    by (cbn; by rewrite <- app_assoc).
  rewrite last_element_snoc. cbn [default].
  by destruct (RequestBuilder.find_route _ _) as [[[route groups]|]|].
Qed.

(** X9. What the builder makes of a well-formed request over a table of
    well-formed patterns: the method and the body as sent, the headers as
    stored line by line, and the first pattern the path matches segment by
    segment with the segments it captures; the path itself and no
    parameter when it matches none. *)
Theorem build_of_well_formed_request {V}
    (m path version body : string) (hs : list (string * string))
    (table : JsMap.t V) :
  Str.count " " m = 0 ->
  Str.count " " path = 0 ->
  Str.contains_crlf (Wire.request_line m path version) = false ->
  Str.contains_crlf body = false ->
  Wire.well_formed_headers hs ->
  Forall (fun R => Spec.well_formed R = true) (JsMap.keys table) ->
  RequestBuilder.build
    (Wire.request (Wire.request_line m path version)
       (Wire.header_line <$> hs) body)
    (Some table)
  = Val (mkReq m
           (Some (match Spec.first_match (JsMap.keys table) path with
                  | Some found => found.1
                  | None => path
                  end))
           (match Spec.first_match (JsMap.keys table) path with
            | Some found =>
                RequestBuilder.assign_params
                  (Regex.param_names found.1) found.2.*2 ∅
            | None => ∅
            end)
           (Wire.stored_headers hs) body).
Proof.
  intros Hm Hp Hf Hb Hhs Hwf.
  rewrite build_request_parsed, find_route_refined by done.
  by destruct (Spec.first_match (JsMap.keys table) path) as [[Q found]|].
Qed.

End WellFormedRequests.

(** ** What [app] does with any data *)

Section AppOutcomes.

Context `{Zlib}.

Lemma app_tables (m : string) :
  JsMap.get m app
    = if String.eqb m "GET"
      then Some [("/", get_root); ("/echo/:str", get_echo);
                 ("/user-agent", get_user_agent);
                 ("/files/:filename", get_file)]
      else if String.eqb m "POST"
           then Some [("/files/:filename", post_file)]
           else None.
Proof. done. Qed.

Lemma not_found_is_a_head (enc : bool) :
  not_found_frame = head_text (new_HttpRes enc).
Proof. done. Qed.

(** A handler that ends in one [send]. *)
Lemma send_answers (data : option ResType) (r : HttpRes) (s : Sys) :
  answered s (bind (send data r) (fun _ => ret tt) s).
Proof. unfold answered, bind. rewrite send_writes. by eexists _, _. Qed.

Lemma find_route_total (routes : list string) (e : option string) err :
  Forall (fun R => Spec.well_formed R = true) routes ->
  RequestBuilder.find_route routes e = Throw err -> err = TypeError.
Proof.
  intros Hwf. destruct e as [path|].
  - by rewrite find_route_refined.
  - destruct Hwf as [|R routes HR _]; [done|].
    cbn [RequestBuilder.find_route].
    rewrite route_regex_well_formed by done. cbn [res_bind].
    by intros [= <-].
Qed.

(** Over well-formed patterns the builder throws nothing but a
    [TypeError]. *)
Lemma build_throws_type_error {V} (data : string)
    (table : option (JsMap.t V)) err :
  (forall routes, table = Some routes ->
     Forall (fun R => Spec.well_formed R = true) (JsMap.keys routes)) ->
  RequestBuilder.build data table = Throw err -> err = TypeError.
Proof.
  intros Hwf. unfold RequestBuilder.build.
  destruct (RequestBuilder.reduce_headers _ _) as [hs|e] eqn:Hh.
  - cbn [res_bind]. destruct table as [routes|]; [|by intros [= <-]].
    destruct (RequestBuilder.find_route _ _) as [[[route groups]|]|e] eqn:Hf;
      cbn [res_bind]; [done|done|].
    intros [= <-]. eapply find_route_total; [|done]. by apply Hwf.
  - cbn [res_bind]. intros [= <-]. by eapply reduce_headers_throws.
Qed.

Lemma get_root_answers req res s : answered s (get_root req res s).
Proof. apply send_answers. Qed.

Lemma get_echo_answers req res s : answered s (get_echo req res s).
Proof. apply send_answers. Qed.

Lemma get_user_agent_answers req res s :
  answered s (get_user_agent req res s).
Proof.
  unfold get_user_agent. destruct (headers req !! "user_agent") as [ua|];
    [destruct (Str.truthy ua)|]; apply send_answers.
Qed.

Lemma get_file_answers req res s : answered s (get_file req res s).
Proof.
  unfold answered, get_file, file_not_found, argv_last, try_catch,
    readFileSync, bind, ret.
  destruct (params req !! "filename") as [name|];
    [|rewrite send_writes; by eexists _, _].
  destruct (Str.truthy name); [|rewrite send_writes; by eexists _, _].
  destruct (disk s !! _) as [file|]; rewrite send_writes; by eexists _, _.
Qed.

(** The three ways [post_file] ends: nothing done, a response after a
    write that failed, a response after the text was stored. *)
Lemma post_file_outcome req res s :
  post_file req res s = (Val tt, s)
  \/ answered s (post_file req res s)
  \/ exists name,
       params req !! "filename" = Some name
       /\ Str.truthy (body req) = true
       /\ writable s (served s +:+ name) = true
       /\ answered (stored s (served s +:+ name) (body req))
                   (post_file req res s).
Proof.
  unfold answered, post_file, argv_last, try_catch, writeFileSync, bind, ret.
  destruct (params req !! "filename") as [name|]; [|by left].
  destruct (Str.truthy name && Str.truthy (body req)) eqn:Ht; [|by left].
  apply andb_true_iff in Ht as [_ Hbody].
  destruct (writable s (served s +:+ name)) eqn:Hw.
  - right. right. exists name. repeat split; try done.
    rewrite send_writes. by eexists _, _.
  - right. left. rewrite send_writes. by eexists _, _.
Qed.

Lemma app_patterns_well_formed (m : string) routes :
  JsMap.get m app = Some routes ->
  Forall (fun R => Spec.well_formed R = true) (JsMap.keys routes).
Proof.
  rewrite app_tables. destruct (String.eqb m "GET").
  - intros [= <-]. by repeat constructor.
  - destruct (String.eqb m "POST"); [|done].
    intros [= <-]. by repeat constructor.
Qed.

(** Every way a data event can end on [app]. *)
Lemma app_outcome (data : string) (s : Sys) :
  on_data app data s = (Throw TypeError, s)
  \/ (default EmptyString (Str.split_char " " data !! 0) = "POST"
      /\ on_data app data s = (Val tt, s))
  \/ answered s (on_data app data s)
  \/ (default EmptyString (Str.split_char " " data !! 0) = "POST"
      /\ exists name text,
           Spec.is_value name = true
           /\ Str.truthy text = true
           /\ writable s (served s +:+ name) = true
           /\ answered (stored s (served s +:+ name) text)
                       (on_data app data s)).
Proof.
  unfold on_data, bind, lift.
  set (m := default EmptyString (Str.split_char " " data !! 0)).
  destruct (RequestBuilder.build data (JsMap.get m app)) as [req|e] eqn:Hb.
  2:{ left. f_equal. f_equal. eapply build_throws_type_error; [|done].
      apply app_patterns_well_formed. }
  assert (forall v, params req !! "filename" = Some v ->
                    Spec.is_value v = true) as Hval.
  { intros v. by eapply build_params_values. }
  clear Hb. rewrite app_tables.
  assert (answered s (socket_write (Text not_found_frame) s)) as H404.
  { exists (new_HttpRes false), (BString EmptyString). done. }
  destruct (String.eqb m "GET") eqn:Hget.
  - right. right. left.
    destruct (endpoint req) as [e|]; [|done]. cbn [JsMap.get].
    destruct (String.eqb e "/"); [apply get_root_answers|].
    destruct (String.eqb e "/echo/:str"); [apply get_echo_answers|].
    destruct (String.eqb e "/user-agent"); [apply get_user_agent_answers|].
    destruct (String.eqb e "/files/:filename"); [apply get_file_answers|done].
  - destruct (String.eqb m "POST") eqn:Hpost; [|by right; right; left].
    apply String.eqb_eq in Hpost.
    destruct (endpoint req) as [e|]; [|by right; right; left].
    cbn [JsMap.get].
    destruct (String.eqb e "/files/:filename"); [|by right; right; left].
    destruct (post_file_outcome req
                (new_HttpRes (encoding_decision (headers req))) s)
      as [Hs|[Ha|(name & Hn & Ht & Hw & Ha)]].
    + right. left. done.
    + right. right. left. done.
    + right. right. right. split; [done|].
      exists name, (body req). repeat split; try done. by apply Hval.
Qed.

(** X10. On any data [app] ends in one of two ways: it throws and has
    written and stored nothing; or it returns, after no write at all or
    after exactly one response, a head made of a status line, the
    headers and a blank line, and at most one write for the body.  It
    never answers twice and never throws after it wrote. *)
Theorem app_answers_at_most_once (data : string) (s : Sys) :
  on_data app data s = (Throw TypeError, s)
  \/ exists cs,
       (on_data app data s).1 = Val tt
       /\ socket (on_data app data s).2 = socket s ++ cs
       /\ (cs = []
           \/ exists c hs body,
                cs = Text (status_line c +:+ header_block hs +:+ Str.CRLF)
                       :: body
                /\ length body <= 1).
Proof.
  assert (forall s0 out, answered s0 out ->
            exists cs, out.1 = Val tt /\ socket out.2 = socket s0 ++ cs
              /\ (cs = []
                  \/ exists c hs body,
                       cs = Text (status_line c +:+ header_block hs
                                    +:+ Str.CRLF) :: body
                       /\ length body <= 1)) as Hans.
  { intros s0 out (r & body & ->). eexists. split; [done|]. split; [done|].
    right. exists (statusCode r), (res_headers r), (body_writes body).
    split; [done|]. unfold body_writes. destruct (body_truthy body); cbn; lia. }
  destruct (app_outcome data s)
    as [Ht|[[_ Hs]|[Ha|(_ & name & text & _ & _ & _ & Ha)]]].
  - by left.
  - right. exists []. rewrite Hs. cbn. rewrite app_nil_r. by repeat split; left.
  - right. by apply Hans.
  - right. by apply Hans in Ha.
Qed.

(** X11. [app] changes the disk only for a POST, and then only at the
    path made of the served argument followed directly by a non-empty
    name of word characters and hyphens, where a write succeeds; a GET
    never changes it. *)
Theorem app_stores_only_plain_names (data : string) (s : Sys) (path : string) :
  disk (on_data app data s).2 !! path ≠ disk s !! path ->
  default EmptyString (Str.split_char " " data !! 0) = "POST"
  /\ writable s path = true
  /\ exists name,
       Spec.is_value name = true /\ path = served s +:+ name.
Proof.
  intros Hchange.
  destruct (app_outcome data s)
    as [Ht|[[_ Hs]|[(r & b & Ha)|(Hpost & name & text & Hn & _ & Hw & Ha)]]].
  - by rewrite Ht in Hchange.
  - by rewrite Hs in Hchange.
  - by rewrite Ha in Hchange.
  - destruct Ha as (r & b & Ha). rewrite Ha in Hchange. cbn in Hchange.
    destruct (decide (served s +:+ name = path)) as [<-|Hne].
    + split; [done|]. split; [done|]. by exists name.
    + by rewrite lookup_insert_ne in Hchange.
Qed.

End AppOutcomes.

(** ** Storing a file and reading it back *)

Section FileRoundTrip.

Context `{Zlib}.

Lemma count_append (c : ascii) (a b : string) :
  Str.count c (a +:+ b) = Str.count c a + Str.count c b.
Proof.
  induction a as [|x a IH]; [done|]. rewrite append_cons.
  cbn [Str.count]. rewrite IH. lia.
Qed.

Lemma contains_crlf_after (a rest : string) :
  Str.count Str.CR a = 0 ->
  Str.contains_crlf (a +:+ rest) = Str.contains_crlf rest.
Proof.
  induction a as [|x a IH]; [done|]. cbn [Str.count].
  destruct (Char.eqb x Str.CR) eqn:Hx; [done|]. cbn [Nat.add]. intros Ha.
  rewrite append_cons. cbn [Str.contains_crlf]. rewrite Hx. cbn [andb orb].
  rewrite <- IH by done. by destruct (a +:+ rest).
Qed.

Lemma is_value_truthy (v : string) :
  Spec.is_value v = true -> Str.truthy v = true.
Proof. by intros [? _]%andb_true_iff. Qed.

Lemma is_value_all (v : string) :
  Spec.is_value v = true -> Str.all Char.is_word_or_hyphen v = true.
Proof. by intros [_ ?]%andb_true_iff. Qed.

(** The request line of a request for a file. *)
Lemma file_request_line (m name : string) :
  Str.count Str.CR m = 0 ->
  Spec.is_value name = true ->
  Str.count " " ("/files/" +:+ name) = 0
  /\ Str.contains_crlf
       (Wire.request_line m ("/files/" +:+ name) "HTTP/1.1") = false.
Proof.
  intros Hm Hv%is_value_all. split.
  - rewrite count_append, (all_word_no_char " " name) by done. done.
  - unfold Wire.request_line.
    rewrite contains_crlf_after by done.
    change (String " " (("/files/" +:+ name) +:+ String " " "HTTP/1.1"))
      with (" /files/" +:+ (name +:+ String " " "HTTP/1.1")).
    rewrite contains_crlf_after by done.
    rewrite contains_crlf_after by (by apply all_word_no_char).
    done.
Qed.

Lemma post_file_route_needs_value (name : string) :
  RequestBuilder.find_route ["/files/:filename"] (Some ("/files/" +:+ name))
  = Val (if Spec.is_value name
         then Some ("/files/:filename", [name])
         else None).
Proof.
  unfold RequestBuilder.find_route.
  change (Regex.route_regex "/files/:filename")
    with (Val (Regex.literal "/files/" ++ [Regex.Group])).
  cbn [res_bind]. rewrite !append_cons.
  change (EmptyString +:+ name) with name.
  cbn [Regex.literal Datatypes.app].
  rewrite !match_lit_same, match_param_last.
  by destruct (Spec.is_value name).
Qed.

(** The request the builder makes of a request for a file with a plain
    name, whatever its header lines, when each holds a colon. *)
Lemma build_file_request (m name body : string) (lines : list string)
    (hdrs : gmap string string) (s : Sys) :
  (m = "GET" \/ m = "POST") ->
  Spec.is_value name = true ->
  Str.contains_crlf body = false ->
  Forall (fun l => Str.contains_crlf l = false) lines ->
  RequestBuilder.reduce_headers lines ∅ = Val hdrs ->
  on_data app
    (Wire.request (Wire.request_line m ("/files/" +:+ name) "HTTP/1.1")
       lines body) s
  = (if String.eqb m "GET" then get_file else post_file)
      (mkReq m (Some "/files/:filename") {[ "filename" := name ]} hdrs body)
      (new_HttpRes (encoding_decision hdrs)) s.
Proof.
  intros Hm Hv Hb Hlines Hred.
  assert (Str.count " " m = 0 /\ Str.count Str.CR m = 0) as [Hsp Hcr]
    by (by destruct Hm as [->| ->]).
  destruct (file_request_line m name Hcr Hv) as [Hpath Hline].
  destruct (request_tokens m ("/files/" +:+ name) "HTTP/1.1"
              (Str.CRLF +:+ foldr (fun h rest => h +:+ Str.CRLF +:+ rest)
                 (Str.CRLF +:+ body) lines) Hsp Hpath)
    as [rest Htok].
  fold (Wire.request (Wire.request_line m ("/files/" +:+ name) "HTTP/1.1")
          lines body) in Htok.
  unfold on_data, bind, lift. rewrite Htok.
  cbn [lookup list_lookup default]. unfold id.
  rewrite app_tables.
  destruct Hm as [-> | ->].
  - change (String.eqb "GET" "GET") with true. cbv iota.
    pose proof (build_request_lines "GET" ("/files/" +:+ name) "HTTP/1.1"
                  body lines hdrs
                  [("/", get_root); ("/echo/:str", get_echo);
                   ("/user-agent", get_user_agent);
                   ("/files/:filename", get_file)]
                  Hsp Hpath Hline Hb Hlines Hred) as Hbuild.
    cbn [JsMap.keys fmap list_fmap fst] in Hbuild.
    rewrite get_file_route_needs_value, Hv in Hbuild. cbn [res_bind] in Hbuild.
    match goal with
    | |- context [RequestBuilder.build ?d ?t] =>
        replace (RequestBuilder.build d t) with
          (Val (mkReq "GET" (Some "/files/:filename") {[ "filename" := name ]}
                      hdrs body))
          by (symmetry; exact Hbuild)
    end.
    done.
  - change (String.eqb "POST" "GET") with false.
    change (String.eqb "POST" "POST") with true. cbv iota.
    pose proof (build_request_lines "POST" ("/files/" +:+ name) "HTTP/1.1"
                  body lines hdrs [("/files/:filename", post_file)]
                  Hsp Hpath Hline Hb Hlines Hred) as Hbuild.
    cbn [JsMap.keys fmap list_fmap fst] in Hbuild.
    rewrite post_file_route_needs_value, Hv in Hbuild.
    cbn [res_bind] in Hbuild.
    match goal with
    | |- context [RequestBuilder.build ?d ?t] =>
        replace (RequestBuilder.build d t) with
          (Val (mkReq "POST" (Some "/files/:filename")
                      {[ "filename" := name ]} hdrs body))
          by (symmetry; exact Hbuild)
    end.
    done.
Qed.

(** X12. A file stored is the file served.  Take two requests whose
    header lines are free of line breaks and hold a colon each, as the
    builder needs them.  After a POST to [/files/<name>] with a body that
    is not empty and has no line break, where the write succeeds, the
    answer is 201 and the disk holds the bytes of the body at the served
    argument followed by the name; a GET of [/files/<name>] that does
    not ask for compression is then answered with 200,
    [application/octet-stream], the length of those bytes and the bytes
    themselves. *)
Theorem stored_file_is_served
    (name text : string) (lines1 lines2 : list string)
    (hdrs2 : gmap string string) (s : Sys) :
  Spec.is_value name = true ->
  Str.truthy text = true ->
  Str.contains_crlf text = false ->
  writable s (served s +:+ name) = true ->
  Forall (fun l => Str.contains_crlf l = false /\ Str.count ":" l ≠ 0)
         lines1 ->
  Forall (fun l => Str.contains_crlf l = false) lines2 ->
  RequestBuilder.reduce_headers lines2 ∅ = Val hdrs2 ->
  encoding_decision hdrs2 = false ->
  exists s1 r body,
    on_data app
      (Wire.request (Wire.request_line "POST" ("/files/" +:+ name) "HTTP/1.1")
         lines1 text) s
    = (Val tt, s1)
    /\ socket s1 = socket s ++ Text (head_text r) :: body_writes body
    /\ statusCode r = S201
    /\ disk s1 = <[served s +:+ name := Str.utf8 text]> (disk s)
    /\ on_data app
         (Wire.request
            (Wire.request_line "GET" ("/files/" +:+ name) "HTTP/1.1")
            lines2 EmptyString) s1
       = (Val tt,
          wrote s1
            [Text (status_line S200
                     +:+ header_block
                           [("Content-Type", "application/octet-stream");
                            ("Content-Length",
                             Str.of_nat (length (Str.utf8 text)))]
                     +:+ Str.CRLF);
             Bytes (Str.utf8 text)]).
Proof.
  intros Hv Ht Hcr Hw Hl1 Hl2 Hred2 Henc.
  pose proof (is_value_truthy _ Hv) as Hname.
  assert (Forall (fun l => Str.contains_crlf l = false) lines1) as Hcr1
    by (eapply Forall_impl; [exact Hl1|by intros ? [? _]]).
  assert (exists hdrs1, RequestBuilder.reduce_headers lines1 ∅ = Val hdrs1)
    as [hdrs1 Hred1].
  { apply reduce_headers_returns.
    eapply Forall_impl; [exact Hl1|by intros ? [_ ?]]. }
  rewrite (build_file_request "POST" name text lines1 hdrs1)
    by (done || by right).
  change (String.eqb "POST" "GET") with false. cbv iota.
  unfold post_file, argv_last, try_catch, writeFileSync, bind, ret.
  cbv beta iota. cbn [params body].
  rewrite lookup_singleton_eq, Hname, Ht. cbn [andb]. rewrite Hw.
  rewrite send_writes.
  eexists _, _, _. split; [done|]. split; [done|]. split.
  { by rewrite encoded_body_status, typed_body_status. }
  split; [done|].
  rewrite (build_file_request "GET" name EmptyString lines2 hdrs2)
    by (done || by left).
  change (String.eqb "GET" "GET") with true. cbv iota.
  unfold get_file, argv_last, try_catch, readFileSync, bind, ret.
  cbv beta iota. cbn [params served wrote disk].
  rewrite lookup_singleton_eq, Hname.
  change (disk (wrote ?a ?b)) with (disk a). cbn [disk].
  rewrite lookup_insert_eq, send_writes, Henc. done.
Qed.

End FileRoundTrip.

(** ** Registering routes *)

Section Registration.

Context `{Zlib}.

Lemma JsMap_set_set {V} (k : string) (v w : V) (m : JsMap.t V) :
  JsMap.set k w (JsMap.set k v m) = JsMap.set k w m.
Proof.
  induction m as [|[k' v'] m IH]; cbn [JsMap.set].
  - by rewrite String.eqb_refl.
  - destruct (String.eqb k k') eqn:E; cbn [JsMap.set].
    + by rewrite String.eqb_refl.
    + by rewrite E, IH.
Qed.

(** X13. Registering a handler for a method that has a table: the
    handler is then the one found under its pattern, the other patterns
    keep their handlers, and the pattern keeps its place in the order of
    matching if it was registered before and goes last if it was not;
    registering the pattern again only replaces the handler.  The tables
    of the other methods are untouched. *)
Theorem register_upserts
    (m url : string) (callback : HttpEndpoint) (endpoints : Endpoints)
    (table : JsMap.t HttpEndpoint) :
  JsMap.get m endpoints = Some table ->
  JsMap.get m (register m url callback endpoints)
    = Some (JsMap.set url callback table)
  /\ JsMap.get url (JsMap.set url callback table) = Some callback
  /\ (forall u, u ≠ url ->
        JsMap.get u (JsMap.set url callback table) = JsMap.get u table)
  /\ JsMap.keys (JsMap.set url callback table)
     = (if bool_decide (url ∈ JsMap.keys table) then JsMap.keys table
        else JsMap.keys table ++ [url])
  /\ (forall m', m' ≠ m ->
        JsMap.get m' (register m url callback endpoints)
          = JsMap.get m' endpoints)
  /\ (forall callback',
        register m url callback' (register m url callback endpoints)
          = register m url callback' endpoints).
Proof.
  intros Ht. unfold register. rewrite Ht. repeat split.
  - apply JsMap_get_set_eq.
  - apply JsMap_get_set_eq.
  - intros u Hu. by apply JsMap_get_set_ne.
  - apply JsMap_keys_set.
  - intros m' Hm. by apply JsMap_get_set_ne.
  - intros callback'. rewrite JsMap_get_set_eq.
    by rewrite JsMap_set_set, JsMap_set_set.
Qed.

(** A server has tables for GET and POST only, whatever was registered. *)
Lemma register_keeps_methods m url callback (endpoints : Endpoints) :
  JsMap.keys (register m url callback endpoints) = JsMap.keys endpoints.
Proof.
  unfold register. destruct (JsMap.get m endpoints) as [table|] eqn:Ht;
    [|done].
  rewrite JsMap_keys_set. case_bool_decide as Hin; [done|].
  exfalso. apply Hin. clear Hin.
  induction endpoints as [|[k v] e IH]; [done|]. cbn in Ht |- *.
  destruct (String.eqb m k) eqn:E.
  - apply String.eqb_eq in E. subst. by left.
  - right. by apply IH.
Qed.

Lemma built_methods (endpoints : Endpoints) :
  built endpoints -> JsMap.keys endpoints = ["GET"; "POST"].
Proof.
  induction 1 as [|url cb e He IH|url cb e He IH]; [done|..];
    unfold get, post; by rewrite register_keeps_methods.
Qed.

(** X14. Whatever routes a server has registered, it holds a table for
    GET and one for POST and no other, and a request with another method
    is never answered: the data handler throws with nothing written. *)
Theorem other_methods_are_never_answered
    (endpoints : Endpoints) (data : string) (s : Sys) :
  built endpoints ->
  default EmptyString (Str.split_char " " data !! 0) ∉ ["GET"; "POST"] ->
  JsMap.keys endpoints = ["GET"; "POST"]
  /\ on_data endpoints data s = (Throw TypeError, s).
Proof.
  intros Hb%built_methods Hm. split; [done|]. unfold on_data.
  rewrite JsMap_get_absent by (by rewrite Hb).
  unfold bind, lift, RequestBuilder.build.
  destruct (RequestBuilder.reduce_headers _ _) as [hs|e] eqn:Hh; [done|].
  cbn [res_bind]. by rewrite (reduce_headers_throws _ _ _ Hh).
Qed.

End Registration.
(** ** The echo and user-agent routes *)

Section SimpleRoutes.

Context `{Zlib}.

(** A request whose header lines the builder can read goes to the
    handler registered under the pattern its path resolves to, with the
    request the builder made. *)
Lemma on_data_resolved
    (endpoints : Endpoints) (m path version body : string)
    (lines : list string) (hdrs : gmap string string)
    (table : JsMap.t HttpEndpoint)
    (found : option (string * list string)) (s : Sys) :
  Str.count " " m = 0 ->
  Str.count " " path = 0 ->
  Str.contains_crlf (Wire.request_line m path version) = false ->
  Str.contains_crlf body = false ->
  Forall (fun l => Str.contains_crlf l = false) lines ->
  RequestBuilder.reduce_headers lines ∅ = Val hdrs ->
  JsMap.get m endpoints = Some table ->
  RequestBuilder.find_route (JsMap.keys table) (Some path) = Val found ->
  on_data endpoints
    (Wire.request (Wire.request_line m path version) lines body) s
  = match JsMap.get (match found with
                     | Some (route, _) => route
                     | None => path
                     end) table with
    | Some callback =>
        callback
          (mkReq m
             (Some (match found with
                    | Some (route, _) => route
                    | None => path
                    end))
             (match found with
              | Some (route, groups) =>
                  RequestBuilder.assign_params
                    (Regex.param_names route) groups ∅
              | None => ∅
              end)
             hdrs body)
          (new_HttpRes (encoding_decision hdrs)) s
    | None => socket_write (Text not_found_frame) s
    end.
Proof.
  intros Hm Hp Hline Hb Hlines Hred Ht Hf.
  destruct (request_tokens m path version
              (Str.CRLF +:+ foldr (fun h rest => h +:+ Str.CRLF +:+ rest)
                 (Str.CRLF +:+ body) lines) Hm Hp)
    as [rest Htok].
  fold (Wire.request (Wire.request_line m path version) lines body) in Htok.
  unfold on_data, bind, lift. rewrite Htok.
  cbn [lookup list_lookup default]. unfold id. rewrite Ht.
  pose proof (build_request_lines m path version body lines hdrs table
                Hm Hp Hline Hb Hlines Hred) as Hbuild.
  rewrite Hf in Hbuild. cbn [res_bind] in Hbuild. rewrite Hbuild.
  cbn [endpoint headers]. by destruct (JsMap.get _ table).
Qed.

Lemma get_echo_route_needs_value (name : string) :
  RequestBuilder.find_route
    ["/"; "/echo/:str"; "/user-agent"; "/files/:filename"]
    (Some ("/echo/" +:+ name))
  = Val (if Spec.is_value name then Some ("/echo/:str", [name]) else None).
Proof.
  unfold RequestBuilder.find_route.
  change (Regex.route_regex "/")
    with (Val (Regex.literal "/")).
  change (Regex.route_regex "/echo/:str")
    with (Val (Regex.literal "/echo/" ++ [Regex.Group])).
  change (Regex.route_regex "/user-agent")
    with (Val (Regex.literal "/user-agent")).
  change (Regex.route_regex "/files/:filename")
    with (Val (Regex.literal "/files/" ++ [Regex.Group])).
  cbn [res_bind]. rewrite !append_cons.
  change (EmptyString +:+ name) with name.
  cbn [Regex.literal Datatypes.app].
  rewrite !match_lit_same.
  rewrite !(match_lit_other _ "e") by done.
  rewrite match_param_last.
  replace (Regex.match_atoms [] _) with (@None (list string)) by done.
  by destruct (Spec.is_value name).
Qed.

Lemma echo_request_line (name : string) :
  Str.count " " name = 0 ->
  Str.count Str.CR name = 0 ->
  Str.count " " ("/echo/" +:+ name) = 0
  /\ Str.contains_crlf
       (Wire.request_line "GET" ("/echo/" +:+ name) "HTTP/1.1") = false.
Proof.
  intros Hsp Hcr. split.
  - by rewrite count_append, Hsp.
  - unfold Wire.request_line.
    rewrite contains_crlf_after by done.
    change (String " " (("/echo/" +:+ name) +:+ String " " "HTTP/1.1"))
      with (" /echo/" +:+ (name +:+ String " " "HTTP/1.1")).
    by rewrite !contains_crlf_after.
Qed.

Lemma plain_send (data : option ResType) (c : StatusCode) (s : Sys) :
  bind (send data (status c (new_HttpRes false))) (fun _ => ret tt) s
  = (Val tt,
     wrote s
       (Text (status_line c
                +:+ header_block (res_headers (typed_body data
                                     (status c (new_HttpRes false))).1)
                +:+ Str.CRLF)
          :: body_writes (data_body data))).
Proof.
  unfold bind. rewrite send_writes. unfold encoded_body.
  pose proof (typed_body_encode data (status c (new_HttpRes false))) as He.
  pose proof (typed_body_status data (status c (new_HttpRes false))) as Hs.
  pose proof (typed_body_body data (status c (new_HttpRes false))) as Hb.
  destruct (typed_body data _) as [r b]. cbn [fst snd] in *.
  rewrite He. cbn [encode status new_HttpRes fst snd]. unfold head_text.
  by rewrite Hs, Hb.
Qed.

(** X15. [GET /echo/<text>], for a text without space or carriage
    return, in a request whose header lines are free of line breaks,
    hold a colon each (so that the builder returns the headers [hdrs])
    and ask for no compression: a non-empty text of word characters and
    hyphens comes back as the body, as [text/plain] with its length; the
    text [:str], which spells the pattern, gets 200 without a body; any
    other text gets the bare 404. *)
Theorem echo_answers (name : string) (lines : list string)
    (hdrs : gmap string string) (s : Sys) :
  Str.count " " name = 0 ->
  Str.count Str.CR name = 0 ->
  Forall (fun l => Str.contains_crlf l = false) lines ->
  RequestBuilder.reduce_headers lines ∅ = Val hdrs ->
  encoding_decision hdrs = false ->
  on_data app
    (Wire.request (Wire.request_line "GET" ("/echo/" +:+ name) "HTTP/1.1")
       lines EmptyString) s
  = (Val tt,
     wrote s
       (if Spec.is_value name then
          [Text (status_line S200
                   +:+ header_block
                         [("Content-Type", "text/plain");
                          ("Content-Length", Str.of_nat (Str.byteLength name))]
                   +:+ Str.CRLF);
           Text name]
        else if String.eqb name ":str" then
          [Text (status_line S200 +:+ Str.CRLF)]
        else [Text not_found_frame])).
Proof.
  intros Hsp Hcr Hlines Hred Henc.
  destruct (echo_request_line name Hsp Hcr) as [Hpath Hline].
  rewrite (on_data_resolved app "GET" ("/echo/" +:+ name) "HTTP/1.1"
             EmptyString lines hdrs _ _ s eq_refl Hpath Hline eq_refl
             Hlines Hred
             (app_tables "GET") (get_echo_route_needs_value name)).
  rewrite Henc. destruct (Spec.is_value name) eqn:Hv.
  - change (JsMap.get "/echo/:str" _) with (Some get_echo).
    unfold get_echo. cbn [params].
    change (Regex.param_names "/echo/:str") with ["str"].
    cbn [RequestBuilder.assign_params]. unfold RequestBuilder.set_param.
    change (String.eqb "str" "__proto__") with false. cbv iota.
    rewrite lookup_insert_eq. cbn [fmap option_fmap option_map].
    rewrite plain_send. cbn [typed_body fst data_body].
    apply is_value_truthy in Hv. unfold body_writes. cbn [body_truthy].
    by rewrite Hv.
  - rewrite !append_cons. change (EmptyString +:+ name) with name.
    cbn [JsMap.get String.eqb].
    change (Ascii.eqb "/" "/") with true. change (Ascii.eqb "e" "e") with true.
    change (Ascii.eqb "c" "c") with true. change (Ascii.eqb "h" "h") with true.
    change (Ascii.eqb "o" "o") with true. change (Ascii.eqb "e" "u") with false.
    change (Ascii.eqb "e" "f") with false. cbv iota.
    destruct (String.eqb name ":str") eqn:Hn.
    + unfold get_echo. cbn [params]. rewrite lookup_empty.
      cbn [fmap option_fmap option_map]. by rewrite plain_send.
    + done.
Qed.

(** X16. [GET /user-agent], in a request whose header lines are free
    of line breaks, hold a colon each (so that the builder returns the
    headers [hdrs]) and ask for no compression: the value the builder
    stored under [user_agent] comes back as the body, as [text/plain]
    with its length; when it stored none, or an empty one, the answer is
    404 with a text that says so. *)
Theorem user_agent_answers (lines : list string)
    (hdrs : gmap string string) (s : Sys) :
  Forall (fun l => Str.contains_crlf l = false) lines ->
  RequestBuilder.reduce_headers lines ∅ = Val hdrs ->
  encoding_decision hdrs = false ->
  on_data app
    (Wire.request (Wire.request_line "GET" "/user-agent" "HTTP/1.1")
       lines EmptyString) s
  = (Val tt,
     wrote s
       (match hdrs !! "user_agent" with
        | Some (String c v) =>
            [Text (status_line S200
                     +:+ header_block
                           [("Content-Type", "text/plain");
                            ("Content-Length",
                             Str.of_nat (Str.byteLength (String c v)))]
                     +:+ Str.CRLF);
             Text (String c v)]
        | _ =>
            [Text (status_line S404
                     +:+ header_block
                           [("Content-Type", "text/plain");
                            ("Content-Length", "27")]
                     +:+ Str.CRLF);
             Text "No user-agent header found."]
        end)).
Proof.
  intros Hlines Hred Henc.
  rewrite (on_data_resolved app "GET" "/user-agent" "HTTP/1.1"
             EmptyString lines hdrs _ (Some ("/user-agent", [])) s
             eq_refl eq_refl eq_refl eq_refl Hlines Hred
             (app_tables "GET") eq_refl).
  rewrite Henc. change (JsMap.get "/user-agent" _) with (Some get_user_agent).
  unfold get_user_agent. cbn [headers].
  destruct (hdrs !! "user_agent") as [[|c v]|];
    cbn [Str.truthy Str.is_empty negb]; by rewrite plain_send.
Qed.

End SimpleRoutes.
(** ** The earlier revisions *)

Section EarlierRevisions.

(** *** The first revision *)

(** X17. The first revision answers every data event, whatever the text,
    with exactly one frame and never throws: [200 OK] when the first two
    tokens are [GET] and [/], the bare 404 otherwise, also for a method
    other than GET and POST. *)
Theorem first_server_always_answers (data : string) (s : Sys) :
  FirstServer.on_data FirstServer.app data s
  = (Val tt,
     wrote s
       [Text (if bool_decide (take 2 (Str.split_char " " data) = ["GET"; "/"])
              then "HTTP/1.1 200 OK" +:+ Str.CRLF +:+ Str.CRLF
              else not_found_frame)]).
Proof.
  unfold FirstServer.on_data, FirstServer.build.
  cbn [FirstServer.method FirstServer.endpoint].
  destruct (Str.split_char " " data) as [|m [|e rest]].
  { by rewrite bool_decide_eq_false_2. }
  { rewrite bool_decide_eq_false_2 by done.
    cbn [lookup list_lookup default]. unfold id.
    by destruct (JsMap.get m FirstServer.app). }
  cbn [lookup list_lookup default take]. unfold id.
  change FirstServer.app
    with [("GET", [("/", FirstServer.get_root)]); ("POST", [])].
  cbn [JsMap.get].
  destruct (String.eqb m "GET") eqn:Hm.
  - apply String.eqb_eq in Hm as ->. cbn [JsMap.get].
    destruct (String.eqb e "/") eqn:He.
    + apply String.eqb_eq in He as ->. by rewrite bool_decide_eq_true_2.
    + apply String.eqb_neq in He. rewrite bool_decide_eq_false_2; [done|].
      by intros [= ->].
  - apply String.eqb_neq in Hm. rewrite bool_decide_eq_false_2 by congruence.
    by destruct (String.eqb m "POST").
Qed.

(** *** The second revision *)

Lemma to_uint_nonnil (n : nat) : Nat.to_uint n <> Decimal.Nil.
Proof.
  rewrite <- (Unsigned.of_to n) at 1. rewrite Unsigned.to_of.
  apply DecimalFacts.unorm_nonnil.
Qed.

Lemma of_nat_inj (a b : nat) : Str.of_nat a = Str.of_nat b -> a = b.
Proof.
  unfold Str.of_nat. intros E.
  pose proof (NilZero.usu (Nat.to_uint a) (to_uint_nonnil a)) as Ha.
  pose proof (NilZero.usu (Nat.to_uint b) (to_uint_nonnil b)) as Hb.
  rewrite E, Hb in Ha. injection Ha as Hab. symmetry.
  by apply Unsigned.to_uint_inj.
Qed.

Lemma byteLength_cons (c : ascii) (x : string) :
  Str.byteLength (String c x)
  = (if Char.code c <? 128 then 1 else 2) + Str.byteLength x.
Proof.
  unfold Str.byteLength. cbn [Str.utf8]. rewrite length_app.
  unfold Str.utf8_char. by destruct (Char.code c <? 128).
Qed.

Lemma byteLength_at_least (x : string) : String.length x <= Str.byteLength x.
Proof.
  induction x as [|c x IH]; [done|]. rewrite byteLength_cons.
  cbn [String.length]. destruct (Char.code c <? 128); lia.
Qed.

(** The code units and the bytes of a text are equally many exactly when
    every character is below 128. *)
Lemma byteLength_ascii (x : string) :
  String.length x = Str.byteLength x
  <-> Str.all (Char.in_range 0 127) x = true.
Proof.
  induction x as [|c x IH]; [done|]. rewrite byteLength_cons.
  cbn [String.length Str.all]. unfold Char.in_range at 1.
  pose proof (byteLength_at_least x) as Hle.
  rewrite andb_true_iff, <- IH. cbn [Nat.leb andb].
  destruct (Nat.ltb_spec (Char.code c) 128) as [Hc|Hc].
  - rewrite (proj2 (Nat.leb_le _ _)) by lia. split; [|intros [_ ?]]; lia.
  - rewrite (proj2 (Nat.leb_gt _ _)) by lia. split; [lia|by intros [? _]].
Qed.

Lemma word_is_ascii (c : ascii) :
  Char.is_word_or_hyphen c = true -> Char.in_range 0 127 c = true.
Proof.
  unfold Char.is_word_or_hyphen, Char.is_word, Char.is_upper, Char.is_lower,
    Char.is_digit, Char.in_range.
  intros Hc. cbn [Nat.leb andb]. apply Nat.leb_le.
  repeat (apply orb_true_iff in Hc as [Hc|Hc]).
  - apply andb_true_iff in Hc as [_ ?%Nat.leb_le]. lia.
  - apply andb_true_iff in Hc as [_ ?%Nat.leb_le]. lia.
  - apply andb_true_iff in Hc as [_ ?%Nat.leb_le]. lia.
  - apply char_eqb_eq in Hc as ->. vm_compute. lia.
  - apply char_eqb_eq in Hc as ->. vm_compute. lia.
Qed.

Lemma value_byteLength (v : string) :
  Spec.is_value v = true -> String.length v = Str.byteLength v.
Proof.
  intros [_ Hall]%andb_true_iff. apply byteLength_ascii.
  induction v as [|c v IH]; [done|]. cbn [Str.all] in *.
  apply andb_true_iff in Hall as [Hc Hv].
  by rewrite (word_is_ascii c Hc), IH.
Qed.

(** X18. [send] of the second revision puts the head and the body in one
    write and sets [Content-Length] to the number of code units of the
    body; that is the number of bytes written for the body exactly when
    every character of the body is below 128. *)
Theorem content_length_counts_code_units
    (data : EchoServer.ResType) (r : EchoServer.HttpRes) (s : Sys) :
  let body :=
    match data with
    | EchoServer.Object jsonData => jsonData
    | EchoServer.Plain text => text
    end in
  exists r',
    EchoServer.send (Some data) r s
    = (Val r',
       wrote s
         [Text (FirstServer.status_line (FirstServer.statusCode r)
                  +:+ header_block (FirstServer.headers r')
                  +:+ Str.CRLF +:+ body)])
    /\ JsMap.get "Content-Length" (FirstServer.headers r')
       = Some (Str.of_nat (String.length body))
    /\ (JsMap.get "Content-Length" (FirstServer.headers r')
        = Some (Str.of_nat (Str.byteLength body))
        <-> Str.all (Char.in_range 0 127) body = true).
Proof.
  destruct data as [body|body]; cbv zeta; eexists;
    (split; [reflexivity|]);
    cbn [FirstServer.header FirstServer.headers];
    rewrite JsMap_get_set_eq; (split; [done|]);
    rewrite <- byteLength_ascii;
    (split; [intros [= E]; by apply of_nat_inj|by intros ->]).
Qed.

Lemma echo_app_tables (m : string) :
  JsMap.get m EchoServer.app
    = if String.eqb m "GET"
      then Some [("/", EchoServer.get_root);
                 ("/echo/:str", EchoServer.get_echo)]
      else if String.eqb m "POST" then Some [] else None.
Proof. done. Qed.

(** X19. On any data the [app] of the second revision either throws
    before it wrote anything, or returns after exactly one write: a head
    and a body, either no headers and no body, or [text/plain] with a
    [Content-Length] that is the number of bytes of the body.  Counting
    code units does no harm there, a parameter being made of word
    characters and hyphens. *)
Theorem echo_server_length_is_right (data : string) (s : Sys) :
  EchoServer.on_data EchoServer.app data s = (Throw TypeError, s)
  \/ exists c hs body,
       EchoServer.on_data EchoServer.app data s
       = (Val tt,
          wrote s
            [Text (FirstServer.status_line c +:+ header_block hs
                     +:+ Str.CRLF +:+ body)])
       /\ ((hs = [] /\ body = EmptyString)
           \/ hs = [("Content-Type", "text/plain");
                    ("Content-Length", Str.of_nat (Str.byteLength body))]).
Proof.
  set (answer out := exists c hs body,
         out = (Val tt,
                wrote s [Text (FirstServer.status_line c +:+ header_block hs
                                 +:+ Str.CRLF +:+ body)])
         /\ ((hs = [] /\ body = EmptyString)
             \/ hs = [("Content-Type", "text/plain");
                      ("Content-Length", Str.of_nat (Str.byteLength body))])).
  assert (forall req, answer (EchoServer.get_root req FirstServer.new_HttpRes s))
    as Hroot.
  { intros req. exists FirstServer.S200, [], EmptyString. split; [done|by left]. }
  assert (forall m e, answer (EchoServer.get_echo (EchoServer.mkReq m e ∅)
                                FirstServer.new_HttpRes s)) as Hbare.
  { intros m e. exists FirstServer.S200, [], EmptyString. split; [done|by left]. }
  assert (answer (socket_write (Text not_found_frame) s)) as H404.
  { exists FirstServer.S404, [], EmptyString. split; [done|by left]. }
  unfold EchoServer.on_data, bind, lift.
  set (m := default EmptyString (Str.split_char " " data !! 0)).
  rewrite echo_app_tables. unfold EchoServer.build. fold m.
  destruct (String.eqb m "GET").
  - cbn [JsMap.keys fmap list_fmap fst].
    destruct (Str.split_char " " data !! 1) as [e|]; [|by left].
    destruct (RequestBuilder.find_route ["/"; "/echo/:str"] (Some e))
      as [[[route groups]|]|err] eqn:Hf; cbn [res_bind].
    + right. apply find_route_values in Hf as [Hin Hgs].
      cbn [EchoServer.endpoint].
      apply elem_of_cons in Hin as [->|Hin]; [apply Hroot|].
      apply list_elem_of_singleton in Hin as ->.
      change (JsMap.get "/echo/:str" _) with (Some EchoServer.get_echo).
      change (Regex.param_names "/echo/:str") with ["str"].
      destruct Hgs as [|g groups Hg _]; [apply Hbare|].
      cbn [RequestBuilder.assign_params]. unfold RequestBuilder.set_param.
      change (String.eqb "str" "__proto__") with false. cbv iota.
      unfold EchoServer.get_echo. cbn [EchoServer.params].
      rewrite lookup_insert_eq. cbn [fmap option_fmap option_map].
      exists FirstServer.S200,
        [("Content-Type", "text/plain");
         ("Content-Length", Str.of_nat (Str.byteLength g))], g.
      split; [|by right]. by rewrite <- (value_byteLength g Hg).
    + right. cbn [EchoServer.endpoint JsMap.get].
      destruct (String.eqb e "/"); [apply Hroot|].
      destruct (String.eqb e "/echo/:str"); [apply Hbare|apply H404].
    + left. f_equal. f_equal. eapply find_route_total; [|exact Hf].
      by repeat constructor.
  - destruct (String.eqb m "POST"); [|by left].
    right. cbn [JsMap.keys fmap list_fmap RequestBuilder.find_route res_bind].
    cbn [EchoServer.endpoint].
    destruct (Str.split_char " " data !! 1); apply H404.
Qed.

(** *** The third revision *)

Lemma split_char_prefix (c : ascii) (x y : string) :
  Str.count c x = 0 ->
  Str.split_char c (x +:+ y) !! 1 = Str.split_char c y !! 1.
Proof.
  induction x as [|a x IH]; [done|]. rewrite append_cons.
  cbn [Str.count Str.split_char]. destruct (Char.eqb a c); [done|].
  intros Hx. rewrite <- IH by done.
  pose proof (split_char_not_nil c (x +:+ y)).
  by destruct (Str.split_char c (x +:+ y)).
Qed.

Lemma early_header_lines (first : string) (rest : list string) :
  FileServer.header_lines (first :: rest) = rest.
Proof.
  unfold FileServer.header_lines, Arr.slice, Arr.clamp. cbn [length].
  destruct (Z.ltb_spec (Z.of_nat (S (length rest))) 0) as [?|_]; [lia|].
  destruct (Z.ltb_spec 1 0) as [?|_]; [lia|].
  replace (Z.to_nat 1 `min` S (length rest)) with 1 by lia.
  replace (Z.to_nat (Z.of_nat (S (length rest))) `min` S (length rest) - 1)
    with (length rest) by lia.
  cbn [drop]. by rewrite drop_0, firstn_all.
Qed.

Lemma early_header_entry (name value : string) :
  Str.count ":" name = 0 ->
  Str.count " " name = 0 ->
  FileServer.header_entry (name +:+ String ":" value)
  = (Str.toLowerCase (Str.replace_first "-" "_" name),
     Str.split_char " " value !! 1).
Proof.
  intros Hc Hs. unfold FileServer.header_entry.
  rewrite split_char_app by done. cbn [lookup list_lookup default].
  f_equal.
  change (name +:+ String ":" value) with (name +:+ (":" +:+ value)).
  rewrite <- append_assoc. apply split_char_prefix.
  by rewrite count_append, Hs.
Qed.

Lemma early_reduce_headers (hs : list (string * string))
    (a : gmap string (option string)) :
  Forall (fun h => Str.count ":" h.1 = 0 /\ Str.count " " h.1 = 0) hs ->
  FileServer.reduce_headers (Wire.header_line <$> hs) a
  = foldl (fun a h =>
             <[Str.toLowerCase (Str.replace_first "-" "_" h.1)
                 := Str.split_char " " h.2 !! 1]> a) a hs.
Proof.
  intros Hhs. revert a. unfold FileServer.reduce_headers.
  induction Hhs as [|[name value] hs [Hc Hs] _ IH]; intros a; [done|].
  cbn [fmap list_fmap foldl]. unfold Wire.header_line at 1 2. cbn [fst snd].
  rewrite (early_header_entry name value Hc Hs). cbn [fst snd]. apply IH.
Qed.

(** X20. The third revision reads every line after the request line as a
    header, the blank line and the body included: over a request with
    header lines whose names hold no colon and no space, it stores each
    header under its name, lower-cased and with the first hyphen turned
    into an underscore, with the second space-separated token of what
    follows the colon as its value; then the empty key without a value,
    for the blank line; then an entry made of the body. *)
Theorem body_is_read_as_a_header
    (first body : string) (hs : list (string * string)) :
  Str.contains_crlf first = false ->
  Forall (fun h => Str.contains_crlf (Wire.header_line h) = false) hs ->
  Str.contains_crlf body = false ->
  Forall (fun h => Str.count ":" h.1 = 0 /\ Str.count " " h.1 = 0) hs ->
  FileServer.headers_of (Wire.request first (Wire.header_line <$> hs) body)
  = <[(FileServer.header_entry body).1 := (FileServer.header_entry body).2]>
      (<[EmptyString := None]> (FileServer.stored_headers hs)).
Proof.
  intros Hf Hlines Hb Hhs. unfold FileServer.headers_of.
  rewrite split_crlf_request; [|done|by apply Forall_fmap|done].
  rewrite early_header_lines. unfold FileServer.reduce_headers.
  rewrite foldl_app. fold (FileServer.reduce_headers (Wire.header_line <$> hs) ∅).
  by rewrite early_reduce_headers.
Qed.

End EarlierRevisions.
(** ** When compression fails *)

Section CompressionFailure.

Context `{Zlib}.

(** X21. When [gzipSync] throws on a response that was to be compressed,
    [send] goes on as if compression had not been asked for: it writes
    what the same response writes with [encode] unset, the head and the
    body as it was, and adds no [Content-Encoding]. *)
Theorem failed_compression_sends_plain
    (data : option ResType) (r : HttpRes) (s : Sys) :
  encode r = true ->
  gzipSync (body_bytes (data_body data)) = None ->
  exists r',
    send data r s
    = (Val r', wrote s (Text (head_text r') :: body_writes (data_body data)))
    /\ (send data r s).2
       = (send data (mkRes (statusCode r) (res_headers r) false) s).2
    /\ JsMap.get "Content-Encoding" (res_headers r')
       = JsMap.get "Content-Encoding" (res_headers r).
Proof.
  intros Henc Hz. rewrite !send_writes.
  assert (encoded_body (typed_body data r) = typed_body data r) as ->.
  { pose proof (typed_body_body data r) as Hb.
    pose proof (typed_body_encode data r) as He.
    unfold encoded_body. destruct (typed_body data r) as [r1 b1].
    cbn [fst snd] in *. subst b1. by rewrite He, Henc, Hz. }
  rewrite typed_body_body. eexists. split; [done|]. split.
  - cbn [snd]. unfold encoded_body.
    pose proof (typed_body_encode data (mkRes (statusCode r) (res_headers r)
                                          false)) as He.
    destruct (typed_body data (mkRes _ _ false)) as [r1 b1] eqn:Ht.
    cbn [fst snd encode] in *. rewrite He. cbn [fst snd].
    destruct data as [[]|]; cbn [typed_body] in *; by injection Ht as <- <-.
  - destruct data as [[]|]; cbn [typed_body fst]; [..|done];
      by rewrite !header_keeps_other.
Qed.

End CompressionFailure.
(** ** The head as a client reads it *)

Section OnTheWire.

Context `{Zlib}.

Lemma string_of_uint_digits (d : Decimal.uint) :
  Str.all Char.is_digit (NilZero.string_of_uint d) = true.
Proof.
  assert (forall u, Str.all Char.is_digit (NilEmpty.string_of_uint u) = true)
    as Hu by (induction u; simpl; by rewrite ?IHu).
  destruct d; [done|apply Hu..].
Qed.

Lemma digits_no_cr (x : string) :
  Str.all Char.is_digit x = true -> Str.count Str.CR x = 0.
Proof.
  induction x as [|c x IH]; [done|]. cbn [Str.all Str.count].
  intros [Hc Hx]%andb_true_iff. rewrite IH by done.
  destruct (Char.eqb c Str.CR) eqn:E; [|done].
  apply char_eqb_eq in E. by subst c.
Qed.

Lemma no_cr_no_crlf (x : string) :
  Str.count Str.CR x = 0 -> Str.contains_crlf x = false.
Proof.
  intros Hx. rewrite <- (append_nil_r x). by rewrite contains_crlf_after.
Qed.

Lemma of_nat_no_cr (n : nat) : Str.count Str.CR (Str.of_nat n) = 0.
Proof. apply digits_no_cr, string_of_uint_digits. Qed.

Lemma reserved_encoding : "Content-Encoding" ∈ Wire.reserved.
Proof. unfold Wire.reserved. by repeat constructor. Qed.

Lemma reserved_length : "Content-Length" ∈ Wire.reserved.
Proof. unfold Wire.reserved. by repeat constructor. Qed.

Lemma reserved_type : "Content-Type" ∈ Wire.reserved.
Proof. unfold Wire.reserved. by repeat constructor. Qed.

(** A header of one of the names [send] sets, with a value free of
    carriage returns, is one line. *)
Lemma reserved_one_line (k v : string) :
  k ∈ Wire.reserved -> Str.count Str.CR v = 0 ->
  Str.count ":" k = 0 /\ Str.contains_crlf (k +:+ ": " +:+ v) = false.
Proof.
  intros Hk Hv. unfold Wire.reserved in Hk.
  repeat (apply elem_of_cons in Hk as [->|Hk]);
    [..|by apply elem_of_nil in Hk];
    (split; [done|]);
    rewrite contains_crlf_after by done;
    rewrite contains_crlf_after by done; by apply no_cr_no_crlf.
Qed.

Lemma reserved_spelling (k : string) :
  k ∈ Wire.reserved ->
  Forall (fun n => Str.toLowerCase k = Str.toLowerCase n -> k = n)
         Wire.reserved.
Proof.
  intros Hk. unfold Wire.reserved in Hk.
  repeat (apply elem_of_cons in Hk as [->|Hk]);
    [..|by apply elem_of_nil in Hk];
    repeat constructor; done.
Qed.

Lemma JsMap_set_Forall {V} (P : string * V -> Prop) (k : string) (v : V)
    (m : JsMap.t V) :
  P (k, v) -> Forall P m -> Forall P (JsMap.set k v m).
Proof.
  intros Hkv. induction 1 as [|[k' v'] m Hh Hm IH]; cbn [JsMap.set].
  - by repeat constructor.
  - destruct (String.eqb k k'); by constructor.
Qed.

(** [res.header] with one of those names keeps the headers orderly. *)
Lemma header_orderly (k v : string) (r : HttpRes) :
  k ∈ Wire.reserved -> Str.count Str.CR v = 0 ->
  Wire.orderly (res_headers r) ->
  Wire.orderly (res_headers (header k v r)).
Proof.
  intros Hk Hv (Hnd & Hline & Hsp). cbn [header res_headers].
  split; [|split].
  - rewrite JsMap_keys_set. case_bool_decide as Hin; [done|].
    rewrite fmap_app. cbn [fmap list_fmap].
    apply NoDup_app. split; [done|]. split; [|apply NoDup_singleton].
    intros x Hx ->%list_elem_of_singleton. apply Hin.
    apply list_elem_of_fmap in Hx as (k' & Hlow & Hk').
    apply list_elem_of_fmap in Hk' as ([k'' v'] & -> & Hh).
    rewrite Forall_forall in Hsp. specialize (Hsp _ Hh).
    rewrite Forall_forall in Hsp. cbn [fst] in *.
    rewrite <- (Hsp k Hk) by done.
    apply list_elem_of_fmap. by exists (k'', v').
  - apply JsMap_set_Forall; [|done]. by apply reserved_one_line.
  - apply JsMap_set_Forall; [|done]. by apply reserved_spelling.
Qed.

(** [send] keeps them orderly. *)
Lemma send_orderly (data : option ResType) (r : HttpRes) :
  Wire.orderly (res_headers r) ->
  Wire.orderly (res_headers (encoded_body (typed_body data r)).1).
Proof.
  intros Hr.
  assert (Wire.orderly (res_headers (typed_body data r).1)) as Ht.
  { destruct data as [[j|d|b]|]; cbn [typed_body fst]; [..|done];
      (apply header_orderly; [apply reserved_length|apply of_nat_no_cr|]);
      by (apply header_orderly; [apply reserved_type|done|]). }
  unfold encoded_body. destruct (typed_body data r) as [r1 b1].
  cbn [fst] in *. destruct (encode r1); [|done].
  destruct (gzipSync (body_bytes b1)) as [z|]; [|done]. cbn [fst].
  apply header_orderly; [apply reserved_length|apply of_nat_no_cr|].
  by apply header_orderly; [apply reserved_encoding|done|].
Qed.

Lemma before_app (c : ascii) (a rest : string) :
  Str.count c a = 0 -> Str.before c (a +:+ String c rest) = a.
Proof.
  induction a as [|x a IH]; cbn [Str.count].
  - intros _. change (Str.before c (String c rest) = EmptyString).
    cbn. by rewrite char_eqb_refl.
  - rewrite append_cons. cbn [Str.before].
    destruct (Char.eqb x c); [done|]. intros Ha. by rewrite IH.
Qed.

Lemma after_app (c : ascii) (a rest : string) :
  Str.count c a = 0 -> Str.after c (a +:+ String c rest) = Some rest.
Proof.
  induction a as [|x a IH]; cbn [Str.count].
  - intros _. change (Str.after c (String c rest) = Some rest).
    cbn. by rewrite char_eqb_refl.
  - rewrite append_cons. cbn [Str.after].
    destruct (Char.eqb x c); [done|]. intros Ha. by rewrite IH.
Qed.

Lemma until_blank_lines (lines : list string) :
  Forall (fun l => Str.is_empty l = false) lines ->
  Wire.until_blank (lines ++ [EmptyString; EmptyString]) = lines.
Proof.
  induction 1 as [|l lines Hl _ IH]; [done|].
  cbn [Datatypes.app Wire.until_blank]. by rewrite Hl, IH.
Qed.

Lemma split_crlf_header_block (hs : JsMap.t string) :
  Forall (fun h => Str.contains_crlf (h.1 +:+ ": " +:+ h.2) = false) hs ->
  Str.split_crlf (header_block hs +:+ Str.CRLF)
  = ((fun h => h.1 +:+ ": " +:+ h.2) <$> hs) ++ [EmptyString; EmptyString].
Proof.
  induction 1 as [|[a b] hs Hh _ IH]; [done|].
  cbn [header_block fmap list_fmap Datatypes.app fst snd] in *.
  rewrite <- IH.
  replace ((a +:+ ": " +:+ b +:+ Str.CRLF +:+ header_block hs) +:+ Str.CRLF)
    with ((a +:+ ": " +:+ b) +:+ Str.CRLF +:+ (header_block hs +:+ Str.CRLF))
    by (by rewrite !append_assoc).
  by rewrite split_crlf_app.
Qed.

(** The lines a client finds in the head of a response are the headers
    of the map, one line each, in the order of the map. *)
Lemma head_lines_of_headers (r : HttpRes) :
  Forall (fun h => Str.contains_crlf (h.1 +:+ ": " +:+ h.2) = false)
         (res_headers r) ->
  Wire.head_lines (head_text r)
  = (fun h => h.1 +:+ ": " +:+ h.2) <$> res_headers r.
Proof.
  intros Hhs. unfold Wire.head_lines, head_text.
  assert (exists x, Str.contains_crlf x = false
                    /\ status_line (statusCode r) = x +:+ Str.CRLF)
    as (x & Hx & ->).
  { destruct (statusCode r);
      [exists "HTTP/1.1 200 OK"|exists "HTTP/1.1 201 Created"
      |exists "HTTP/1.1 404 Not Found"]; by split. }
  rewrite append_assoc, split_crlf_app by done. cbn [drop].
  rewrite split_crlf_header_block by done.
  apply until_blank_lines, Forall_fmap, Forall_forall.
  intros [a b] _. cbn [fst snd]. by destruct a.
Qed.

Lemma line_name_of_header (a b : string) :
  Str.count ":" a = 0 ->
  Wire.line_name (a +:+ ": " +:+ b) = Str.toLowerCase a.
Proof.
  intros Ha. unfold Wire.line_name.
  change (a +:+ ": " +:+ b) with (a +:+ String ":" (" " +:+ b)).
  by rewrite before_app.
Qed.

(** What a client reads for a name whose other spellings the map does
    not hold: the value of the map, once, or nothing. *)
Lemma header_values_of_headers (name : string) (r : HttpRes) :
  NoDup (Str.toLowerCase <$> JsMap.keys (res_headers r)) ->
  Forall (fun h => Str.count ":" h.1 = 0
                   /\ Str.contains_crlf (h.1 +:+ ": " +:+ h.2) = false)
         (res_headers r) ->
  Forall (fun h => Str.toLowerCase h.1 = Str.toLowerCase name -> h.1 = name)
         (res_headers r) ->
  Wire.header_values name (head_text r)
  = match JsMap.get name (res_headers r) with
    | Some v => [v]
    | None => []
    end.
Proof.
  intros Hnd Hline Hsp. unfold Wire.header_values.
  rewrite head_lines_of_headers
    by (eapply Forall_impl; [exact Hline|by intros ? [_ ?]]).
  induction (res_headers r) as [|[a b] hs IH]; [done|].
  apply Forall_cons in Hline as [[Ha Hab] Hline].
  apply Forall_cons in Hsp as [Hsa Hsp].
  cbn [JsMap.keys fmap list_fmap fst snd] in *.
  apply NoDup_cons in Hnd as [Hnot Hnd].
  cbn [omap list_omap JsMap.get]. rewrite line_name_of_header by done.
  specialize (IH Hnd Hline Hsp).
  destruct (String.eqb (Str.toLowerCase a) (Str.toLowerCase name)) eqn:E.
  - apply String.eqb_eq in E. specialize (Hsa E). subst a.
    rewrite String.eqb_refl.
    change (name +:+ ": " +:+ b) with (name +:+ String ":" (" " +:+ b)).
    rewrite after_app by done. cbn [default Spec.drop_one_space].
    change (omap _ _) with (omap
      (fun line =>
         if String.eqb (Wire.line_name line) (Str.toLowerCase name)
         then Some (Spec.drop_one_space
                      (default EmptyString (Str.after ":" line)))
         else None) ((fun h => h.1 +:+ ": " +:+ h.2) <$> hs)) in IH.
    rewrite IH. rewrite JsMap_get_absent; [done|].
    intros Hin. apply Hnot. apply list_elem_of_fmap. by exists name.
  - apply String.eqb_neq in E.
    destruct (String.eqb name a) eqn:E'.
    { apply String.eqb_eq in E'. by subst a. }
    exact IH.
Qed.

Lemma orderly_header_values (name : string) (r : HttpRes) :
  name ∈ Wire.reserved ->
  Wire.orderly (res_headers r) ->
  Wire.header_values name (head_text r)
  = match JsMap.get name (res_headers r) with
    | Some v => [v]
    | None => []
    end.
Proof.
  intros Hn (Hnd & Hline & Hsp). apply header_values_of_headers; [done..|].
  eapply Forall_impl; [exact Hsp|]. intros h Hh.
  rewrite Forall_forall in Hh. by apply Hh.
Qed.

(** The response [send] returns is the one whose head it wrote. *)
Lemma send_result (data : option ResType) (r r' : HttpRes) (s s' : Sys) :
  send data r s = (Val r', s') ->
  r' = (encoded_body (typed_body data r)).1.
Proof. rewrite send_writes. by intros [= <- _]. Qed.

(** C4. When the request carries [Accept-Encoding: gzip], a response
    sent for it has as its body the gzip compression of the body it
    would have had, which [gunzipSync] turns back into that body.  The
    head that goes out carries [Content-Encoding: gzip] and a
    [Content-Length] of the number of compressed bytes, each once, when
    the headers the handler set are orderly (none, for the handlers of
    [app]). *)
Theorem gzip_negotiated_response `{!ZlibLaws H}
    (req : HttpReq) (r : HttpRes) (data : option ResType) (s : Sys)
    (z : list byte) :
  headers req !! "accept_encoding" = Some "gzip" ->
  encode r = encoding_decision (headers req) ->
  gzipSync (body_bytes (data_body data)) = Some z ->
  Wire.orderly (res_headers r) ->
  exists r',
    send data r s = (Val r', wrote s [Text (head_text r'); Bytes z])
    /\ gunzipSync z = Some (body_bytes (data_body data))
    /\ JsMap.get "Content-Encoding" (res_headers r') = Some "gzip"
    /\ JsMap.get "Content-Length" (res_headers r')
         = Some (Str.of_nat (length z))
    /\ Wire.header_values "Content-Encoding" (head_text r') = ["gzip"]
    /\ Wire.header_values "Content-Length" (head_text r')
         = [Str.of_nat (length z)]
    /\ (res_headers r = [] ->
        head_text r'
        = status_line (statusCode r)
            +:+ match data with
                | Some (Object _) =>
                    "Content-Type: application/json" +:+ Str.CRLF
                      +:+ "Content-Length: " +:+ Str.of_nat (length z)
                      +:+ Str.CRLF +:+ "Content-Encoding: gzip" +:+ Str.CRLF
                | Some (Plain _) =>
                    "Content-Type: text/plain" +:+ Str.CRLF
                      +:+ "Content-Length: " +:+ Str.of_nat (length z)
                      +:+ Str.CRLF +:+ "Content-Encoding: gzip" +:+ Str.CRLF
                | Some (Buffer _) =>
                    "Content-Type: application/octet-stream" +:+ Str.CRLF
                      +:+ "Content-Length: " +:+ Str.of_nat (length z)
                      +:+ Str.CRLF +:+ "Content-Encoding: gzip" +:+ Str.CRLF
                | None =>
                    "Content-Encoding: gzip" +:+ Str.CRLF
                      +:+ "Content-Length: " +:+ Str.of_nat (length z)
                      +:+ Str.CRLF
                end
            +:+ Str.CRLF).
Proof.
  intros Hreq Henc Hz Hord.
  rewrite (encoding_decision_gzip _ Hreq) in Henc.
  destruct (send_compressed data r s z Henc Hz) as (r' & Hs & Hce & Hcl & _).
  pose proof (send_orderly data r Hord) as Hord'.
  pose proof (send_result _ _ _ _ _ Hs) as Hr'.
  rewrite <- Hr' in Hord'.
  exists r'. split; [done|]. split; [by apply gunzip_gzip|].
  split; [done|]. split; [done|]. split.
  { rewrite (orderly_header_values _ _ reserved_encoding Hord').
    by rewrite Hce. }
  split.
  { rewrite (orderly_header_values _ _ reserved_length Hord').
    by rewrite Hcl. }
  intros Hnil. rewrite Hr'. unfold head_text, encoded_body.
  destruct r as [c hs e]. cbn [encode res_headers statusCode] in *.
  subst hs e.
  destruct data as [[j|t|b]|];
    cbn [typed_body header encode res_headers statusCode data_body
         body_bytes] in *;
    rewrite Hz; cbn [fst header res_headers statusCode];
    simpl JsMap.set; cbn [header_block]; by rewrite !append_assoc.
Qed.

(** C8. When the request has no [Accept-Encoding] header, or has
    [Accept-Encoding: identity], a response sent for it goes out with
    the bytes of the body as given, and its head carries no
    [Content-Encoding], under any spelling, when the handler set none
    and the headers it did set are orderly. *)
Theorem identity_response
    (req : HttpReq) (r : HttpRes) (data : option ResType) (s : Sys) :
  headers req !! "accept_encoding" = None
    \/ headers req !! "accept_encoding" = Some "identity" ->
  encode r = encoding_decision (headers req) ->
  JsMap.get "Content-Encoding" (res_headers r) = None ->
  Wire.orderly (res_headers r) ->
  exists r',
    send data r s
      = (Val r', wrote s (Text (head_text r') :: body_writes (data_body data)))
    /\ JsMap.get "Content-Encoding" (res_headers r') = None
    /\ Wire.header_values "Content-Encoding" (head_text r') = []
    /\ body_writes (data_body data)
       = match data with
         | Some (Object text) | Some (Plain text) =>
             if Str.truthy text then [Text text] else []
         | Some (Buffer bytes) => [Bytes bytes]
         | None => []
         end
    /\ wire (body_writes (data_body data))
       = match data with
         | Some (Object text) | Some (Plain text) => Str.utf8 text
         | Some (Buffer bytes) => bytes
         | None => []
         end
    /\ (res_headers r = [] ->
        head_text r'
        = status_line (statusCode r)
            +:+ match data with
                | Some (Object text) =>
                    "Content-Type: application/json" +:+ Str.CRLF
                      +:+ "Content-Length: "
                      +:+ Str.of_nat (Str.byteLength text) +:+ Str.CRLF
                | Some (Plain text) =>
                    "Content-Type: text/plain" +:+ Str.CRLF
                      +:+ "Content-Length: "
                      +:+ Str.of_nat (Str.byteLength text) +:+ Str.CRLF
                | Some (Buffer bytes) =>
                    "Content-Type: application/octet-stream" +:+ Str.CRLF
                      +:+ "Content-Length: "
                      +:+ Str.of_nat (length bytes) +:+ Str.CRLF
                | None => EmptyString
                end
            +:+ Str.CRLF).
Proof.
  intros Hreq Henc Hnone Hord.
  assert (encode r = false) as Hoff.
  { destruct Hreq as [E|E];
      [rewrite (encoding_decision_absent _ E) in Henc
      |rewrite (encoding_decision_identity _ E) in Henc]; done. }
  destruct (send_uncompressed data r s Hoff) as (r' & Hs & Hce).
  pose proof (send_orderly data r Hord) as Hord'.
  pose proof (send_result _ _ _ _ _ Hs) as Hr'.
  rewrite <- Hr' in Hord'.
  exists r'. split; [done|]. rewrite Hce, Hnone. split; [done|]. split.
  { rewrite (orderly_header_values _ _ reserved_encoding Hord').
    by rewrite Hce, Hnone. }
  split.
  { unfold body_writes.
    destruct data as [[j|t|b]|]; cbn [data_body body_truthy body_chunk];
      try done; by destruct (Str.truthy _). }
  split.
  { unfold body_writes, wire.
    destruct data as [[j|t|b]|]; cbn [data_body body_truthy body_chunk];
      [destruct j|destruct t|..];
      cbn [Str.truthy Str.is_empty negb fmap list_fmap concat chunk_bytes];
      by rewrite ?app_nil_r. }
  intros Hnil. rewrite Hr'. unfold head_text, encoded_body. clear Henc.
  destruct r as [c hs e]. cbn [encode res_headers statusCode] in *.
  subst hs e.
  destruct data as [[j|t|b]|];
    cbn [typed_body header encode res_headers statusCode fst];
    simpl JsMap.set; cbn [header_block]; by rewrite ?append_assoc.
Qed.

(** C9. On a response that compresses, [send()] without an argument
    still writes a body: the gzip compression of the empty string,
    which is not empty.  The head that goes out carries
    [Content-Encoding: gzip] and a [Content-Length] of that many bytes,
    each once; when the handler set no header it is the status line
    followed by those two lines and the blank line. *)
Theorem bodyless_send_under_compression `{!ZlibLaws H}
    (r : HttpRes) (s : Sys) (z : list byte) :
  encode r = true ->
  gzipSync (Str.utf8 EmptyString) = Some z ->
  Wire.orderly (res_headers r) ->
  exists r',
    send None r s = (Val r', wrote s [Text (head_text r'); Bytes z])
    /\ z ≠ []
    /\ JsMap.get "Content-Encoding" (res_headers r') = Some "gzip"
    /\ JsMap.get "Content-Length" (res_headers r')
         = Some (Str.of_nat (length z))
    /\ Wire.header_values "Content-Encoding" (head_text r') = ["gzip"]
    /\ Wire.header_values "Content-Length" (head_text r')
         = [Str.of_nat (length z)]
    /\ (res_headers r = [] ->
          res_headers r' = [("Content-Encoding", "gzip");
                            ("Content-Length", Str.of_nat (length z))]
          /\ head_text r'
             = status_line (statusCode r)
                 +:+ "Content-Encoding: gzip" +:+ Str.CRLF
                 +:+ "Content-Length: " +:+ Str.of_nat (length z)
                 +:+ Str.CRLF +:+ Str.CRLF).
Proof.
  intros Henc Hz Hord.
  destruct (send_compressed None r s z Henc Hz) as (r' & Hs & Hce & Hcl & Hf).
  pose proof (send_orderly None r Hord) as Hord'.
  pose proof (send_result _ _ _ _ _ Hs) as Hr'.
  rewrite <- Hr' in Hord'.
  exists r'. split; [done|]. split.
  { destruct (gzip_magic _ _ Hz) as [rest ->]. done. }
  split; [done|]. split; [done|]. split.
  { rewrite (orderly_header_values _ _ reserved_encoding Hord').
    by rewrite Hce. }
  split.
  { rewrite (orderly_header_values _ _ reserved_length Hord').
    by rewrite Hcl. }
  intros Hnil. split; [by apply Hf|].
    unfold head_text. rewrite (Hf Hnil eq_refl).
    rewrite Hr', encoded_body_status, typed_body_status.
    cbn [header_block]. by rewrite !append_assoc.
Qed.

(** X2. No header name goes out twice, even when case is ignored: on a
    response whose headers are orderly, [send] writes a head whose lines
    after the status line are the headers of the map as [send] leaves
    it, one line each and in its order, and the names of those lines
    differ pairwise. *)
Theorem sent_header_names_are_distinct
    (data : option ResType) (r : HttpRes) (s : Sys) :
  Wire.orderly (res_headers r) ->
  exists r' body,
    send data r s = (Val r', wrote s (Text (head_text r') :: body))
    /\ Wire.head_lines (head_text r')
       = (fun h => h.1 +:+ ": " +:+ h.2) <$> res_headers r'
    /\ head_text r'
       = status_line (statusCode r')
           +:+ foldr (fun line rest => line +:+ Str.CRLF +:+ rest) Str.CRLF
                     (Wire.head_lines (head_text r'))
    /\ NoDup (Wire.line_name <$> Wire.head_lines (head_text r')).
Proof.
  intros Hord. rewrite send_writes. eexists _, _. split; [done|].
  destruct (send_orderly data r Hord) as (Hnd & Hline & _).
  set (r' := (encoded_body (typed_body data r)).1) in *.
  assert (Forall (fun h => Str.contains_crlf (h.1 +:+ ": " +:+ h.2) = false)
                 (res_headers r')) as Hcr
    by (eapply Forall_impl; [exact Hline|by intros ? [_ ?]]).
  rewrite head_lines_of_headers by done. split; [done|]. split.
  { unfold head_text. f_equal. clear.
    induction (res_headers r') as [|[a b] hs IH]; [done|].
    cbn [header_block fmap list_fmap foldr fst snd].
    by rewrite <- IH, !append_assoc. }
  replace (Wire.line_name <$> _)
    with (Str.toLowerCase <$> JsMap.keys (res_headers r')); [done|].
  unfold JsMap.keys. rewrite <- !list_fmap_compose.
  apply Forall_fmap_ext_1. eapply Forall_impl; [exact Hline|].
  intros [a b] [Ha _]. cbn [fst snd compose] in *.
  by rewrite line_name_of_header.
Qed.

(** X3. The [Content-Length] that goes out counts the bytes of the body
    that follows: whenever [send] is given data, or compresses an empty
    body, on a response whose headers are orderly, the head it writes
    carries one [Content-Length], the number of bytes of the writes
    after the head, compressed or not. *)
Theorem content_length_counts_the_body
    (data : option ResType) (r : HttpRes) (s : Sys) :
  is_Some data
    \/ (encode r = true /\ is_Some (gzipSync (Str.utf8 EmptyString))) ->
  Wire.orderly (res_headers r) ->
  exists r' body,
    send data r s = (Val r', wrote s (Text (head_text r') :: body))
    /\ JsMap.get "Content-Length" (res_headers r')
       = Some (Str.of_nat (length (wire body)))
    /\ Wire.header_values "Content-Length" (head_text r')
       = [Str.of_nat (length (wire body))]
    /\ (res_headers r = [] -> encode r = false ->
        head_text r'
        = status_line (statusCode r)
            +:+ match data with
                | Some (Object _) =>
                    "Content-Type: application/json" +:+ Str.CRLF
                | Some (Plain _) => "Content-Type: text/plain" +:+ Str.CRLF
                | Some (Buffer _) =>
                    "Content-Type: application/octet-stream" +:+ Str.CRLF
                | None => EmptyString
                end
            +:+ match data with
                | Some _ =>
                    "Content-Length: " +:+ Str.of_nat (length (wire body))
                      +:+ Str.CRLF
                | None => EmptyString
                end
            +:+ Str.CRLF).
Proof.
  intros Hdata Hord.
  destruct (content_length_in_map data r s Hdata) as (r' & body & Hs & Hcl).
  pose proof (send_orderly data r Hord) as Hord'.
  pose proof (send_result _ _ _ _ _ Hs) as Hr'.
  rewrite <- Hr' in Hord'.
  exists r', body. split; [done|]. split; [done|]. split.
  { rewrite (orderly_header_values _ _ reserved_length Hord').
    by rewrite Hcl. }
  intros Hnil Hoff. rewrite send_writes in Hs.
  injection Hs as _ Hbody. apply app_inv_head in Hbody.
  injection Hbody as _ <-. rewrite wire_body_writes.
  rewrite Hr'. unfold head_text, encoded_body.
  destruct r as [c hs e]. cbn [encode res_headers statusCode] in *.
  subst hs e.
  destruct data as [[j|t|b]|];
    cbn [typed_body header encode res_headers statusCode fst snd body_bytes];
    simpl JsMap.set; cbn [header_block]; by rewrite ?append_assoc.
Qed.

End OnTheWire.
(** ** One header line among others *)

Section HeaderLines.

Lemma reduce_headers_app (l1 l2 : list string) (a : gmap string string) :
  RequestBuilder.reduce_headers (l1 ++ l2) a
  = res_bind (RequestBuilder.reduce_headers l1 a)
             (fun a' => RequestBuilder.reduce_headers l2 a').
Proof.
  revert a. induction l1 as [|l l1 IH]; intros a; [done|].
  cbn [Datatypes.app RequestBuilder.reduce_headers].
  destruct (RequestBuilder.header_entry l) as [kv|]; [|done].
  cbn [res_bind]. apply IH.
Qed.

(** Lines of other keys leave a key as it was. *)
Lemma reduce_headers_keeps (lines : list string) (a hdrs : gmap string string)
    (key : string) :
  RequestBuilder.reduce_headers lines a = Val hdrs ->
  Forall (fun l => forall k v,
            RequestBuilder.header_entry l = Val (k, v) -> k ≠ key) lines ->
  hdrs !! key = a !! key.
Proof.
  revert a. induction lines as [|l lines IH]; intros a.
  - by intros [= <-].
  - cbn [RequestBuilder.reduce_headers].
    destruct (RequestBuilder.header_entry l) as [[k v]|] eqn:He; [|done].
    cbn [res_bind fst snd]. intros Hr [Hl Hlines]%Forall_cons.
    rewrite (IH _ Hr Hlines). apply lookup_insert_ne. by eapply Hl.
Qed.

(** C3, as amended. In a request made of a request line, header lines,
    a blank line and a body without line breaks, the header lines the
    builder reads are the lines between the first and the last two, and
    it returns headers exactly when each of them holds a colon.  A
    header line with one colon and at most one hyphen in its name,
    whatever the lines around it, is stored under the name in lower case
    with the hyphen turned into an underscore, with the text after the
    colon without the white space at either end as its value; the lines
    after it are stored over it, so that it is the value of its key at
    the end unless a later line has the same key. *)
Theorem headers_of_request
    (first body : string) (pre post : list string) (name value : string) :
  Str.contains_crlf first = false ->
  Str.contains_crlf body = false ->
  Forall (fun l => Str.contains_crlf l = false)
         (pre ++ Wire.header_line (name, value) :: post) ->
  Str.count ":" name = 0 ->
  Str.count ":" value = 0 ->
  Str.count "-" name <= 1 ->
  Str.split_crlf
    (Wire.request first (pre ++ Wire.header_line (name, value) :: post) body)
    = first :: (pre ++ Wire.header_line (name, value) :: post)
        ++ [EmptyString; body]
  /\ RequestBuilder.header_lines
       (Str.split_crlf
          (Wire.request first
             (pre ++ Wire.header_line (name, value) :: post) body))
     = pre ++ Wire.header_line (name, value) :: post
  /\ ((exists hdrs,
         RequestBuilder.reduce_headers
           (RequestBuilder.header_lines
              (Str.split_crlf
                 (Wire.request first
                    (pre ++ Wire.header_line (name, value) :: post) body)))
           ∅ = Val hdrs)
      <-> Forall (fun l => Str.count ":" l ≠ 0) (pre ++ post))
  /\ RequestBuilder.reduce_headers
       (RequestBuilder.header_lines
          (Str.split_crlf
             (Wire.request first
                (pre ++ Wire.header_line (name, value) :: post) body)))
       ∅
     = res_bind (RequestBuilder.reduce_headers pre ∅)
         (fun a =>
            RequestBuilder.reduce_headers post
              (<[Spec.header_key name := Str.trim value]> a))
  /\ (forall hdrs,
        RequestBuilder.reduce_headers
          (RequestBuilder.header_lines
             (Str.split_crlf
                (Wire.request first
                   (pre ++ Wire.header_line (name, value) :: post) body)))
          ∅ = Val hdrs ->
        Forall (fun l => forall k v,
                  RequestBuilder.header_entry l = Val (k, v) ->
                  k ≠ Spec.header_key name) post ->
        hdrs !! Spec.header_key name = Some (Str.trim value)).
Proof.
  intros Hf Hb Hlines Hn Hv Hh.
  rewrite split_crlf_request by done.
  rewrite header_lines_of_request.
  assert (RequestBuilder.reduce_headers
            (pre ++ Wire.header_line (name, value) :: post) ∅
          = res_bind (RequestBuilder.reduce_headers pre ∅)
              (fun a =>
                 RequestBuilder.reduce_headers post
                   (<[Spec.header_key name := Str.trim value]> a))) as Hred.
  { rewrite reduce_headers_app. f_equal.
    cbn [RequestBuilder.reduce_headers]. unfold Wire.header_line.
    cbn [fst snd]. by rewrite header_entry_of_line. }
  split; [done|]. split; [done|]. split; [|split; [done|]].
  - rewrite reduce_headers_returns, !Forall_app, Forall_cons.
    unfold Wire.header_line. cbn [fst snd].
    rewrite count_append. cbn [Str.count]. rewrite char_eqb_refl.
    split; [by intros (? & _ & ?)|intros [? ?]; repeat split; [done|lia|done]].
  - intros hdrs. rewrite Hred.
    destruct (RequestBuilder.reduce_headers pre ∅) as [a|]; [|done].
    cbn [res_bind]. intros Hr Hpost.
    rewrite (reduce_headers_keeps _ _ _ _ Hr Hpost).
    apply lookup_insert_eq.
Qed.

End HeaderLines.

(** ** More statements at work *)

Section MoreInstances.

Lemma stored_header_value_is_trimmed_witness :
  Str.no_leading_space "curl/8" = true
  /\ Str.no_trailing_space "curl/8" = true
  /\ Str.trim "curl/8" = "curl/8".
Proof.
  apply (stored_header_value_is_trimmed "User-Agent:  curl/8 " "user_agent").
  vm_compute. reflexivity.
Defined.

Lemma compression_follows_accept_encoding_witness :
  encoding_decision
    (headers (mkReq "GET" (Some "/") ∅
                {[ "accept_encoding" := "br, gzip" ]} EmptyString))
  = match headers (mkReq "GET" (Some "/") ∅
                     {[ "accept_encoding" := "br, gzip" ]} EmptyString)
            !! "accept_encoding" with
    | Some v => bool_decide ("gzip" ∈ Str.trim <$> Str.split_char "," v)
    | None => false
    end.
Proof.
  apply (@compression_follows_accept_encoding unit
           (Wire.request "GET / HTTP/1.1" ["Accept-Encoding: br, gzip"]
              EmptyString)
           (Some [("/", tt)])).
  vm_compute. reflexivity.
Defined.

Lemma header_line_without_colon_is_fatal_witness :
  on_data (app (H := framing))
    (Wire.request "GET / HTTP/1.1" ["Host localhost"] EmptyString) Wire.sys0
  = (Throw TypeError, Wire.sys0).
Proof.
  apply header_line_without_colon_is_fatal.
  vm_compute. apply Exists_cons_hd. reflexivity.
Defined.

Lemma body_with_line_break_is_fatal_witness :
  on_data (app (H := framing))
    (Wire.request "POST /files/notes HTTP/1.1" ["Host: localhost"]
       ("one" +:+ Str.CRLF +:+ "two")) Wire.sys0
  = (Throw TypeError, Wire.sys0).
Proof.
  apply body_with_line_break_is_fatal.
  - vm_compute. reflexivity.
  - repeat constructor.
  - vm_compute. reflexivity.
Defined.

Lemma parameters_are_plain_names_witness :
  Spec.is_value "abc" = true
  /\ Str.count "/" "abc" = 0
  /\ Str.count "." "abc" = 0
  /\ Str.count " " "abc" = 0.
Proof.
  apply (@parameters_are_plain_names unit
           (Wire.request "GET /item.abc HTTP/1.1" ["Host: localhost:4221"]
              EmptyString)
           [("/item.:id", tt)]
           (mkReq "GET" (Some "/item.:id") {[ "id" := "abc" ]}
                  {[ "host" := "localhost" ]} EmptyString)
           "id").
  - constructor; [|constructor]. eexists. vm_compute. reflexivity.
  - vm_compute. reflexivity.
  - vm_compute. reflexivity.
Defined.

Lemma build_of_well_formed_request_witness :
  RequestBuilder.build
    (Wire.request (Wire.request_line "GET" "/echo/abc" "HTTP/1.1")
       (Wire.header_line <$> Wire.agent_headers) EmptyString)
    (Some [("/", tt); ("/echo/:str", tt)])
  = Val (mkReq "GET"
           (Some (match Spec.first_match
                          (JsMap.keys [("/", tt); ("/echo/:str", tt)])
                          "/echo/abc" with
                  | Some found => found.1
                  | None => "/echo/abc"
                  end))
           (match Spec.first_match
                    (JsMap.keys [("/", tt); ("/echo/:str", tt)])
                    "/echo/abc" with
            | Some found =>
                RequestBuilder.assign_params
                  (Regex.param_names found.1) found.2.*2 ∅
            | None => ∅
            end)
           (Wire.stored_headers Wire.agent_headers) EmptyString).
Proof.
  apply (@build_of_well_formed_request unit).
  - vm_compute. reflexivity.
  - vm_compute. reflexivity.
  - vm_compute. reflexivity.
  - vm_compute. reflexivity.
  - split; repeat constructor; vm_compute; lia.
  - repeat constructor.
Defined.

Lemma app_stores_only_plain_names_witness :
  default EmptyString
    (Str.split_char " "
       (Wire.request "POST /files/new HTTP/1.1" ["Host: localhost"] "hi")
     !! 0) = "POST"
  /\ writable Wire.sys0 "/tmp/new" = true
  /\ exists name,
       Spec.is_value name = true /\ "/tmp/new" = served Wire.sys0 +:+ name.
Proof.
  apply (@app_stores_only_plain_names framing).
  vm_compute. discriminate.
Defined.

Lemma register_upserts_witness :
  JsMap.get "GET"
    (register "GET" "/" (get_root (H := framing)) new_HttpServer)
    = Some (JsMap.set "/" (get_root (H := framing)) [])
  /\ JsMap.get "/" (JsMap.set "/" (get_root (H := framing)) [])
     = Some (get_root (H := framing))
  /\ (forall u, u ≠ "/" ->
        JsMap.get u (JsMap.set "/" (get_root (H := framing)) [])
          = JsMap.get u [])
  /\ JsMap.keys (JsMap.set "/" (get_root (H := framing)) [])
     = (if bool_decide ("/" ∈ JsMap.keys ([] : JsMap.t HttpEndpoint))
        then JsMap.keys ([] : JsMap.t HttpEndpoint)
        else JsMap.keys ([] : JsMap.t HttpEndpoint) ++ ["/"])
  /\ (forall m', m' ≠ "GET" ->
        JsMap.get m'
          (register "GET" "/" (get_root (H := framing)) new_HttpServer)
          = JsMap.get m' new_HttpServer)
  /\ (forall callback',
        register "GET" "/" callback'
          (register "GET" "/" (get_root (H := framing)) new_HttpServer)
          = register "GET" "/" callback' new_HttpServer).
Proof.
  apply (register_upserts "GET" "/" (get_root (H := framing))
           new_HttpServer []).
  vm_compute. reflexivity.
Defined.

Lemma other_methods_are_never_answered_witness :
  JsMap.keys (app (H := framing)) = ["GET"; "POST"]
  /\ on_data (app (H := framing))
       (Wire.request "DELETE /files/notes HTTP/1.1" ["Host: localhost"]
          EmptyString) Wire.sys0
     = (Throw TypeError, Wire.sys0).
Proof.
  apply (other_methods_are_never_answered (app (H := framing))).
  - unfold app. repeat constructor.
  - apply not_elem_of_cons. split; [vm_compute; discriminate|].
    apply not_elem_of_cons. split; [vm_compute; discriminate|].
    apply not_elem_of_nil.
Defined.

Lemma body_is_read_as_a_header_witness :
  FileServer.headers_of
    (Wire.request "POST /files/notes HTTP/1.1"
       (Wire.header_line <$> [("Host", " localhost:4221")]) "hello world")
  = <[(FileServer.header_entry "hello world").1
        := (FileServer.header_entry "hello world").2]>
      (<[EmptyString := None]>
         (FileServer.stored_headers [("Host", " localhost:4221")])).
Proof.
  apply (body_is_read_as_a_header "POST /files/notes HTTP/1.1" "hello world"
           [("Host", " localhost:4221")]).
  - vm_compute. reflexivity.
  - repeat constructor.
  - vm_compute. reflexivity.
  - repeat constructor.
Defined.

Lemma failed_compression_sends_plain_witness :
  exists r',
    send (H := refusing) (Some (Plain "hello"))
         (status S200 (new_HttpRes true)) Wire.sys0
    = (Val r',
       wrote Wire.sys0
         (Text (head_text r')
            :: body_writes (data_body (Some (Plain "hello")))))
    /\ (send (H := refusing) (Some (Plain "hello"))
             (status S200 (new_HttpRes true)) Wire.sys0).2
       = (send (H := refusing) (Some (Plain "hello"))
               (mkRes (statusCode (status S200 (new_HttpRes true)))
                      (res_headers (status S200 (new_HttpRes true))) false)
               Wire.sys0).2
    /\ JsMap.get "Content-Encoding" (res_headers r')
       = JsMap.get "Content-Encoding"
           (res_headers (status S200 (new_HttpRes true))).
Proof.
  apply (@failed_compression_sends_plain refusing); vm_compute; reflexivity.
Defined.

Lemma headers_of_request_witness :
  Str.split_crlf
    (Wire.request "GET /user-agent HTTP/1.1"
       (["Host: localhost:4221"]
          ++ Wire.header_line ("User-Agent", " test-agent")
          :: ["Accept: */*"]) EmptyString)
    = "GET /user-agent HTTP/1.1"
        :: (["Host: localhost:4221"]
              ++ Wire.header_line ("User-Agent", " test-agent")
              :: ["Accept: */*"])
        ++ [EmptyString; EmptyString]
  /\ RequestBuilder.header_lines
       (Str.split_crlf
          (Wire.request "GET /user-agent HTTP/1.1"
             (["Host: localhost:4221"]
                ++ Wire.header_line ("User-Agent", " test-agent")
                :: ["Accept: */*"]) EmptyString))
     = ["Host: localhost:4221"]
         ++ Wire.header_line ("User-Agent", " test-agent")
         :: ["Accept: */*"]
  /\ ((exists hdrs,
         RequestBuilder.reduce_headers
           (RequestBuilder.header_lines
              (Str.split_crlf
                 (Wire.request "GET /user-agent HTTP/1.1"
                    (["Host: localhost:4221"]
                       ++ Wire.header_line ("User-Agent", " test-agent")
                       :: ["Accept: */*"]) EmptyString)))
           ∅ = Val hdrs)
      <-> Forall (fun l => Str.count ":" l ≠ 0)
                 (["Host: localhost:4221"] ++ ["Accept: */*"]))
  /\ RequestBuilder.reduce_headers
       (RequestBuilder.header_lines
          (Str.split_crlf
             (Wire.request "GET /user-agent HTTP/1.1"
                (["Host: localhost:4221"]
                   ++ Wire.header_line ("User-Agent", " test-agent")
                   :: ["Accept: */*"]) EmptyString)))
       ∅
     = res_bind (RequestBuilder.reduce_headers ["Host: localhost:4221"] ∅)
         (fun a =>
            RequestBuilder.reduce_headers ["Accept: */*"]
              (<[Spec.header_key "User-Agent" := Str.trim " test-agent"]> a))
  /\ (forall hdrs,
        RequestBuilder.reduce_headers
          (RequestBuilder.header_lines
             (Str.split_crlf
                (Wire.request "GET /user-agent HTTP/1.1"
                   (["Host: localhost:4221"]
                      ++ Wire.header_line ("User-Agent", " test-agent")
                      :: ["Accept: */*"]) EmptyString)))
          ∅ = Val hdrs ->
        Forall (fun l => forall k v,
                  RequestBuilder.header_entry l = Val (k, v) ->
                  k ≠ Spec.header_key "User-Agent") ["Accept: */*"] ->
        hdrs !! Spec.header_key "User-Agent" = Some (Str.trim " test-agent")).
Proof.
  apply (headers_of_request "GET /user-agent HTTP/1.1" EmptyString
           ["Host: localhost:4221"] ["Accept: */*"]
           "User-Agent" " test-agent").
  - vm_compute. reflexivity.
  - vm_compute. reflexivity.
  - repeat constructor.
  - vm_compute. reflexivity.
  - vm_compute. reflexivity.
  - vm_compute. lia.
Defined.

Lemma gzip_negotiated_response_witness :
  exists r',
    send (H := framing) (Some (Plain "hello"))
         (status S200 (new_HttpRes true)) Wire.sys0
      = (Val r',
         wrote Wire.sys0
           [Text (head_text r'); Bytes (x1f :: x8b :: Str.utf8 "hello")])
    /\ gunzipSync (Zlib := framing) (x1f :: x8b :: Str.utf8 "hello")
       = Some (body_bytes (data_body (Some (Plain "hello"))))
    /\ JsMap.get "Content-Encoding" (res_headers r') = Some "gzip"
    /\ JsMap.get "Content-Length" (res_headers r')
       = Some (Str.of_nat (length (x1f :: x8b :: Str.utf8 "hello")))
    /\ Wire.header_values "Content-Encoding" (head_text r') = ["gzip"]
    /\ Wire.header_values "Content-Length" (head_text r')
       = [Str.of_nat (length (x1f :: x8b :: Str.utf8 "hello"))]
    /\ (res_headers (status S200 (new_HttpRes true)) = [] ->
        head_text r'
        = status_line (statusCode (status S200 (new_HttpRes true)))
            +:+ ("Content-Type: text/plain" +:+ Str.CRLF
                   +:+ "Content-Length: "
                   +:+ Str.of_nat (length (x1f :: x8b :: Str.utf8 "hello"))
                   +:+ Str.CRLF +:+ "Content-Encoding: gzip" +:+ Str.CRLF)
            +:+ Str.CRLF).
Proof.
  apply (@gzip_negotiated_response framing framing_laws
           (mkReq "GET" (Some "/echo/:str") {[ "str" := "hello" ]}
                  {[ "accept_encoding" := "gzip" ]} EmptyString)).
  - vm_compute. reflexivity.
  - vm_compute. reflexivity.
  - vm_compute. reflexivity.
  - repeat constructor.
Defined.

Lemma identity_response_witness :
  exists r',
    send (H := framing) (Some (Plain "hello"))
         (status S200 (new_HttpRes false)) Wire.sys0
      = (Val r',
         wrote Wire.sys0
           (Text (head_text r')
              :: body_writes (data_body (Some (Plain "hello")))))
    /\ JsMap.get "Content-Encoding" (res_headers r') = None
    /\ Wire.header_values "Content-Encoding" (head_text r') = []
    /\ body_writes (data_body (Some (Plain "hello")))
       = (if Str.truthy "hello" then [Text "hello"] else [])
    /\ wire (body_writes (data_body (Some (Plain "hello"))))
       = Str.utf8 "hello"
    /\ (res_headers (status S200 (new_HttpRes false)) = [] ->
        head_text r'
        = status_line (statusCode (status S200 (new_HttpRes false)))
            +:+ ("Content-Type: text/plain" +:+ Str.CRLF
                   +:+ "Content-Length: "
                   +:+ Str.of_nat (Str.byteLength "hello") +:+ Str.CRLF)
            +:+ Str.CRLF).
Proof.
  apply (@identity_response framing
           (mkReq "GET" (Some "/echo/:str") {[ "str" := "hello" ]}
                  ∅ EmptyString)).
  - left. vm_compute. reflexivity.
  - vm_compute. reflexivity.
  - vm_compute. reflexivity.
  - repeat constructor.
Defined.

Lemma bodyless_send_under_compression_witness :
  exists r',
    send (H := framing) None (new_HttpRes true) Wire.sys0
      = (Val r', wrote Wire.sys0 [Text (head_text r'); Bytes [x1f; x8b]])
    /\ [x1f; x8b] ≠ []
    /\ JsMap.get "Content-Encoding" (res_headers r') = Some "gzip"
    /\ JsMap.get "Content-Length" (res_headers r')
       = Some (Str.of_nat (length [x1f; x8b]))
    /\ Wire.header_values "Content-Encoding" (head_text r') = ["gzip"]
    /\ Wire.header_values "Content-Length" (head_text r')
       = [Str.of_nat (length [x1f; x8b])]
    /\ (res_headers (new_HttpRes true) = [] ->
        res_headers r' = [("Content-Encoding", "gzip");
                          ("Content-Length", Str.of_nat (length [x1f; x8b]))]
        /\ head_text r'
           = status_line (statusCode (new_HttpRes true))
               +:+ "Content-Encoding: gzip" +:+ Str.CRLF
               +:+ "Content-Length: " +:+ Str.of_nat (length [x1f; x8b])
               +:+ Str.CRLF +:+ Str.CRLF).
Proof.
  apply (@bodyless_send_under_compression framing framing_laws).
  - vm_compute. reflexivity.
  - vm_compute. reflexivity.
  - repeat constructor.
Defined.

Lemma sent_header_names_are_distinct_witness :
  exists r' body,
    send (H := framing) (Some (Plain "hello"))
         (header "Content-Type" "text/html"
            (header "X-Request" "7" (new_HttpRes true))) Wire.sys0
    = (Val r', wrote Wire.sys0 (Text (head_text r') :: body))
    /\ Wire.head_lines (head_text r')
       = (fun h => h.1 +:+ ": " +:+ h.2) <$> res_headers r'
    /\ head_text r'
       = status_line (statusCode r')
           +:+ foldr (fun line rest => line +:+ Str.CRLF +:+ rest) Str.CRLF
                     (Wire.head_lines (head_text r'))
    /\ NoDup (Wire.line_name <$> Wire.head_lines (head_text r')).
Proof.
  apply (@sent_header_names_are_distinct framing).
  split; [|split].
  - apply (bool_decide_unpack _). vm_compute. exact I.
  - repeat constructor; vm_compute; reflexivity.
  - repeat constructor; vm_compute; (reflexivity || discriminate).
Defined.

Lemma content_length_counts_the_body_witness :
  exists r' body,
    send (H := framing) (Some (Plain "hello"))
         (status S200 (new_HttpRes false)) Wire.sys0
      = (Val r', wrote Wire.sys0 (Text (head_text r') :: body))
    /\ JsMap.get "Content-Length" (res_headers r')
       = Some (Str.of_nat (length (wire body)))
    /\ Wire.header_values "Content-Length" (head_text r')
       = [Str.of_nat (length (wire body))]
    /\ (res_headers (status S200 (new_HttpRes false)) = [] ->
        encode (status S200 (new_HttpRes false)) = false ->
        head_text r'
        = status_line (statusCode (status S200 (new_HttpRes false)))
            +:+ ("Content-Type: text/plain" +:+ Str.CRLF)
            +:+ ("Content-Length: " +:+ Str.of_nat (length (wire body))
                   +:+ Str.CRLF)
            +:+ Str.CRLF).
Proof.
  apply (@content_length_counts_the_body framing).
  - left. eexists. reflexivity.
  - repeat constructor.
Defined.

Lemma stored_file_is_served_witness :
  exists s1 r body,
    on_data (app (H := framing))
      (Wire.request (Wire.request_line "POST" ("/files/" +:+ "new") "HTTP/1.1")
         ["Host: localhost:4221"] "hi") Wire.sys0
    = (Val tt, s1)
    /\ socket s1 = socket Wire.sys0 ++ Text (head_text r) :: body_writes body
    /\ statusCode r = S201
    /\ disk s1 = <[served Wire.sys0 +:+ "new" := Str.utf8 "hi"]>
                   (disk Wire.sys0)
    /\ on_data (app (H := framing))
         (Wire.request
            (Wire.request_line "GET" ("/files/" +:+ "new") "HTTP/1.1")
            ["Host: localhost:4221"; "Accept: */*"] EmptyString) s1
       = (Val tt,
          wrote s1
            [Text (status_line S200
                     +:+ header_block
                           [("Content-Type", "application/octet-stream");
                            ("Content-Length",
                             Str.of_nat (length (Str.utf8 "hi")))]
                     +:+ Str.CRLF);
             Bytes (Str.utf8 "hi")]).
Proof.
  apply (@stored_file_is_served framing "new" "hi"
           ["Host: localhost:4221"] ["Host: localhost:4221"; "Accept: */*"]
           {[ "host" := "localhost"; "accept" := "*/*" ]}).
  - vm_compute. reflexivity.
  - vm_compute. reflexivity.
  - vm_compute. reflexivity.
  - vm_compute. reflexivity.
  - repeat constructor; vm_compute; discriminate.
  - repeat constructor.
  - vm_compute. reflexivity.
  - vm_compute. reflexivity.
Defined.

Lemma echo_answers_witness :
  on_data (app (H := framing))
    (Wire.request (Wire.request_line "GET" ("/echo/" +:+ "abc") "HTTP/1.1")
       ["Host: localhost:4221"; "User-Agent: curl/8"] EmptyString) Wire.sys0
  = (Val tt,
     wrote Wire.sys0
       (if Spec.is_value "abc" then
          [Text (status_line S200
                   +:+ header_block
                         [("Content-Type", "text/plain");
                          ("Content-Length",
                           Str.of_nat (Str.byteLength "abc"))]
                   +:+ Str.CRLF);
           Text "abc"]
        else if String.eqb "abc" ":str" then
          [Text (status_line S200 +:+ Str.CRLF)]
        else [Text not_found_frame])).
Proof.
  apply (@echo_answers framing "abc"
           ["Host: localhost:4221"; "User-Agent: curl/8"]
           {[ "host" := "localhost"; "user_agent" := "curl/8" ]} Wire.sys0).
  - vm_compute. reflexivity.
  - vm_compute. reflexivity.
  - repeat constructor.
  - vm_compute. reflexivity.
  - vm_compute. reflexivity.
Defined.

Lemma user_agent_answers_witness :
  on_data (app (H := framing))
    (Wire.request (Wire.request_line "GET" "/user-agent" "HTTP/1.1")
       ["Host: localhost:4221"; "User-Agent: curl/8"] EmptyString) Wire.sys0
  = (Val tt,
     wrote Wire.sys0
       (match ({[ "host" := "localhost"; "user_agent" := "curl/8" ]}
                 : gmap string string) !! "user_agent" with
        | Some (String c v) =>
            [Text (status_line S200
                     +:+ header_block
                           [("Content-Type", "text/plain");
                            ("Content-Length",
                             Str.of_nat (Str.byteLength (String c v)))]
                     +:+ Str.CRLF);
             Text (String c v)]
        | _ =>
            [Text (status_line S404
                     +:+ header_block
                           [("Content-Type", "text/plain");
                            ("Content-Length", "27")]
                     +:+ Str.CRLF);
             Text "No user-agent header found."]
        end)).
Proof.
  apply (@user_agent_answers framing
           ["Host: localhost:4221"; "User-Agent: curl/8"]
           {[ "host" := "localhost"; "user_agent" := "curl/8" ]} Wire.sys0).
  - repeat constructor.
  - vm_compute. reflexivity.
  - vm_compute. reflexivity.
Defined.

(** The headers of a request with a port in its [Host] line: the line
    of the user agent is stored as it stands, whatever the builder makes
    of the line before it. *)
Lemma agent_request_headers :
  RequestBuilder.reduce_headers
    ["Host: localhost:4221"; "User-Agent: test-agent"; "Accept: */*"] ∅
  = Val {[ "host" := "localhost"; "user_agent" := "test-agent";
           "accept" := "*/*" ]}.
Proof. by vm_compute. Qed.

End MoreInstances.
